(** * LLM gateway log analysis: a shallow embedding of the analysis scripts

    The development embeds the three computations of
    [backend/scripts/analyze_conversations.py] and
    [backend/scripts/log_analysis_report.py] that carry the semantics of the
    tool: the event-stream decoder [parse_sse_response], the conversation
    correlator of [analyze_conversations] with its summary statistics, and the
    request statistics of [analyze_detailed_logs].

    Python values are embedded as follows.
    - A [str] is a [string]; every [ascii] stands for the code point of the
      same number, so the embedding covers texts over code points below 256.
    - The result of [json.loads] is a [json] value.  Numbers are Python
      [int]s ([Z]); documents with fractional or exponent literals are outside
      the embedded fragment.
    - A [dict] is an association list in insertion order whose keys are
      pairwise different for Python's [==].
    - An exception is a value of [exn]; a computation that may raise returns a
      [result], and code that mutates its variables before it raises is
      written in the state-and-exception monad [M]. *)

From Stdlib Require Import ZArith QArith List String Ascii Bool Arith Lia.
Import ListNotations.

Set Warnings "-register-all".
Local Open Scope string_scope.
Local Open Scope list_scope.
Local Open Scope Z_scope.

(** ** Exceptions and results *)

Inductive exn : Type :=
| KeyError
| TypeError
| AttributeError
| ValueError
| JSONDecodeError
| ZeroDivisionError.

Inductive result (A : Type) : Type :=
| Ok (a : A)
| Raise (e : exn).

Arguments Ok {A} a.
Arguments Raise {A} e.

Definition rbind {A B : Type} (r : result A) (k : A -> result B) : result B :=
  match r with
  | Ok a => k a
  | Raise e => Raise e
  end.

(** ** The state-and-exception monad

    [M S A] is a computation over mutable variables of type [S]: it returns
    the variables as they are when it ends, together with its value or the
    exception that ended it.  Assignments made before a [raise] stay. *)

Definition M (S A : Type) : Type := S -> result A * S.

Definition ret {S A : Type} (a : A) : M S A := fun s => (Ok a, s).

Definition bind {S A B : Type} (m : M S A) (k : A -> M S B) : M S B :=
  fun s =>
    match m s with
    | (Ok a, s') => k a s'
    | (Raise e, s') => (Raise e, s')
    end.

Definition raise {S A : Type} (e : exn) : M S A := fun s => (Raise e, s).

Definition lift {S A : Type} (r : result A) : M S A := fun s => (r, s).

Definition modify {S : Type} (f : S -> S) : M S unit := fun s => (Ok tt, f s).

(** [try: m except Exception as e: h e] *)
Definition try_except {S A : Type} (m : M S A) (h : exn -> M S A) : M S A :=
  fun s =>
    match m s with
    | (Ok a, s') => (Ok a, s')
    | (Raise e, s') => h e s'
    end.

(** [try: m except: pass] *)
Definition try_pass {S : Type} (m : M S unit) : M S unit :=
  try_except m (fun _ => ret tt).

Declare Scope monad_scope.
Delimit Scope monad_scope with monad.
Notation "x <- m ;; k" := (bind m (fun x => k))
  (at level 61, m at next level, right associativity) : monad_scope.
Notation "m ;;; k" := (bind m (fun _ => k))
  (at level 61, right associativity) : monad_scope.
Notation "x <~ r ;; k" := (rbind r (fun x => k))
  (at level 61, r at next level, right associativity) : monad_scope.

(** A [for] loop whose body may raise: the first exception ends the loop. *)
Fixpoint for_each {S A : Type} (body : A -> M S unit) (l : list A) : M S unit :=
  match l with
  | [] => ret tt
  | a :: l' => bind (body a) (fun _ => for_each body l')
  end.

(** ** JSON values and Python dictionaries *)

(** The hashable values that occur as dictionary keys. *)
Inductive pykey : Type :=
| KNone
| KBool (b : bool)
| KInt (z : Z)
| KStr (s : string).

Inductive json : Type :=
| JNull
| JBool (b : bool)
| JInt (z : Z)
| JStr (s : string)
| JArr (l : list json)
| JObj (d : list (pykey * json)).

Definition dict : Type := list (pykey * json).

(** Python compares [True] and [1] (and [False] and [0]) equal, and hashes
    them alike: as keys they are the same key. *)
Definition key_norm (k : pykey) : pykey :=
  match k with
  | KBool true => KInt 1
  | KBool false => KInt 0
  | _ => k
  end.

Definition key_raw_eqb (a b : pykey) : bool :=
  match a, b with
  | KNone, KNone => true
  | KBool x, KBool y => Bool.eqb x y
  | KInt x, KInt y => Z.eqb x y
  | KStr x, KStr y => String.eqb x y
  | _, _ => false
  end.

Definition key_eqb (a b : pykey) : bool :=
  key_raw_eqb (key_norm a) (key_norm b).

(** [hash(v)]: lists and dictionaries are unhashable. *)
Definition to_key (v : json) : result pykey :=
  match v with
  | JNull => Ok KNone
  | JBool b => Ok (KBool b)
  | JInt z => Ok (KInt z)
  | JStr s => Ok (KStr s)
  | JArr _ | JObj _ => Raise TypeError
  end.

Definition key_json (k : pykey) : json :=
  match k with
  | KNone => JNull
  | KBool b => JBool b
  | KInt z => JInt z
  | KStr s => JStr s
  end.

(** [bool(v)] *)
Definition truthy (v : json) : bool :=
  match v with
  | JNull => false
  | JBool b => b
  | JInt z => negb (z =? 0)
  | JStr s => negb (String.eqb s "")
  | JArr l => match l with [] => false | _ => true end
  | JObj d => match d with [] => false | _ => true end
  end.

(** [v == s] for a string literal [s] *)
Definition eq_str (v : json) (s : string) : bool :=
  match v with
  | JStr t => String.eqb t s
  | _ => false
  end.

(** A lookup in an association list keyed by Python keys; it serves the
    dictionaries, the counters and the conversation tables alike. *)
Fixpoint assoc_get {V : Type} (k : pykey) (d : list (pykey * V)) : option V :=
  match d with
  | [] => None
  | (k', v) :: d' => if key_eqb k k' then Some v else assoc_get k d'
  end.

(** [d[k] = f(d[k])] where a missing [d[k]] reads as [dflt]: the entry keeps
    its place and its key object when it exists, and is appended otherwise. *)
Fixpoint upsert {V : Type} (dflt : V) (k : pykey) (f : V -> V)
    (d : list (pykey * V)) : list (pykey * V) :=
  match d with
  | [] => [(k, f dflt)]
  | (k', v) :: d' =>
      if key_eqb k k' then (k', f v) :: d'
      else (k', v) :: upsert dflt k f d'
  end.

(** The value an update of [d[k]] starts from. *)
Definition current {V : Type} (dflt : V) (k : pykey) (d : list (pykey * V)) : V :=
  match assoc_get k d with
  | Some v => v
  | None => dflt
  end.

(** The keys of a table are pairwise different for Python's [==]. *)
Fixpoint keys_distinct {V : Type} (d : list (pykey * V)) : Prop :=
  match d with
  | [] => True
  | (k, _) :: d' => assoc_get k d' = None /\ keys_distinct d'
  end.

(** [d[k] = v] *)
Definition dict_set (k : pykey) (v : json) (d : dict) : dict :=
  upsert JNull k (fun _ => v) d.

(** [v.get(k, dflt)]: only a dictionary has the method. *)
Definition py_get (v : json) (k : string) (dflt : json) : result json :=
  match v with
  | JObj d =>
      match assoc_get (KStr k) d with
      | Some x => Ok x
      | None => Ok dflt
      end
  | _ => Raise AttributeError
  end.

(** [v[k]] for a string [k]: a dictionary raises [KeyError] when the key is
    missing; a list or a string cannot be indexed by a string, and the other
    values cannot be indexed at all. *)
Definition py_getitem (v : json) (k : string) : result json :=
  match v with
  | JObj d =>
      match assoc_get (KStr k) d with
      | Some x => Ok x
      | None => Raise KeyError
      end
  | _ => Raise TypeError
  end.

(** [json.loads(v)] on a decoded value: only a string is accepted, and a
    text that is no JSON document raises [JSONDecodeError]. *)
Definition py_loads (json_loads : string -> option json) (v : json)
    : result json :=
  match v with
  | JStr s =>
      match json_loads s with
      | Some j => Ok j
      | None => Raise JSONDecodeError
      end
  | _ => Raise TypeError
  end.

(** [a / b] on integers; the quotient is kept exact, where Python rounds it
    to a float. *)
Definition truediv (a b : Z) : result Q :=
  if b =? 0 then Raise ZeroDivisionError
  else Ok (inject_Z a / inject_Z b)%Q.

(** A [collections.Counter]: [c[k] += 1] reads a missing key as zero. *)
Definition counter : Type := list (pykey * Z).

Definition counter_incr (k : pykey) (c : counter) : counter :=
  upsert 0 k (fun n => n + 1) c.

Definition counter_get (k : pykey) (c : counter) : Z :=
  match assoc_get k c with
  | Some n => n
  | None => 0
  end.

(** Does [k] occur in [s] as a substring? *)
Fixpoint contains_sub (k s : string) : bool :=
  match s with
  | "" => String.eqb k ""
  | String _ s' => String.prefix k s || contains_sub k s'
  end.

(** [k in v] for a string [k]: key membership for a dictionary, element
    membership for a list, substring test for a string; the other values are
    not iterable. *)
Definition py_in (k : string) (v : json) : result bool :=
  match v with
  | JObj d => Ok (match assoc_get (KStr k) d with Some _ => true | None => false end)
  | JArr l => Ok (existsb (fun x => eq_str x k) l)
  | JStr s => Ok (contains_sub k s)
  | JNull | JBool _ | JInt _ => Raise TypeError
  end.

(** The characters of a string, each as a string of length one. *)
Fixpoint chars (s : string) : list json :=
  match s with
  | "" => []
  | String c s' => JStr (String c "") :: chars s'
  end.

(** [iter(v)]: the elements of a list, the keys of a dictionary, the
    characters of a string. *)
Definition py_iter (v : json) : result (list json) :=
  match v with
  | JArr l => Ok l
  | JObj d => Ok (map (fun kv => key_json (fst kv)) d)
  | JStr s => Ok (chars s)
  | JNull | JBool _ | JInt _ => Raise TypeError
  end.

(** One element of the sequence given to [dict.update]: it must itself be a
    sequence of length two, whose first item is the key. *)
Definition update_item (x : json) : result (pykey * json) :=
  match py_iter x with
  | Raise e => Raise e
  | Ok [a; b] =>
      match to_key a with
      | Ok k => Ok (k, b)
      | Raise e => Raise e
      end
  | Ok _ => Raise ValueError
  end.

(** [d.update(items)] for a sequence of items: the entries before the first
    bad element are written, then the exception leaves. *)
Fixpoint update_seq (l : list json) : M dict unit :=
  match l with
  | [] => ret tt
  | x :: l' =>
      match update_item x with
      | Ok (k, v) => bind (modify (dict_set k v)) (fun _ => update_seq l')
      | Raise e => raise e
      end
  end.

(** [d.update(other)]: a dictionary gives its entries; anything else is
    iterated as a sequence of items. *)
Definition dict_update (other : json) : M dict unit :=
  match other with
  | JObj o => modify (fun d => fold_left (fun acc kv => dict_set (fst kv) (snd kv) acc) o d)
  | _ =>
      match py_iter other with
      | Ok l => update_seq l
      | Raise e => raise e
      end
  end.

(** ** Python string methods *)

Module Str.

(** [str.isspace] on the code points below 256. *)
Definition isspace (c : ascii) : bool :=
  let n := nat_of_ascii c in
  ((9 <=? n) && (n <=? 13) || (28 <=? n) && (n <=? 32)
   || (n =? 133) || (n =? 160))%nat.

Fixpoint lstrip (s : string) : string :=
  match s with
  | "" => ""
  | String c s' => if isspace c then lstrip s' else s
  end.

Fixpoint rstrip (s : string) : string :=
  match s with
  | "" => ""
  | String c s' =>
      match rstrip s' with
      | "" => if isspace c then "" else String c ""
      | r => String c r
      end
  end.

(** [s.strip()] *)
Definition strip (s : string) : string := rstrip (lstrip s).

Fixpoint drop (n : nat) (s : string) : string :=
  match n, s with
  | O, _ => s
  | S n', String _ s' => drop n' s'
  | S _, "" => ""
  end.

Fixpoint take (n : nat) (s : string) : string :=
  match n, s with
  | S n', String c s' => String c (take n' s')
  | _, _ => ""
  end.

(** [s.split(sep)] for a non-empty [sep]: the pieces between the
    occurrences of [sep], found from left to right without overlap.  [skip]
    counts the characters of an occurrence still to pass. *)
Fixpoint split_from (sep : string) (skip : nat) (s : string) : list string :=
  match s with
  | "" => [""]
  | String c s' =>
      match skip with
      | S k => split_from sep k s'
      | O =>
          if String.prefix sep s
          then "" :: split_from sep (String.length sep - 1) s'
          else match split_from sep 0 s' with
               | p :: ps => String c p :: ps
               | [] => [String c ""]
               end
      end
  end.

Definition split (sep s : string) : list string := split_from sep 0 s.

(** [s.split(c, 1)]: the text before the first [c], and the text after it
    when there is one; the list has length two exactly in that case. *)
Fixpoint split_once (c : ascii) (s : string) : string * option string :=
  match s with
  | "" => ("", None)
  | String a s' =>
      if Ascii.eqb a c then ("", Some s')
      else let (p, q) := split_once c s' in (String a p, q)
  end.

(** [s.replace(old, new, 1)] for a non-empty [old] *)
Fixpoint replace_first (old new s : string) : string :=
  match s with
  | "" => ""
  | String c s' =>
      if String.prefix old s then new ++ drop (String.length old) s
      else String c (replace_first old new s')
  end.

End Str.

(** ** A reference [json.loads]

    The scripts are embedded over an arbitrary [json_loads]; the general
    theorems hold for every such function.  The concrete runs use the parser
    below: it reads the JSON documents whose numbers are integers and whose
    string escapes denote code points below 256, the way [json.loads] does
    (leading and trailing whitespace allowed, strict control characters,
    later duplicate keys overwrite), and refuses every other text. *)

Module JsonRef.

Definition is_ws (c : ascii) : bool :=
  let n := nat_of_ascii c in
  ((n =? 32) || (n =? 9) || (n =? 10) || (n =? 13))%nat.

Fixpoint skip_ws (s : string) : string :=
  match s with
  | "" => ""
  | String c s' => if is_ws c then skip_ws s' else s
  end.

Definition digit_val (c : ascii) : option Z :=
  let n := nat_of_ascii c in
  if ((48 <=? n) && (n <=? 57))%nat then Some (Z.of_nat (n - 48)) else None.

Definition hex_val (c : ascii) : option nat :=
  let n := nat_of_ascii c in
  if ((48 <=? n) && (n <=? 57))%nat then Some (n - 48)%nat
  else if ((65 <=? n) && (n <=? 70))%nat then Some (n - 55)%nat
  else if ((97 <=? n) && (n <=? 102))%nat then Some (n - 87)%nat
  else None.

Definition simple_escape (c : ascii) : option ascii :=
  match c with
  | "034"%char => Some "034"%char
  | "\"%char => Some "\"%char
  | "/"%char => Some "/"%char
  | "b"%char => Some "008"%char
  | "f"%char => Some "012"%char
  | "n"%char => Some "010"%char
  | "r"%char => Some "013"%char
  | "t"%char => Some "009"%char
  | _ => None
  end.

(** The text after an opening quote: the decoded string up to the closing
    quote, and the rest. *)
Fixpoint scan_string (s : string) : option (string * string) :=
  match s with
  | "" => None
  | String c s' =>
      if Ascii.eqb c "034" then Some ("", s')
      else if Ascii.eqb c "\" then
        match s' with
        | String "u" (String h1 (String h2 (String h3 (String h4 r)))) =>
            match hex_val h1, hex_val h2, hex_val h3, hex_val h4 with
            | Some 0%nat, Some 0%nat, Some a, Some b =>
                match scan_string r with
                | Some (t, r') => Some (String (ascii_of_nat (16 * a + b)) t, r')
                | None => None
                end
            | _, _, _, _ => None
            end
        | String e r =>
            match simple_escape e with
            | Some x =>
                match scan_string r with
                | Some (t, r') => Some (String x t, r')
                | None => None
                end
            | None => None
            end
        | "" => None
        end
      else if (nat_of_ascii c <? 32)%nat then None
      else
        match scan_string s' with
        | Some (t, r') => Some (String c t, r')
        | None => None
        end
  end.

Fixpoint digits (acc : Z) (s : string) : Z * string :=
  match s with
  | "" => (acc, "")
  | String c s' =>
      match digit_val c with
      | Some d => digits (acc * 10 + d) s'
      | None => (acc, s)
      end
  end.

Definition starts_fraction (s : string) : bool :=
  match s with
  | String c _ => Ascii.eqb c "." || Ascii.eqb c "e" || Ascii.eqb c "E"
  | "" => false
  end.

Definition scan_int (s : string) : option (Z * string) :=
  let '(neg, s1) :=
    match s with
    | String "-" r => (true, r)
    | _ => (false, s)
    end in
  match s1 with
  | "" => None
  | String c r =>
      match digit_val c with
      | None => None
      | Some d =>
          let '(n, r') := if d =? 0 then (0, r) else digits d r in
          if starts_fraction r' then None
          else Some (if neg then - n else n, r')
      end
  end.

Fixpoint parse_value (fuel : nat) (s : string) : option (json * string) :=
  match fuel with
  | O => None
  | S f =>
      match s with
      | "" => None
      | String c r =>
          if Ascii.eqb c "034" then
            match scan_string r with
            | Some (t, r') => Some (JStr t, r')
            | None => None
            end
          else if Ascii.eqb c "{" then
            match skip_ws r with
            | String "}" r' => Some (JObj [], r')
            | r1 => parse_members f [] r1
            end
          else if Ascii.eqb c "[" then
            match skip_ws r with
            | String "]" r' => Some (JArr [], r')
            | r1 => parse_elems f [] r1
            end
          else if String.prefix "null" s then Some (JNull, Str.drop 4 s)
          else if String.prefix "true" s then Some (JBool true, Str.drop 4 s)
          else if String.prefix "false" s then Some (JBool false, Str.drop 5 s)
          else
            match scan_int s with
            | Some (n, r') => Some (JInt n, r')
            | None => None
            end
      end
  end

with parse_elems (fuel : nat) (acc : list json) (s : string)
    : option (json * string) :=
  match fuel with
  | O => None
  | S f =>
      match parse_value f s with
      | None => None
      | Some (v, r) =>
          match skip_ws r with
          | String "," r' => parse_elems f (v :: acc) (skip_ws r')
          | String "]" r' => Some (JArr (rev (v :: acc)), r')
          | _ => None
          end
      end
  end

with parse_members (fuel : nat) (acc : dict) (s : string)
    : option (json * string) :=
  match fuel with
  | O => None
  | S f =>
      match s with
      | String "034" r =>
          match scan_string r with
          | None => None
          | Some (k, r1) =>
              match skip_ws r1 with
              | String ":" r2 =>
                  match parse_value f (skip_ws r2) with
                  | None => None
                  | Some (v, r3) =>
                      match skip_ws r3 with
                      | String "," r4 =>
                          parse_members f (dict_set (KStr k) v acc) (skip_ws r4)
                      | String "}" r4 =>
                          Some (JObj (dict_set (KStr k) v acc), r4)
                      | _ => None
                      end
                  end
              | _ => None
              end
          end
      | _ => None
      end
  end.

Definition loads (s : string) : option json :=
  match parse_value (2 * String.length s + 2) (skip_ws s) with
  | Some (v, r) => if String.eqb (skip_ws r) "" then Some v else None
  | None => None
  end.

End JsonRef.

(** Test inputs are written with ['] for the double quote and [~] for the
    line feed. *)
Fixpoint txt (s : string) : string :=
  match s with
  | "" => ""
  | String c s' =>
      String (if Ascii.eqb c "'" then "034"%char
              else if Ascii.eqb c "~" then "010"%char else c) (txt s')
  end.

Local Open Scope monad_scope.

(** ** [parse_sse_response] (analyze_conversations.py, lines 8-66) *)

Module Sse.

(** The local variables [full_text], [usage] and [events].  An event is
    recorded with the payload it was decoded to.  After line 58 the variable
    [usage] and the payload of that [message_delta] event share one
    dictionary, so the update of line 62 would also show in the recorded
    payload; this later change of a recorded payload is not tracked, since
    nothing reads a recorded payload again and the caller drops [events]
    (line 115). *)
Record state : Type := mkState {
  full_text : string;
  usage : json;
  events : list (string * json)
}.

Definition init : state :=
  {| full_text := ""; usage := JObj []; events := [] |}.

Definition set_full_text (t : string) (st : state) : state :=
  {| full_text := t; usage := usage st; events := events st |}.

Definition set_usage (u : json) (st : state) : state :=
  {| full_text := full_text st; usage := u; events := events st |}.

Definition append_event (e : string * json) (st : state) : state :=
  {| full_text := full_text st; usage := usage st;
     events := events st ++ [e] |}.

(** Lines 35-44: the position after the first [}] at which the count of
    braces returns to zero, and [0] when there is none. *)
Fixpoint scan_braces (brace_count : Z) (i : nat) (s : string) : nat :=
  match s with
  | "" => 0%nat
  | String char s' =>
      if Ascii.eqb char "{" then scan_braces (brace_count + 1) (S i) s'
      else if Ascii.eqb char "}" then
        if brace_count - 1 =? 0 then (i + 1)%nat
        else scan_braces (brace_count - 1) (S i) s'
      else scan_braces brace_count (S i) s'
  end.

Definition json_end (json_str : string) : nat := scan_braces 0 0 json_str.

(** Line 32 *)
Definition json_str_of (data_part : string) : string :=
  Str.strip (Str.replace_first "data:" "" data_part).

(** [full_text += text] on a string variable *)
Definition str_iadd (text : json) : M state unit :=
  match text with
  | JStr t => modify (fun st => set_full_text (full_text st ++ t) st)
  | _ => raise TypeError
  end.

(** [usage.update(msg_usage)]: [usage] has the method when it is a
    dictionary, which is then updated in place. *)
Definition usage_update (msg_usage : json) : M state unit :=
  fun st =>
    match usage st with
    | JObj d =>
        let (r, d') := dict_update msg_usage d in
        (r, set_usage (JObj d') st)
    | _ => (Raise AttributeError, st)
    end.

(** Lines 49-62: the statements of the [try] block after [json.loads]. *)
Definition handle_event (event_type : string) (data : json) : M state unit :=
  modify (append_event (event_type, data)) ;;;
  (if String.eqb event_type "content_block_delta" then
     delta <- lift (py_get data "delta" (JObj [])) ;;
     text <- lift (py_get delta "text" (JStr "")) ;;
     str_iadd text
   else ret tt) ;;;
  (if String.eqb event_type "message_delta" then
     u <- lift (py_get data "usage" (JObj [])) ;;
     modify (set_usage u)
   else if String.eqb event_type "message_start" then
     message <- lift (py_get data "message" (JObj [])) ;;
     msg_usage <- lift (py_get message "usage" (JObj [])) ;;
     if truthy msg_usage then usage_update msg_usage else ret tt
   else ret tt).

(** The text fragment an event adds to [full_text]: the string at
    [delta.text] of a [content_block_delta] event, and nothing otherwise. *)
Definition fragment (ev : string * json) : string :=
  if String.eqb (fst ev) "content_block_delta" then
    match rbind (py_get (snd ev) "delta" (JObj []))
                (fun d => py_get d "text" (JStr "")) with
    | Ok (JStr t) => t
    | _ => ""
    end
  else "".

Definition join (l : list string) : string :=
  fold_right String.append "" l.

Section Decoder.

Variable json_loads : string -> option json.

(** Lines 18-48: from one piece of the split text to the event kind and the
    decoded payload; [None] where the loop body goes on to the next piece
    ([continue], [json_end] zero, or [json.loads] raising). *)
Definition decode_block (part : string) : option (string * json) :=
  if String.eqb (Str.strip part) "" then None
  else
    match Str.split_once "010" (Str.strip part) with
    | (_, None) => None
    | (line0, Some data_part) =>
        let event_type := Str.strip line0 in
        if negb (String.prefix "data:" data_part) then None
        else
          let json_str := json_str_of data_part in
          let e := json_end json_str in
          if (0 <? e)%nat then
            match json_loads (Str.take e json_str) with
            | Some data => Some (event_type, data)
            | None => None
            end
          else None
    end.

(** The data section of a piece: the text after its first line, when it
    starts with the field name (lines 21-29). *)
Definition data_section (part : string) : option string :=
  match Str.split_once "010" (Str.strip part) with
  | (_, Some data_part) =>
      if String.prefix "data:" data_part then Some data_part else None
  | (_, None) => None
  end.

(** The blocks that carry no event: the data section is missing, or its
    braces never balance, or the text up to the balancing brace is no JSON
    document. *)
Inductive bad_block (part : string) : Prop :=
| data_missing :
    data_section part = None -> bad_block part
| never_balanced (d : string) :
    data_section part = Some d ->
    json_end (json_str_of d) = 0%nat -> bad_block part
| not_json (d : string) :
    data_section part = Some d ->
    json_loads (Str.take (json_end (json_str_of d)) (json_str_of d)) = None ->
    bad_block part.

(** One turn of the loop of line 17; the bare [except] keeps whatever the
    statements before the exception assigned. *)
Definition process_part (st : state) (part : string) : state :=
  match decode_block part with
  | None => st
  | Some (event_type, data) =>
      snd (try_pass (handle_event event_type data) st)
  end.

Definition parse_blocks (parts : list string) : state :=
  fold_left process_part parts init.

Definition parse_sse_response (sse_text : string) : state :=
  parse_blocks (Str.split "event:" sse_text).

End Decoder.

End Sse.

(** ** [analyze_conversations] (analyze_conversations.py, lines 68-283) *)

Module Conversations.

(** One value of the table [conversations].  The default factory creates an
    entry with ['request'] and ['timestamp'] bound to [None] ([JNull]); the
    other keys are absent ([None]) until they are assigned.  The key
    ['response'] of the factory is never assigned nor read and is left out;
    of ['parse_error'] the class of the exception is kept, not the text of
    [str(e)]. *)
Record conv : Type := mkConv {
  request : json;
  timestamp : json;
  model : option json;
  api_key : option json;
  response_raw : option json;
  streaming : option json;
  response_text : option string;
  usage : option json;
  parse_error : option exn
}.

Definition default_conv : conv :=
  {| request := JNull; timestamp := JNull; model := None; api_key := None;
     response_raw := None; streaming := None; response_text := None;
     usage := None; parse_error := None |}.

Definition set_request (v : json) (c : conv) : conv :=
  mkConv v (timestamp c) (model c) (api_key c) (response_raw c)
         (streaming c) (response_text c) (usage c) (parse_error c).

Definition set_timestamp (v : json) (c : conv) : conv :=
  mkConv (request c) v (model c) (api_key c) (response_raw c)
         (streaming c) (response_text c) (usage c) (parse_error c).

Definition set_model (v : json) (c : conv) : conv :=
  mkConv (request c) (timestamp c) (Some v) (api_key c) (response_raw c)
         (streaming c) (response_text c) (usage c) (parse_error c).

Definition set_api_key (v : json) (c : conv) : conv :=
  mkConv (request c) (timestamp c) (model c) (Some v) (response_raw c)
         (streaming c) (response_text c) (usage c) (parse_error c).

Definition set_response_raw (v : json) (c : conv) : conv :=
  mkConv (request c) (timestamp c) (model c) (api_key c) (Some v)
         (streaming c) (response_text c) (usage c) (parse_error c).

Definition set_streaming (v : json) (c : conv) : conv :=
  mkConv (request c) (timestamp c) (model c) (api_key c) (response_raw c)
         (Some v) (response_text c) (usage c) (parse_error c).

Definition set_response_text (v : string) (c : conv) : conv :=
  mkConv (request c) (timestamp c) (model c) (api_key c) (response_raw c)
         (streaming c) (Some v) (usage c) (parse_error c).

Definition set_usage (v : json) (c : conv) : conv :=
  mkConv (request c) (timestamp c) (model c) (api_key c) (response_raw c)
         (streaming c) (response_text c) (Some v) (parse_error c).

Definition set_parse_error (e : exn) (c : conv) : conv :=
  mkConv (request c) (timestamp c) (model c) (api_key c) (response_raw c)
         (streaming c) (response_text c) (usage c) (Some e).

(** The table, in the order in which the request ids were first seen. *)
Definition table : Type := list (pykey * conv).

(** [conversations[request_id][field] = value]: the request id is hashed,
    the entry is created by the default factory when it is missing. *)
Definition set_field (request_id : json) (f : conv -> conv) : M table unit :=
  k <- lift (to_key request_id) ;;
  modify (upsert default_conv k f).

(** Lines 121-125: the text of a non-streaming response document. *)
Fixpoint concat_text (text : string) (items : list json) : result string :=
  match items with
  | [] => Ok text
  | JObj d :: rest =>
      match assoc_get (KStr "text") d with
      | None => concat_text text rest
      | Some (JStr t) => concat_text (text ++ t) rest
      | Some _ => Raise TypeError
      end
  | _ :: rest => concat_text text rest
  end.

Definition extract_text (resp_json : json) : result string :=
  has <~ py_in "content" resp_json ;;
  if has then
    c <~ py_getitem resp_json "content" ;;
    if truthy c then
      c' <~ py_getitem resp_json "content" ;;
      items <~ py_iter c' ;;
      concat_text "" items
    else Ok ""
  else Ok "".

(** [log.get('span', {}).get(name)] and [log.get(name)], read as [None]
    where the value is no dictionary. *)
Definition span_field (log : json) (name : string) : json :=
  match py_get log "span" (JObj []) with
  | Ok span =>
      match py_get span name JNull with
      | Ok v => v
      | Raise _ => JNull
      end
  | Raise _ => JNull
  end.

Definition top_field (log : json) (name : string) : json :=
  match py_get log name JNull with
  | Ok v => v
  | Raise _ => JNull
  end.

(** The four assignments of lines 97-100. *)
Definition request_update (log body : json) (c : conv) : conv :=
  set_timestamp (top_field log "timestamp")
    (set_api_key (span_field log "api_key_name")
       (set_model (span_field log "model")
          (set_request body c))).

(** What the request record writes is the same in both entries. *)
Definition same_request (c c' : conv) : Prop :=
  request c = request c' /\ model c = model c' /\
  api_key c = api_key c' /\ timestamp c = timestamp c'.

(** An update of an entry that reads and writes only what the response
    record writes. *)
Definition response_only (g : conv -> conv) : Prop :=
  exists (r s u : option json -> option json)
         (x : option string -> option string)
         (e : option exn -> option exn),
    forall c,
      g c = mkConv (request c) (timestamp c) (model c) (api_key c)
                   (r (response_raw c)) (s (streaming c))
                   (x (response_text c)) (u (usage c)) (e (parse_error c)).

Section Correlator.

Variable json_loads : string -> option json.

Let loads := py_loads json_loads.

(** Lines 95-102.  In an assignment the right-hand side is evaluated before
    the table is indexed. *)
Definition request_branch (log request_id : json) : M table unit :=
  try_pass
    (fields <- lift (py_getitem log "fields") ;;
     b <- lift (py_getitem fields "body") ;;
     body <- lift (loads b) ;;
     set_field request_id (set_request body) ;;;
     span <- lift (py_getitem log "span") ;;
     m <- lift (py_get span "model" JNull) ;;
     set_field request_id (set_model m) ;;;
     span' <- lift (py_getitem log "span") ;;
     a <- lift (py_get span' "api_key_name" JNull) ;;
     set_field request_id (set_api_key a) ;;;
     ts <- lift (py_get log "timestamp" JNull) ;;
     set_field request_id (set_timestamp ts)).

(** Lines 113-127 *)
Definition interpret_response (request_id body_text streaming : json)
    : M table unit :=
  if truthy streaming then
    match body_text with
    | JStr sse_text =>
        let st := Sse.parse_sse_response json_loads sse_text in
        set_field request_id (set_response_text (Sse.full_text st)) ;;;
        set_field request_id (set_usage (Sse.usage st))
    | _ => raise AttributeError
    end
  else
    resp_json <- lift (loads body_text) ;;
    text <- lift (extract_text resp_json) ;;
    set_field request_id (set_response_text text) ;;;
    u <- lift (py_get resp_json "usage" (JObj [])) ;;
    set_field request_id (set_usage u).

(** Lines 105-130 *)
Definition response_branch (log request_id : json) : M table unit :=
  try_except
    (fields <- lift (py_getitem log "fields") ;;
     body_text <- lift (py_getitem fields "body") ;;
     fields' <- lift (py_getitem log "fields") ;;
     streaming <- lift (py_get fields' "streaming" (JBool false)) ;;
     set_field request_id (set_response_raw body_text) ;;;
     set_field request_id (set_streaming streaming) ;;;
     interpret_response request_id body_text streaming)
    (fun e => set_field request_id (set_parse_error e)).

(** Lines 83-92: the guards ahead of the dispatch.  [None] stands for
    [continue]; otherwise the event type and the request id are returned. *)
Definition record_header (log : json) : result (option (json * json)) :=
  has <~ py_in "fields" log ;;
  if negb has then Ok None
  else
    fields <~ py_getitem log "fields" ;;
    event_type <~ py_get fields "event_type" JNull ;;
    if negb (truthy event_type) then Ok None
    else
      span <~ py_get log "span" (JObj []) ;;
      request_id <~ py_get span "request_id" JNull ;;
      if negb (truthy request_id) then Ok None
      else Ok (Some (event_type, request_id)).

(** Lines 83-130: the loop body on a decoded line. *)
Definition process_record (log : json) : M table unit :=
  header <- lift (record_header log) ;;
  match header with
  | None => ret tt
  | Some (event_type, request_id) =>
      if eq_str event_type "request_body" then
        request_branch log request_id
      else if eq_str event_type "response_body" then
        response_branch log request_id
      else ret tt
  end.

(** Lines 80-133: only [json.JSONDecodeError] is caught around the body. *)
Definition process_line (line : string) : M table unit :=
  try_except
    (match json_loads (Str.strip line) with
     | None => raise JSONDecodeError
     | Some log => process_record log
     end)
    (fun e => match e with
              | JSONDecodeError => ret tt
              | _ => raise e
              end).

(** Lines 78-133: the first pass over the lines, from a given table; an
    exception that leaves the loop ends the program. *)
Definition run (lines : list string) (conversations : table) : result table :=
  match for_each process_line lines conversations with
  | (Ok _, conversations') => Ok conversations'
  | (Raise e, _) => Raise e
  end.

Definition collect (lines : list string) : result table := run lines [].

(** The view of a line as a record: the decoded line, its event type and
    its request id, when the guards of lines 81-92 let it through. *)
Definition line_record (line : string) : option (json * json * json) :=
  match json_loads (Str.strip line) with
  | None => None
  | Some log =>
      match record_header log with
      | Ok (Some (event_type, request_id)) => Some (log, event_type, request_id)
      | _ => None
      end
  end.

(** [json.loads(log['fields']['body'])] (line 96) *)
Definition request_body_of (log : json) : result json :=
  fields <~ py_getitem log "fields" ;;
  b <~ py_getitem fields "body" ;;
  loads b.

(** Is the line a [request_body] record whose body is decoded and whose
    request id is the key [k]? *)
Definition writes_request (k : pykey) (line : string) : bool :=
  match line_record line with
  | Some (log, event_type, request_id) =>
      eq_str event_type "request_body" &&
      match request_body_of log, to_key request_id with
      | Ok _, Ok k' => key_eqb k k'
      | _, _ => false
      end
  | None => false
  end.

(** Is the line a [request_body] or [response_body] record that bears the
    request id of the key [k]? *)
Definition bears_request_id (k : pykey) (line : string) : bool :=
  match line_record line with
  | Some (_, event_type, request_id) =>
      (eq_str event_type "request_body" || eq_str event_type "response_body") &&
      match to_key request_id with
      | Ok k' => key_eqb k k'
      | Raise _ => false
      end
  | None => false
  end.

End Correlator.

(** Lines 136-137 *)
Definition is_complete (v : conv) : bool :=
  match request v, response_text v with
  | JNull, _ => false
  | _, None => false
  | _, Some _ => true
  end.

Definition complete_conversations (conversations : table) : table :=
  filter (fun kv => is_complete (snd kv)) conversations.

(** [conv.get('usage', {}).get(name, 0)] *)
Definition usage_field (name : string) (c : conv) : result json :=
  py_get (match usage c with Some u => u | None => JObj [] end) name (JInt 0).

(** [acc + v] for an [int] accumulator: a [bool] counts as an [int]. *)
Definition int_add (acc : Z) (v : json) : result Z :=
  match v with
  | JInt z => Ok (acc + z)
  | JBool b => Ok (acc + (if b then 1 else 0))
  | _ => Raise TypeError
  end.

(** [sum(conv.get('usage', {}).get(name, 0) for conv in ...)] *)
Fixpoint sum_from (name : string) (acc : Z) (l : table) : result Z :=
  match l with
  | [] => Ok acc
  | (_, c) :: l' =>
      v <~ usage_field name c ;;
      acc' <~ int_add acc v ;;
      sum_from name acc' l'
  end.

Definition sum_usage (name : string) (l : table) : result Z :=
  sum_from name 0 l.

(** [x or 1] *)
Definition or_one (x : Z) : Z := if x =? 0 then 1 else x.

(** Lines 280-282: the cache ratio, in percent, computed only when cache
    reads were counted. *)
Definition cache_ratio (total_cache_read total_input : Z) : result (option Q) :=
  if 0 <? total_cache_read then
    q <~ truediv total_cache_read (or_one total_input) ;;
    Ok (Some (q * inject_Z 100)%Q)
  else Ok None.

Record summary : Type := mkSummary {
  total_conversations : nat;
  total_input : Z;
  total_output : Z;
  total_cache_read : Z;
  total_cache_create : Z;
  cache_hit_percent : option Q
}.

(** Lines 267-283 *)
Definition summarize (conversations : table) : result summary :=
  let complete := complete_conversations conversations in
  ti <~ sum_usage "input_tokens" complete ;;
  to <~ sum_usage "output_tokens" complete ;;
  tcr <~ sum_usage "cache_read_input_tokens" complete ;;
  tcc <~ sum_usage "cache_creation_input_tokens" complete ;;
  r <~ cache_ratio tcr ti ;;
  Ok (mkSummary (List.length complete) ti to tcr tcc r).

End Conversations.

(** ** [analyze_detailed_logs] (log_analysis_report.py, lines 8-214) *)

Module Report.

(** One value of the table [conversations], built at lines 53-58. *)
Record entry : Type := mkEntry {
  model : json;
  api_key : json;
  request : json;
  timestamp : json
}.

(** The variables of the first loop: [stats] with its counters, [errors],
    [conversations] and [request_bodies]. *)
Record state : Type := mkState {
  total_requests : Z;
  models : counter;
  api_keys : counter;
  error_counts : counter;
  errors : list (json * json * json);
  conversations : list (pykey * entry);
  request_bodies : list (json * json * json)
}.

Definition init : state :=
  mkState 0 [] [] [] [] [] [].

Definition add_error (e : json * json * json) (st : state) : state :=
  mkState (total_requests st) (models st) (api_keys st) (error_counts st)
          (errors st ++ [e]) (conversations st) (request_bodies st).

Definition count_error (k : pykey) (st : state) : state :=
  mkState (total_requests st) (models st) (api_keys st)
          (counter_incr k (error_counts st))
          (errors st) (conversations st) (request_bodies st).

Definition count_request (st : state) : state :=
  mkState (total_requests st + 1) (models st) (api_keys st) (error_counts st)
          (errors st) (conversations st) (request_bodies st).

Definition count_model (k : pykey) (st : state) : state :=
  mkState (total_requests st) (counter_incr k (models st)) (api_keys st)
          (error_counts st) (errors st) (conversations st) (request_bodies st).

Definition count_api_key (k : pykey) (st : state) : state :=
  mkState (total_requests st) (models st) (counter_incr k (api_keys st))
          (error_counts st) (errors st) (conversations st) (request_bodies st).

(** [conversations[request_id] = e]: an existing entry is replaced where it
    stands. *)
Definition store (k : pykey) (e : entry) (st : state) : state :=
  mkState (total_requests st) (models st) (api_keys st) (error_counts st)
          (errors st) (upsert e k (fun _ => e) (conversations st))
          (request_bodies st).

Definition add_request_body (b : json * json * json) (st : state) : state :=
  mkState (total_requests st) (models st) (api_keys st) (error_counts st)
          (errors st) (conversations st) (request_bodies st ++ [b]).

Section FirstPass.

Variable json_loads : string -> option json.

(** Lines 31-38: a record of level [ERROR] goes to the error list and to
    the error counter. *)
Definition note_error (log : json) : M state unit :=
  level <- lift (py_get log "level" JNull) ;;
  if eq_str level "ERROR" then
    fields <- lift (py_get log "fields" (JObj [])) ;;
    error_msg <- lift (py_get fields "message" (JStr "")) ;;
    time <- lift (py_get log "timestamp" JNull) ;;
    target <- lift (py_get log "target" JNull) ;;
    modify (add_error (time, error_msg, target)) ;;;
    k <- lift (to_key error_msg) ;;
    modify (count_error k)
  else ret tt.

(** Line 41: [log.get('fields', {}).get('event_type') == 'request_body'] *)
Definition is_request (log : json) : result bool :=
  fields <~ py_get log "fields" (JObj []) ;;
  event_type <~ py_get fields "event_type" JNull ;;
  Ok (eq_str event_type "request_body").

(** Line 43: [log.get('span', {}).get('request_id')] *)
Definition request_id_of (log : json) : result json :=
  span <~ py_get log "span" (JObj []) ;;
  py_get span "request_id" JNull.

(** Lines 46-47: the decoded body and its model, with the key the model
    counts under (hashed by line 48). *)
Definition request_model (log : json) : result (json * json * pykey) :=
  fields <~ py_getitem log "fields" ;;
  b <~ py_getitem fields "body" ;;
  body <~ py_loads json_loads b ;;
  model <~ py_get body "model" (JStr "unknown") ;;
  km <~ to_key model ;;
  Ok (body, model, km).

(** Line 50: the API key, with the key it counts under (hashed by line
    51). *)
Definition request_api_key (log : json) : result (json * pykey) :=
  span <~ py_get log "span" (JObj []) ;;
  api_key <~ py_get span "api_key_name" (JStr "unknown") ;;
  ka <~ to_key api_key ;;
  Ok (api_key, ka).

(** Lines 53-58: the entry, and the key it is stored under. *)
Definition request_entry (log request_id body model api_key : json)
    : result (pykey * entry) :=
  ts <~ py_get log "timestamp" JNull ;;
  kr <~ to_key request_id ;;
  Ok (kr, mkEntry model api_key body ts).

(** Lines 45-66 *)
Definition take_request (log request_id : json) : M state unit :=
  try_pass
    (bm <- lift (request_model log) ;;
     let '(body, model, km) := bm in
     modify (count_model km) ;;;
     ak <- lift (request_api_key log) ;;
     let '(api_key, ka) := ak in
     modify (count_api_key ka) ;;;
     ke <- lift (request_entry log request_id body model api_key) ;;
     modify (store (fst ke) (snd ke)) ;;;
     modify (add_request_body (request_id, model, body))).

(** Lines 31-66: the loop body on a decoded line. *)
Definition process_record (log : json) : M state unit :=
  note_error log ;;;
  is_req <- lift (is_request log) ;;
  if is_req then
    modify count_request ;;;
    request_id <- lift (request_id_of log) ;;
    take_request log request_id
  else ret tt.

(** Lines 27-69 *)
Definition process_line (line : string) : M state unit :=
  try_except
    (match json_loads (Str.strip line) with
     | None => raise JSONDecodeError
     | Some log => process_record log
     end)
    (fun e => match e with
              | JSONDecodeError => ret tt
              | _ => raise e
              end).

(** Lines 25-69, from given values of the variables; an exception that
    leaves the loop ends the program. *)
Definition run (lines : list string) (st : state) : result state :=
  match for_each process_line lines st with
  | (Ok _, st') => Ok st'
  | (Raise e, _) => Raise e
  end.

Definition first_pass (lines : list string) : result state := run lines init.

(** What a line adds to the statistics when the loop body runs through:
    the key its model is counted under, the key its API key is counted
    under, and the entry it stores with its key.  A line that is no
    [request_body] record, or whose body is not decoded to a dictionary,
    adds nothing. *)
Definition request_log (line : string) : option json :=
  match json_loads (Str.strip line) with
  | Some log =>
      match is_request log with
      | Ok true => Some log
      | _ => None
      end
  | None => None
  end.

Definition counted_model (line : string) : option pykey :=
  match request_log line with
  | Some log =>
      match request_model log with
      | Ok (_, _, km) => Some km
      | Raise _ => None
      end
  | None => None
  end.

Definition counted_api_key (line : string) : option pykey :=
  match request_log line with
  | Some log =>
      match request_model log, request_api_key log with
      | Ok _, Ok (_, ka) => Some ka
      | _, _ => None
      end
  | None => None
  end.

Definition stored_entry (line : string) : option (pykey * entry) :=
  match request_log line with
  | Some log =>
      match request_model log, request_api_key log, request_id_of log with
      | Ok (body, model, _), Ok (api_key, _), Ok request_id =>
          match request_entry log request_id body model api_key with
          | Ok ke => Some ke
          | Raise _ => None
          end
      | _, _, _ => None
      end
  | None => None
  end.

(** Does the line store an entry under the key [k]? *)
Definition stores_at (k : pykey) (line : string) : bool :=
  match stored_entry line with
  | Some (k', _) => key_eqb k k'
  | None => false
  end.

(** The number of lines counted under the key [k]. *)
Fixpoint occurrences (k : pykey) (l : list (option pykey)) : Z :=
  match l with
  | [] => 0
  | Some k' :: l' => (if key_eqb k k' then 1 else 0) + occurrences k l'
  | None :: l' => occurrences k l'
  end.

End FirstPass.

(** The counters of lines 177-208.  The first two entries of
    [interaction_types] (tool use, cache use) move together with [has_tools]
    and [has_cache]; [structured_output] is its third entry. *)
Record tally : Type := mkTally {
  streaming_count : Z;
  has_tools : Z;
  has_system_prompt : Z;
  has_cache : Z;
  structured_output : Z
}.

Definition tally0 : tally := mkTally 0 0 0 0 0.

Definition incr_when (b : bool) (n : Z) : Z := if b then n + 1 else n.

(** Lines 198-202: is there a dictionary with a truthy ['cache_control']? *)
Definition cache_marked (sys_msg : json) : bool :=
  match sys_msg with
  | JObj d =>
      match assoc_get (KStr "cache_control") d with
      | Some v => truthy v
      | None => false
      end
  | _ => false
  end.

(** Lines 184-208: the loop body for one conversation. *)
Definition classify (conv : entry) : M tally unit :=
  let req := request conv in
  stream <- lift (py_get req "stream" JNull) ;;
  modify (fun t => mkTally (incr_when (truthy stream) (streaming_count t))
                     (has_tools t) (has_system_prompt t) (has_cache t)
                     (structured_output t)) ;;;
  tools <- lift (py_get req "tools" JNull) ;;
  modify (fun t => mkTally (streaming_count t)
                     (incr_when (truthy tools) (has_tools t))
                     (has_system_prompt t) (has_cache t)
                     (structured_output t)) ;;;
  system <- lift (py_get req "system" JNull) ;;
  modify (fun t => mkTally (streaming_count t) (has_tools t)
                     (incr_when (truthy system) (has_system_prompt t))
                     (has_cache t) (structured_output t)) ;;;
  system' <- lift (py_get req "system" JNull) ;;
  (if truthy system' then
     s <- lift (py_getitem req "system") ;;
     items <- lift (py_iter s) ;;
     modify (fun t => mkTally (streaming_count t) (has_tools t)
                        (has_system_prompt t)
                        (incr_when (existsb cache_marked items) (has_cache t))
                        (structured_output t))
   else ret tt) ;;;
  has <- lift (py_in "output_config" req) ;;
  if has then
    oc <- lift (py_getitem req "output_config") ;;
    format <- lift (py_get oc "format" (JObj [])) ;;
    fmt <- lift (py_get format "type" JNull) ;;
    modify (fun t => mkTally (streaming_count t) (has_tools t)
                       (has_system_prompt t) (has_cache t)
                       (incr_when (eq_str fmt "json_schema")
                                  (structured_output t)))
  else ret tt.

Record features : Type := mkFeatures {
  counts : tally;
  streaming_percent : Q;
  tools_percent : Q;
  system_percent : Q;
  cache_percent : Q
}.

(** [n / len(conversations) * 100] *)
Definition percent (n : Z) (conversations : list (pykey * entry)) : result Q :=
  q <~ truediv n (Z.of_nat (List.length conversations)) ;;
  Ok (q * inject_Z 100)%Q.

(** Lines 177-214: the interaction statistics over the table. *)
Definition interaction_stats (conversations : list (pykey * entry))
    : result features :=
  match for_each classify (map snd conversations) tally0 with
  | (Raise e, _) => Raise e
  | (Ok _, t) =>
      p1 <~ percent (streaming_count t) conversations ;;
      p2 <~ percent (has_tools t) conversations ;;
      p3 <~ percent (has_system_prompt t) conversations ;;
      p4 <~ percent (has_cache t) conversations ;;
      Ok (mkFeatures t p1 p2 p3 p4)
  end.

End Report.

(** ** Notions for the further properties *)

(** The number of occurrences of a character in a text. *)
Fixpoint count_char (c : ascii) (s : string) : Z :=
  match s with
  | "" => 0
  | String a s' => (if Ascii.eqb a c then 1 else 0) + count_char c s'
  end.

(** Opening braces minus closing braces. *)
Definition brace_depth (s : string) : Z :=
  count_char "{" s - count_char "}" s.

(** The blocks of a stream that are decoded, in order, each with its event
    kind and payload. *)
Definition decoded_blocks (json_loads : string -> option json)
    (parts : list string) : list (string * json) :=
  flat_map (fun p => match Sse.decode_block json_loads p with
                     | Some e => [e]
                     | None => []
                     end) parts.

(** Is the value a dictionary? *)
Definition is_obj (v : json) : bool :=
  match v with
  | JObj _ => true
  | _ => false
  end.


(** The decoded lines on which the guards of lines 83-92 raise an exception
    that the handler of line 132 does not catch: a document that is a number,
    a boolean or [null]; a record whose [fields] is no dictionary; a record
    with an event type whose [span] is no dictionary. *)
Inductive aborting_record : json -> exn -> Prop :=
| scalar_document (log : json) :
    match log with JNull | JBool _ | JInt _ => True | _ => False end ->
    aborting_record log TypeError
| fields_not_dict (d : dict) (fields : json) :
    assoc_get (KStr "fields") d = Some fields ->
    is_obj fields = false ->
    aborting_record (JObj d) AttributeError
| span_not_dict (d : dict) (fields event_type span : json) :
    assoc_get (KStr "fields") d = Some fields ->
    py_get fields "event_type" JNull = Ok event_type ->
    truthy event_type = true ->
    assoc_get (KStr "span") d = Some span ->
    is_obj span = false ->
    aborting_record (JObj d) AttributeError.

(** The text a block of a response document contributes (lines 124-125),
    and the blocks line 125 can add to a string: those whose ['text'], if
    any, is a string. *)
Definition block_text (item : json) : string :=
  match item with
  | JObj d =>
      match assoc_get (KStr "text") d with
      | Some (JStr t) => t
      | _ => ""
      end
  | _ => ""
  end.

Definition text_typed (item : json) : bool :=
  match item with
  | JObj d =>
      match assoc_get (KStr "text") d with
      | Some (JStr _) | None => true
      | Some _ => false
      end
  | _ => true
  end.

(** The number a usage field of a conversation stands for in the sums of
    lines 267-270 (a missing usage or field counts zero, [True] counts one),
    and the conversations whose field the sum can add. *)
Definition usage_value (name : string) (c : Conversations.conv) : Z :=
  match Conversations.usage c with
  | Some (JObj d) =>
      match assoc_get (KStr name) d with
      | Some (JInt z) => z
      | Some (JBool true) => 1
      | _ => 0
      end
  | _ => 0
  end.

Definition field_typed (name : string) (c : Conversations.conv) : bool :=
  match Conversations.usage c with
  | None => true
  | Some (JObj d) =>
      match assoc_get (KStr name) d with
      | None | Some (JInt _) | Some (JBool _) => true
      | Some _ => false
      end
  | Some _ => false
  end.

Definition usage_typed (c : Conversations.conv) : bool :=
  field_typed "input_tokens" c && field_typed "output_tokens" c &&
  field_typed "cache_read_input_tokens" c &&
  field_typed "cache_creation_input_tokens" c.

Definition sum_values (name : string) (l : Conversations.table) : Z :=
  fold_right (fun kv acc => usage_value name (snd kv) + acc) 0 l.

(** The sum of the counts of a counter: [sum(c.values())] (line 75). *)
Definition counter_total (c : counter) : Z :=
  fold_right (fun kv acc => snd kv + acc) 0 c.

(** Is the line a record of level [ERROR] (line 31)?  Is it a
    [request_body] record (line 41)? *)
Definition is_error_line (json_loads : string -> option json) (line : string)
    : bool :=
  match json_loads (Str.strip line) with
  | Some log =>
      match py_get log "level" JNull with
      | Ok level => eq_str level "ERROR"
      | Raise _ => false
      end
  | None => false
  end.

Definition is_request_line (json_loads : string -> option json)
    (line : string) : bool :=
  match Report.request_log json_loads line with
  | Some _ => true
  | None => false
  end.

Definition count_lines (p : string -> bool) (lines : list string) : Z :=
  Z.of_nat (List.length (filter p lines)).

(** The requests on which the loop of lines 183-208 runs through: a
    dictionary whose [system], when truthy, can be iterated, and whose
    [output_config], when present, is a dictionary with no [format] or a
    dictionary under [format]. *)
Definition request_shaped (req : json) : bool :=
  match req with
  | JObj d =>
      match assoc_get (KStr "system") d with
      | None => true
      | Some v =>
          negb (truthy v) ||
          match v with
          | JArr _ | JObj _ | JStr _ => true
          | _ => false
          end
      end &&
      match assoc_get (KStr "output_config") d with
      | None => true
      | Some (JObj oc) =>
          match assoc_get (KStr "format") oc with
          | None | Some (JObj _) => true
          | Some _ => false
          end
      | Some _ => false
      end
  | _ => false
  end.

(** ** [analyze_logs] (analyze_logs.py, lines 6-39) *)

Module Logs.

(** One value of the table [conversations]: the default factory binds
    ['request'] and ['response'] to [None]; ['model'] and ['api_key'] are
    absent until a request record assigns them. *)
Record conv : Type := mkConv {
  request : json;
  response : json;
  model : option json;
  api_key : option json
}.

Definition default_conv : conv := mkConv JNull JNull None None.

Definition set_request (v : json) (c : conv) : conv :=
  mkConv v (response c) (model c) (api_key c).

Definition set_response (v : json) (c : conv) : conv :=
  mkConv (request c) v (model c) (api_key c).

Definition set_model (v : json) (c : conv) : conv :=
  mkConv (request c) (response c) (Some v) (api_key c).

Definition set_api_key (v : json) (c : conv) : conv :=
  mkConv (request c) (response c) (model c) (Some v).

Definition table : Type := list (pykey * conv).

(** [conversations[request_id][field] = value] *)
Definition set_field (request_id : json) (f : conv -> conv) : M table unit :=
  k <- lift (to_key request_id) ;;
  modify (upsert default_conv k f).

(** [event_type in ['request_body', 'response_body']] (line 21) *)
Definition known_event (event_type : json) : bool :=
  eq_str event_type "request_body" || eq_str event_type "response_body".

(** Lines 17-26: the guards ahead of the dispatch; [None] stands for
    [continue]. *)
Definition record_header (log : json) : result (option (json * json)) :=
  fields <~ py_get log "fields" (JObj []) ;;
  has <~ py_in "event_type" fields ;;
  if negb has then Ok None
  else
    fields' <~ py_getitem log "fields" ;;
    event_type <~ py_getitem fields' "event_type" ;;
    if negb (known_event event_type) then Ok None
    else
      span <~ py_get log "span" (JObj []) ;;
      request_id <~ py_get span "request_id" JNull ;;
      if negb (truthy request_id) then Ok None
      else Ok (Some (event_type, request_id)).

Section FirstPass.

Variable json_loads : string -> option json.

(** [json.loads(log['fields']['body'])] (lines 29 and 35) *)
Definition body_of (log : json) : result json :=
  fields <~ py_getitem log "fields" ;;
  b <~ py_getitem fields "body" ;;
  py_loads json_loads b.

(** Lines 29-32 *)
Definition request_branch (log request_id : json) : M table unit :=
  body <- lift (body_of log) ;;
  set_field request_id (set_request body) ;;;
  span <- lift (py_getitem log "span") ;;
  m <- lift (py_get span "model" JNull) ;;
  set_field request_id (set_model m) ;;;
  span' <- lift (py_getitem log "span") ;;
  a <- lift (py_get span' "api_key_name" JNull) ;;
  set_field request_id (set_api_key a).

(** Lines 35-36 *)
Definition response_branch (log request_id : json) : M table unit :=
  body <- lift (body_of log) ;;
  set_field request_id (set_response body).

(** Lines 17-36: the loop body on a decoded line. *)
Definition process_record (log : json) : M table unit :=
  header <- lift (record_header log) ;;
  match header with
  | None => ret tt
  | Some (event_type, request_id) =>
      if eq_str event_type "request_body" then
        request_branch log request_id
      else if eq_str event_type "response_body" then
        response_branch log request_id
      else ret tt
  end.

(** Lines 13-39: the handler catches [json.JSONDecodeError] and
    [KeyError] raised anywhere in the body. *)
Definition process_line (line : string) : M table unit :=
  try_except
    (match json_loads (Str.strip line) with
     | None => raise JSONDecodeError
     | Some log => process_record log
     end)
    (fun e => match e with
              | JSONDecodeError | KeyError => ret tt
              | _ => raise e
              end).

(** Lines 11-39, from a given table. *)
Definition run (lines : list string) (conversations : table) : result table :=
  match for_each process_line lines conversations with
  | (Ok _, conversations') => Ok conversations'
  | (Raise e, _) => Raise e
  end.

Definition analyze_logs (lines : list string) : result table := run lines [].

(** The view of a line as a record. *)
Definition line_record (line : string) : option (json * json * json) :=
  match json_loads (Str.strip line) with
  | None => None
  | Some log =>
      match record_header log with
      | Ok (Some (event_type, request_id)) => Some (log, event_type, request_id)
      | _ => None
      end
  end.

End FirstPass.

(** The three assignments of lines 30-32. *)
Definition request_update (log body : json) (c : conv) : conv :=
  set_api_key (Conversations.span_field log "api_key_name")
    (set_model (Conversations.span_field log "model")
       (set_request body c)).

End Logs.

(** ** More sample logs *)

Module MoreSamples.

(** Lines the first pass of [analyze_conversations] passes over, and lines
    it does not survive. *)
Definition other_event_line : string := txt
  "{'fields':{'event_type':'ping'},'span':{'request_id':'r1'}}".

Definition number_line : string := "5".

Definition request_list_id : string := txt
  "{'fields':{'event_type':'request_body','body':'{}'},'span':{'request_id':[1]}}".

Definition response_list_id : string := txt
  "{'fields':{'event_type':'response_body','body':'{}'},'span':{'request_id':[1]}}".

Definition request_broken_body : string := txt
  "{'fields':{'event_type':'request_body','body':'oops'},'span':{'request_id':'r3'}}".

(** The fields of decoded response records: a document with two text
    blocks and a usage, and a document that is a list. *)
Definition document_fields : json :=
  JObj [(KStr "event_type", JStr "response_body");
        (KStr "body",
         JStr (txt "{'content':[{'text':'A'},{'type':'x'},{'text':'B'}],'usage':{'input_tokens':5}}"));
        (KStr "streaming", JBool false)].

Definition list_fields : json :=
  JObj [(KStr "event_type", JStr "response_body");
        (KStr "body", JStr "[1]");
        (KStr "streaming", JBool false)].

(** A table with a complete conversation whose [input_tokens] is a
    string. *)
Definition bad_usage_table : Conversations.table :=
  [(KStr "r1",
    Conversations.mkConv
      (JObj [(KStr "model", JStr "m1")]) JNull None None
      None None (Some "hi")
      (Some (JObj [(KStr "input_tokens", JStr "5")]))
      None)].

(** A record of level [ERROR]. *)
Definition error_line : string := txt
  "{'level':'ERROR','timestamp':'t0','target':'gateway','fields':{'message':'boom'}}".

(** A table of [analyze_detailed_logs] with one streaming request that has
    a cached system prompt. *)
Definition report_table : list (pykey * Report.entry) :=
  [(KStr "r1",
    Report.mkEntry (JStr "m1") (JStr "k1")
      (JObj [(KStr "stream", JBool true);
             (KStr "system",
              JArr [JObj [(KStr "text", JStr "x");
                          (KStr "cache_control",
                           JObj [(KStr "type", JStr "ephemeral")])]])])
      JNull)].

(** Records for [analyze_logs]: a request and a response of [r1], and
    responses whose body is an event stream and a number. *)
Definition logs_request : string := txt
  "{'fields':{'event_type':'request_body','body':'{\'model\':\'m1\'}'},'span':{'request_id':'r1','model':'m1','api_key_name':'k1'}}".

Definition logs_response : string := txt
  "{'fields':{'event_type':'response_body','body':'{\'content\':[]}'},'span':{'request_id':'r1'}}".

Definition logs_stream_response : string := txt
  "{'fields':{'event_type':'response_body','body':'event: message_stop'},'span':{'request_id':'r2'}}".


End MoreSamples.

(** ** Sample logs for the concrete runs *)

Module Sample.

(** A request record and a non-streaming response record of [r1]. *)
Definition request_r1 : string := txt
  "{'timestamp':'t1','fields':{'event_type':'request_body','body':'{\'model\':\'m1\',\'stream\':false}'},'span':{'request_id':'r1','model':'m1','api_key_name':'k1'}}".

Definition response_r1 : string := txt
  "{'fields':{'event_type':'response_body','body':'{\'content\':[{\'text\':\'hi\'}],\'usage\':{\'input_tokens\':5,\'output_tokens\':2}}','streaming':false},'span':{'request_id':'r1'}}".

(** A later request record of [r1]. *)
Definition request_r1_again : string := txt
  "{'timestamp':'t2','fields':{'event_type':'request_body','body':'{\'model\':\'m2\'}'},'span':{'request_id':'r1','model':'m2','api_key_name':'k2'}}".

(** A later request record of [r1] whose body is a JSON list. *)
Definition request_r1_list : string := txt
  "{'timestamp':'t3','fields':{'event_type':'request_body','body':'[1]'},'span':{'request_id':'r1','model':'m3','api_key_name':'k3'}}".

(** A non-streaming response of [r1] whose body is no JSON document. *)
Definition response_r1_broken : string := txt
  "{'fields':{'event_type':'response_body','body':'oops','streaming':false},'span':{'request_id':'r1'}}".

(** A streaming response of [r1] cut in the middle of its second block. *)
Definition response_r1_cut : string := txt
  "{'fields':{'event_type':'response_body','body':'event: content_block_delta\ndata: {\'delta\':{\'text\':\'he\'}}\n\nevent: content_block_delta\ndata: {\'delta\':{\'te','streaming':true},'span':{'request_id':'r1'}}".

(** A response of [r1] that reports cache reads and no fresh input. *)
Definition response_r1_cached : string := txt
  "{'fields':{'event_type':'response_body','body':'{\'content\':[{\'text\':\'hi\'}],\'usage\':{\'input_tokens\':0,\'output_tokens\':2,\'cache_read_input_tokens\':5}}','streaming':false},'span':{'request_id':'r1'}}".

(** A request record whose body has a number where the list of system
    prompts is expected. *)
Definition request_bad_system : string := txt
  "{'fields':{'event_type':'request_body','body':'{\'model\':\'m1\',\'system\':5}'},'span':{'request_id':'r2'}}".

(** A table with one complete conversation, whose usage reports cache reads
    and no fresh input. *)
Definition cached_table : Conversations.table :=
  [(KStr "r1",
    Conversations.mkConv
      (JObj [(KStr "model", JStr "m1")]) (JStr "t1")
      (Some (JStr "m1")) (Some (JStr "k1"))
      None (Some (JBool false)) (Some "hi")
      (Some (JObj [(KStr "input_tokens", JInt 0);
                   (KStr "output_tokens", JInt 2);
                   (KStr "cache_read_input_tokens", JInt 5)]))
      None)].

(** A decoded response record of [r1] with the given fields. *)
Definition record_r1 (fields : json) : json :=
  JObj [(KStr "fields", fields);
        (KStr "span", JObj [(KStr "request_id", JStr "r1")])].

End Sample.

(** * Properties *)

(** ** Keys and association lists *)

Lemma key_raw_eqb_eq (a b : pykey) : key_raw_eqb a b = true <-> a = b.
Proof.
  destruct a, b; simpl; split; intros H; try discriminate; try reflexivity.
  - apply Bool.eqb_prop in H. now subst.
  - injection H as ->. apply Bool.eqb_reflx.
  - apply Z.eqb_eq in H. now subst.
  - injection H as ->. apply Z.eqb_refl.
  - apply String.eqb_eq in H. now subst.
  - injection H as ->. apply String.eqb_refl.
Qed.

Lemma key_eqb_norm (a b : pykey) :
  key_eqb a b = true <-> key_norm a = key_norm b.
Proof. unfold key_eqb. apply key_raw_eqb_eq. Qed.

Lemma key_eqb_refl (k : pykey) : key_eqb k k = true.
Proof. now apply key_eqb_norm. Qed.

Lemma key_eqb_sym (a b : pykey) : key_eqb a b = key_eqb b a.
Proof.
  destruct (key_eqb a b) eqn:E, (key_eqb b a) eqn:F; try reflexivity.
  - apply key_eqb_norm in E. symmetry in E. apply key_eqb_norm in E. congruence.
  - apply key_eqb_norm in F. symmetry in F. apply key_eqb_norm in F. congruence.
Qed.

Lemma key_eqb_trans (a b c : pykey) :
  key_eqb a b = true -> key_eqb b c = true -> key_eqb a c = true.
Proof.
  rewrite !key_eqb_norm. congruence.
Qed.

(** Equal keys are interchangeable on the left of a comparison. *)
Lemma key_eqb_congr (a b c : pykey) :
  key_eqb a b = true -> key_eqb a c = key_eqb b c.
Proof.
  intros H. destruct (key_eqb b c) eqn:E.
  - eapply key_eqb_trans; eauto.
  - destruct (key_eqb a c) eqn:F; [|reflexivity].
    rewrite key_eqb_sym in H.
    rewrite (key_eqb_trans _ _ _ H F) in E. discriminate.
Qed.

Section Assoc.

Context {V : Type}.
Variable dflt : V.

Implicit Types (d : list (pykey * V)) (k : pykey) (f : V -> V).

Lemma assoc_get_congr k k' d :
  key_eqb k k' = true -> assoc_get k d = assoc_get k' d.
Proof.
  intros H. induction d as [|[k0 v] d IH]; simpl; [reflexivity|].
  rewrite (key_eqb_congr _ _ k0 H), IH. reflexivity.
Qed.

Lemma assoc_get_upsert_same k f d :
  assoc_get k (upsert dflt k f d) = Some (f (current dflt k d)).
Proof.
  unfold current.
  induction d as [|[k0 v] d IH]; simpl.
  - now rewrite key_eqb_refl.
  - destruct (key_eqb k k0) eqn:E; simpl; rewrite E; [reflexivity|exact IH].
Qed.

Lemma assoc_get_upsert_other k k' f d :
  key_eqb k k' = false ->
  assoc_get k (upsert dflt k' f d) = assoc_get k d.
Proof.
  intros H. induction d as [|[k0 v] d IH]; simpl.
  - now rewrite H.
  - destruct (key_eqb k' k0) eqn:E; simpl.
    + destruct (key_eqb k k0) eqn:F; [|reflexivity].
      rewrite key_eqb_sym in E.
      rewrite (key_eqb_trans _ _ _ F E) in H. discriminate.
    + now rewrite IH.
Qed.

Lemma upsert_upsert k f g d :
  upsert dflt k g (upsert dflt k f d) = upsert dflt k (fun v => g (f v)) d.
Proof.
  induction d as [|[k0 v] d IH]; simpl.
  - now rewrite key_eqb_refl.
  - destruct (key_eqb k k0) eqn:E; simpl; rewrite E; [reflexivity|].
    now rewrite IH.
Qed.

Lemma upsert_ext k f g d :
  (forall v, f v = g v) -> upsert dflt k f d = upsert dflt k g d.
Proof.
  intros H. induction d as [|[k0 v] d IH]; simpl.
  - now rewrite H.
  - destruct (key_eqb k k0); [now rewrite H | now rewrite IH].
Qed.

Lemma upsert_keys_distinct k f d :
  keys_distinct d -> keys_distinct (upsert dflt k f d).
Proof.
  induction d as [|[k0 v] d IH]; simpl.
  - auto.
  - intros [Hn Hd]. destruct (key_eqb k k0) eqn:E; simpl.
    + auto.
    + split; [|auto].
      rewrite assoc_get_upsert_other; [exact Hn|].
      now rewrite key_eqb_sym.
Qed.

(** Updates at different keys commute, as long as the first key is in the
    table already, so that neither update moves it. *)
Lemma upsert_swap k k' f g d :
  key_eqb k k' = false ->
  assoc_get k d <> None ->
  upsert dflt k f (upsert dflt k' g d) = upsert dflt k' g (upsert dflt k f d).
Proof.
  intros Hne. induction d as [|[k0 v] d IH]; simpl; [congruence|].
  destruct (key_eqb k k0) eqn:E.
  - intros _.
    assert (E' : key_eqb k' k0 = false).
    { destruct (key_eqb k' k0) eqn:F; [|reflexivity].
      rewrite key_eqb_sym in F.
      rewrite (key_eqb_trans _ _ _ E F) in Hne. discriminate. }
    rewrite E'. simpl. now rewrite E, E'.
  - intros Hin. destruct (key_eqb k' k0) eqn:F; simpl; rewrite E, F.
    + reflexivity.
    + now rewrite IH.
Qed.

End Assoc.

(** ** The event-stream decoder *)

Section DecoderFacts.

Variable json_loads : string -> option json.

#[local] Abbreviation decode_block := (Sse.decode_block json_loads).
#[local] Abbreviation process_part := (Sse.process_part json_loads).
#[local] Abbreviation parse_blocks := (Sse.parse_blocks json_loads).

Lemma process_part_skip (part : string) (st : Sse.state) :
  decode_block part = None -> process_part st part = st.
Proof. unfold Sse.process_part. now intros ->. Qed.

(** A decoded block has a data section, and its payload is what
    [json_loads] makes of the text up to the balancing brace. *)
Lemma decode_block_data (part : string) :
  decode_block part =
  match Sse.data_section part with
  | None => None
  | Some d =>
      let json_str := Sse.json_str_of d in
      if (0 <? Sse.json_end json_str)%nat then
        match json_loads (Str.take (Sse.json_end json_str) json_str) with
        | Some data =>
            Some (Str.strip (fst (Str.split_once "010" (Str.strip part))), data)
        | None => None
        end
      else None
  end.
Proof.
  unfold Sse.decode_block, Sse.data_section.
  destruct (String.eqb (Str.strip part) "") eqn:E.
  - apply String.eqb_eq in E. rewrite E. reflexivity.
  - destruct (Str.split_once "010" (Str.strip part)) as [l0 [dp|]];
      [|reflexivity].
    destruct (String.prefix "data:" dp); reflexivity.
Qed.

Lemma bad_block_not_decoded (part : string) :
  Sse.bad_block json_loads part -> decode_block part = None.
Proof.
  rewrite decode_block_data.
  intros [H | d H H0 | d H H0]; rewrite H; cbv zeta.
  - reflexivity.
  - now rewrite H0.
  - rewrite H0. now destruct (0 <? _)%nat.
Qed.

(** C6: a block whose data section is missing, whose braces never balance
    or whose extracted text is no JSON document leaves the text, the usage
    and the events as they are, and the decoding of the blocks around it is
    the decoding of the stream without it.  The decoder is a total function:
    it raises on no text. *)
Theorem bad_block_skipped (part : string) :
  Sse.bad_block json_loads part ->
  (forall st, process_part st part = st) /\
  (forall before after,
      parse_blocks (before ++ part :: after) = parse_blocks (before ++ after)).
Proof.
  intros Hbad. apply bad_block_not_decoded in Hbad.
  split.
  - intros st. now apply process_part_skip.
  - intros before after. unfold Sse.parse_blocks.
    rewrite !fold_left_app. simpl.
    now rewrite process_part_skip.
Qed.

(** What one event does to the usage. *)
Lemma handle_message_delta (d : dict) (st : Sse.state) :
  Sse.usage (snd (try_pass (Sse.handle_event "message_delta" (JObj d)) st))
  = current (JObj []) (KStr "usage") d.
Proof.
  unfold Sse.handle_event, try_pass, try_except, bind, modify, lift, ret,
    current.
  simpl. destruct (assoc_get (KStr "usage") d); reflexivity.
Qed.

Lemma str_iadd_usage (text : json) (st : Sse.state) :
  Sse.usage (snd (Sse.str_iadd text st)) = Sse.usage st.
Proof. destruct text; reflexivity. Qed.

Lemma handle_other_usage (ty : string) (data : json) (st : Sse.state) :
  ty <> "message_delta" -> ty <> "message_start" ->
  Sse.usage (snd (try_pass (Sse.handle_event ty data) st)) = Sse.usage st.
Proof.
  intros H1 H2.
  apply String.eqb_neq in H1. apply String.eqb_neq in H2.
  unfold Sse.handle_event, try_pass, try_except, bind, modify, lift, ret.
  rewrite H1, H2.
  destruct (String.eqb ty "content_block_delta"); [|reflexivity].
  destruct (py_get data "delta" (JObj [])) as [delta|]; [|reflexivity].
  destruct (py_get delta "text" (JStr "")) as [text|]; [|reflexivity].
  pose proof (str_iadd_usage text (Sse.append_event (ty, data) st)) as H.
  destruct (Sse.str_iadd text _) as [[[]|e] st']; exact H.
Qed.

Lemma other_blocks_keep_usage (post : list string) (st : Sse.state) :
  Forall (fun p => forall ty data, decode_block p = Some (ty, data) ->
                   ty <> "message_delta" /\ ty <> "message_start") post ->
  Sse.usage (fold_left process_part post st) = Sse.usage st.
Proof.
  intros H. revert st.
  induction H as [|p post Hp _ IH]; intros st; simpl; [reflexivity|].
  rewrite IH. unfold Sse.process_part.
  destruct (decode_block p) as [[ty data]|] eqn:E; [|reflexivity].
  destruct (Hp ty data eq_refl). now apply handle_other_usage.
Qed.

(** C1 (amended): a [message_delta] event replaces the usage as a whole.
    Once its block is decoded to an object, the usage is the value at the
    key [usage] of that object (the empty dictionary when the key is
    missing), whatever the events before it had set, a [message_start]
    included; later blocks of other kinds leave it alone.  A field that only
    [message_start] carried is gone. *)
Theorem message_delta_replaces_usage
    (before after : list string) (part : string) (d : dict) :
  decode_block part = Some ("message_delta", JObj d) ->
  Forall (fun p => forall ty data, decode_block p = Some (ty, data) ->
                   ty <> "message_delta" /\ ty <> "message_start") after ->
  Sse.usage (parse_blocks (before ++ part :: after))
  = current (JObj []) (KStr "usage") d.
Proof.
  intros Hd Hafter. unfold Sse.parse_blocks.
  rewrite fold_left_app. simpl.
  rewrite other_blocks_keep_usage by exact Hafter.
  unfold Sse.process_part at 1. rewrite Hd.
  apply handle_message_delta.
Qed.

Lemma join_snoc (l : list string) (s : string) :
  Sse.join (l ++ [s]) = (Sse.join l ++ s)%string.
Proof.
  unfold Sse.join. induction l as [|x l IH]; simpl.
  - induction s as [|c s IHs]; simpl; [reflexivity|]. now rewrite IHs.
  - rewrite IH. clear IH. induction x as [|c x IHx]; simpl; [reflexivity|].
    now rewrite IHx.
Qed.

Lemma append_empty (x : string) : (x ++ "")%string = x.
Proof. induction x as [|c x IH]; simpl; [reflexivity|]. now rewrite IH. Qed.

(** The usage statements of lines 57-62 touch neither text nor events. *)
Lemma usage_update_frame (mu : json) (st : Sse.state) :
  let st' := snd (Sse.usage_update mu st) in
  Sse.events st' = Sse.events st /\ Sse.full_text st' = Sse.full_text st.
Proof.
  unfold Sse.usage_update. destruct (Sse.usage st); simpl; auto.
  destruct (dict_update mu d); simpl; auto.
Qed.

(** One decoded event appends itself to the events and its fragment to the
    text. *)
Lemma handle_event_frame (ty : string) (data : json) (st : Sse.state) :
  let st' := snd (try_pass (Sse.handle_event ty data) st) in
  Sse.events st' = Sse.events st ++ [(ty, data)] /\
  Sse.full_text st' = (Sse.full_text st ++ Sse.fragment (ty, data))%string.
Proof.
  cbv zeta.
  unfold Sse.handle_event, Sse.fragment, try_pass, try_except, bind, modify,
    lift, ret, Sse.str_iadd, raise.
  simpl fst. simpl snd.
  destruct (String.eqb ty "content_block_delta");
    [destruct (py_get data "delta" (JObj [])) as [delta|]; simpl;
       [destruct (py_get delta "text" (JStr "")) as [[| | |t| |]|]; simpl|]|];
    rewrite ?append_empty; auto;
    (destruct (String.eqb ty "message_delta");
     [destruct (py_get data "usage" (JObj [])); simpl;
        rewrite ?append_empty; now auto|]);
    (destruct (String.eqb ty "message_start"); simpl;
       [|rewrite ?append_empty; now auto]);
    (destruct (py_get data "message" (JObj [])) as [m|]; simpl;
       [|rewrite ?append_empty; now auto]);
    (destruct (py_get m "usage" (JObj [])) as [mu|]; simpl;
       [|rewrite ?append_empty; now auto]);
    (destruct (truthy mu); simpl; [|rewrite ?append_empty; now auto]).
  - pose proof (usage_update_frame mu
      (Sse.set_full_text (Sse.full_text st ++ t)
         (Sse.append_event (ty, data) st))) as [H1 H2].
    destruct (Sse.usage_update mu _) as [[[]|e] st']; simpl in *; auto.
  - pose proof (usage_update_frame mu (Sse.append_event (ty, data) st))
      as [H1 H2].
    destruct (Sse.usage_update mu _) as [[[]|e] st']; simpl in *; auto.
Qed.

(** The assembled text is the concatenation, in order, of the fragments of
    the events the decoder recorded, whatever other events stand between
    them. *)
Lemma handle_event_text (ty : string) (data : json) (st : Sse.state) :
  Sse.full_text st = Sse.join (map Sse.fragment (Sse.events st)) ->
  let st' := snd (try_pass (Sse.handle_event ty data) st) in
  Sse.full_text st' = Sse.join (map Sse.fragment (Sse.events st')).
Proof.
  intros Hinv. destruct (handle_event_frame ty data st) as [He Ht].
  cbv zeta. rewrite He, Ht, map_app, Hinv. simpl map.
  now rewrite join_snoc.
Qed.

Lemma full_text_is_join_of_fragments (parts : list string) :
  let st := parse_blocks parts in
  Sse.full_text st = Sse.join (map Sse.fragment (Sse.events st)).
Proof.
  cbv zeta. unfold Sse.parse_blocks.
  assert (H : forall st,
             Sse.full_text st = Sse.join (map Sse.fragment (Sse.events st)) ->
             Sse.full_text (fold_left process_part parts st)
             = Sse.join (map Sse.fragment
                           (Sse.events (fold_left process_part parts st)))).
  { induction parts as [|p parts IH]; intros st Hst; simpl; [exact Hst|].
    apply IH. unfold Sse.process_part.
    destruct (decode_block p) as [[ty data]|]; [|exact Hst].
    now apply handle_event_text. }
  apply H. reflexivity.
Qed.

End DecoderFacts.

(** *** Runs of the decoder on concrete streams *)

Lemma bad_block_skipped_witness :
  let part := txt " content_block_delta~data: {'delta':{'text':'he'~~" in
  Sse.bad_block JsonRef.loads part /\
  (forall st, Sse.process_part JsonRef.loads st part = st) /\
  (forall before after,
      Sse.parse_blocks JsonRef.loads (before ++ part :: after)
      = Sse.parse_blocks JsonRef.loads (before ++ after)).
Proof.
  assert (H : Sse.bad_block JsonRef.loads
                (txt " content_block_delta~data: {'delta':{'text':'he'~~")).
  { apply Sse.never_balanced with (d := txt "data: {'delta':{'text':'he'");
      vm_compute; reflexivity. }
  split; [exact H|].
  exact (bad_block_skipped JsonRef.loads _ H).
Defined.

(** C1 (counterexample): [message_start] carries [input_tokens] and
    [output_tokens], the later [message_delta] carries [output_tokens] only;
    the resulting usage has lost [input_tokens]. *)
Lemma message_start_field_dropped :
  let body := txt
    "event: message_start~data: {'message':{'usage':{'input_tokens':10,'output_tokens':1}}}~~event: message_delta~data: {'usage':{'output_tokens':5}}~~" in
  let st := Sse.parse_sse_response JsonRef.loads body in
  Sse.events st =
    [("message_start",
      JObj [(KStr "message",
             JObj [(KStr "usage",
                    JObj [(KStr "input_tokens", JInt 10);
                          (KStr "output_tokens", JInt 1)])])]);
     ("message_delta",
      JObj [(KStr "usage", JObj [(KStr "output_tokens", JInt 5)])])] /\
  Sse.usage st = JObj [(KStr "output_tokens", JInt 5)] /\
  py_get (Sse.usage st) "input_tokens" JNull <> Ok (JInt 10).
Proof.
  vm_compute. repeat split. discriminate.
Qed.

Lemma message_delta_replaces_usage_witness :
  let start := txt
    " message_start~data: {'message':{'usage':{'input_tokens':10,'output_tokens':1}}}~~" in
  let delta := txt " message_delta~data: {'usage':{'output_tokens':5}}~~" in
  let stop := txt " message_stop~data: {'type':'message_stop'}~~" in
  Sse.usage (Sse.parse_blocks JsonRef.loads ([""; start] ++ delta :: [stop]))
  = JObj [(KStr "output_tokens", JInt 5)].
Proof.
  cbv zeta.
  apply (message_delta_replaces_usage JsonRef.loads
           [""; txt " message_start~data: {'message':{'usage':{'input_tokens':10,'output_tokens':1}}}~~"]
           [txt " message_stop~data: {'type':'message_stop'}~~"]
           (txt " message_delta~data: {'usage':{'output_tokens':5}}~~")
           [(KStr "usage", JObj [(KStr "output_tokens", JInt 5)])]).
  - vm_compute. reflexivity.
  - constructor; [|constructor].
    intros ty data H. vm_compute in H. injection H as <- _.
    split; discriminate.
Defined.

(** C2: the data section holds the complete object
    [{"delta":{"text":"a}"}}] followed by trailing text.  The brace count
    takes the brace inside the string for a closing one and cuts the object
    one character short; the cut text is no JSON document and the block
    gives no event. *)
Theorem brace_inside_string_cuts_object :
  let object := txt "{'delta':{'text':'a}'}}" in
  let json_str := (object ++ " trailing")%string in
  let part := (txt " content_block_delta~data: " ++ json_str)%string in
  JsonRef.loads object
    = Some (JObj [(KStr "delta", JObj [(KStr "text", JStr "a}")])]) /\
  Sse.json_str_of (txt "data: " ++ json_str) = json_str /\
  Str.take (Sse.json_end json_str) json_str = txt "{'delta':{'text':'a}'}" /\
  JsonRef.loads (Str.take (Sse.json_end json_str) json_str) = None /\
  Sse.decode_block JsonRef.loads part = None.
Proof.
  vm_compute. repeat split.
Qed.

(** C4: a valid stream of two [content_block_delta] events whose payloads
    carry the fragments [a}] and [b].  The first block is lost to the brace
    count, and the assembled text is [b], not [a}b]. *)
Theorem fragment_with_brace_is_lost :
  let payload1 := txt "{'delta':{'text':'a}'}}" in
  let payload2 := txt "{'delta':{'text':'b'}}" in
  let nl := txt "~" in
  let body :=
    ("event: content_block_delta" ++ nl ++ "data: " ++ payload1 ++ nl ++ nl ++
     "event: content_block_delta" ++ nl ++ "data: " ++ payload2 ++ nl ++ nl)%string in
  let st := Sse.parse_sse_response JsonRef.loads body in
  map (fun p => match JsonRef.loads p with
                | Some data => Sse.fragment ("content_block_delta", data)
                | None => ""
                end) [payload1; payload2] = ["a}"; "b"] /\
  Sse.full_text st = "b" /\
  Sse.events st =
    [("content_block_delta",
      JObj [(KStr "delta", JObj [(KStr "text", JStr "b")])])].
Proof.
  vm_compute. repeat split.
Qed.

(** ** The conversation correlator *)

Section CorrelatorFacts.

Import Conversations.

Variable json_loads : string -> option json.

#[local] Abbreviation request_branch := (Conversations.request_branch json_loads).
#[local] Abbreviation response_branch := (Conversations.response_branch json_loads).
#[local] Abbreviation process_record := (Conversations.process_record json_loads).
#[local] Abbreviation process_line := (Conversations.process_line json_loads).
#[local] Abbreviation run := (Conversations.run json_loads).
#[local] Abbreviation collect := (Conversations.collect json_loads).
#[local] Abbreviation line_record := (Conversations.line_record json_loads).
#[local] Abbreviation request_body_of := (Conversations.request_body_of json_loads).
#[local] Abbreviation writes_request := (Conversations.writes_request json_loads).

(** A record that passes the guards is a dictionary with a dictionary
    under [span] that holds the request id. *)
Lemma header_shape (log event_type request_id : json) :
  record_header log = Ok (Some (event_type, request_id)) ->
  exists d fields sd,
    log = JObj d /\
    assoc_get (KStr "fields") d = Some fields /\
    py_get fields "event_type" JNull = Ok event_type /\
    assoc_get (KStr "span") d = Some (JObj sd) /\
    assoc_get (KStr "request_id") sd = Some request_id /\
    truthy request_id = true.
Proof.
  unfold record_header, rbind.
  destruct log as [| | |s|l|d]; simpl; try discriminate.
  - destruct (contains_sub "fields" s); simpl; discriminate.
  - destruct (existsb _ l); simpl; discriminate.
  - destruct (assoc_get (KStr "fields") d) as [fields|] eqn:Ef; simpl;
      [|discriminate].
    destruct (py_get fields "event_type" JNull) as [et|] eqn:Eet;
      [|discriminate].
    destruct (truthy et); simpl; [|discriminate].
    destruct (assoc_get (KStr "span") d) as [span|] eqn:Es.
    + destruct span as [| | | | |sd]; simpl; try discriminate.
      destruct (assoc_get (KStr "request_id") sd) as [rid|] eqn:Er;
        simpl; [|discriminate].
      destruct (truthy rid) eqn:Et; simpl; [|discriminate].
      intros H. injection H as <- <-.
      exists d, fields, sd. auto 10.
    + simpl. discriminate.
Qed.

(** The request branch writes its four fields at once, when the body is
    decoded and the request id can be hashed, and nothing otherwise. *)
Lemma request_branch_eq (log event_type request_id : json) (t : table) :
  record_header log = Ok (Some (event_type, request_id)) ->
  request_branch log request_id t =
  (Ok tt,
   match request_body_of log, to_key request_id with
   | Ok body, Ok k => upsert default_conv k (request_update log body) t
   | _, _ => t
   end).
Proof.
  intros H. apply header_shape in H.
  destruct H as (d & fields & sd & -> & Hf & _ & Hs & _ & _).
  unfold Conversations.request_branch, Conversations.request_body_of,
    set_field, try_pass, try_except, bind, lift, ret, rbind, modify.
  unfold request_update, span_field, top_field.
  simpl. rewrite Hf, Hs. simpl.
  destruct (py_getitem fields "body") as [b|]; [|reflexivity].
  destruct (py_loads json_loads b) as [body|]; [|reflexivity].
  destruct (to_key request_id) as [k|]; [|reflexivity].
  simpl.
  destruct (assoc_get (KStr "model") sd), (assoc_get (KStr "api_key_name") sd),
    (assoc_get (KStr "timestamp") d); simpl;
    rewrite !upsert_upsert; reflexivity.
Qed.

Lemma response_only_compose (f g : conv -> conv) :
  response_only f -> response_only g -> response_only (fun c => g (f c)).
Proof.
  intros (r & s & u & x & e & Hf) (r' & s' & u' & x' & e' & Hg).
  exists (fun v => r' (r v)), (fun v => s' (s v)), (fun v => u' (u v)),
    (fun v => x' (x v)), (fun v => e' (e v)).
  intros c. rewrite Hg, Hf. reflexivity.
Qed.

Lemma response_only_id : response_only (fun c => c).
Proof.
  exists (fun v => v), (fun v => v), (fun v => v), (fun v => v), (fun v => v).
  now intros [].
Qed.

Lemma response_only_raw (v : json) : response_only (set_response_raw v).
Proof.
  exists (fun _ => Some v), (fun o => o), (fun o => o), (fun o => o),
    (fun o => o).
  reflexivity.
Qed.

Lemma response_only_streaming (v : json) : response_only (set_streaming v).
Proof.
  exists (fun o => o), (fun _ => Some v), (fun o => o), (fun o => o),
    (fun o => o).
  reflexivity.
Qed.

Lemma response_only_text (v : string) : response_only (set_response_text v).
Proof.
  exists (fun o => o), (fun o => o), (fun o => o), (fun _ => Some v),
    (fun o => o).
  reflexivity.
Qed.

Lemma response_only_usage (v : json) : response_only (set_usage v).
Proof.
  exists (fun o => o), (fun o => o), (fun _ => Some v), (fun o => o),
    (fun o => o).
  reflexivity.
Qed.

Lemma response_only_error (e : exn) : response_only (set_parse_error e).
Proof.
  exists (fun o => o), (fun o => o), (fun o => o), (fun o => o),
    (fun _ => Some e).
  reflexivity.
Qed.

Lemma response_only_same_request (g : conv -> conv) (c : conv) :
  response_only g -> same_request (g c) c.
Proof.
  intros (r & s & u & x & e & H). rewrite H. repeat split.
Qed.

Lemma response_only_commutes (g : conv -> conv) (log body : json) (c : conv) :
  response_only g ->
  g (request_update log body c) = request_update log body (g c).
Proof.
  intros (r & s & u & x & e & H). rewrite !H. reflexivity.
Qed.

Create HintDb conv.

#[local] Hint Resolve response_only_compose response_only_id
  response_only_raw response_only_streaming response_only_text
  response_only_usage response_only_error : conv.

(** The response branch updates the entry of the request id, and only what
    the response record writes; it raises exactly when the request id cannot
    be hashed, and then the table is as before. *)
Lemma response_branch_hashable (log request_id : json) (k : pykey) :
  to_key request_id = Ok k ->
  exists g, response_only g /\
    forall t, response_branch log request_id t
              = (Ok tt, upsert default_conv k g t).
Proof.
  intros Hk.
  unfold Conversations.response_branch, Conversations.interpret_response,
    set_field, try_except, bind, lift, ret, raise, modify.
  rewrite Hk.
  destruct (py_getitem log "fields") as [fields|e0]; simpl.
  2:{ eexists; split; [|intros t; reflexivity]. auto with conv. }
  destruct (py_getitem fields "body") as [body_text|e1]; simpl.
  2:{ eexists; split; [|intros t; reflexivity]. auto with conv. }
  destruct (py_get fields "streaming" (JBool false)) as [streaming|e2]; simpl.
  2:{ eexists; split; [|intros t; reflexivity]. auto with conv. }
  destruct (truthy streaming).
  - destruct body_text as [| | |sse_text| |];
      (eexists; split;
       [|intros t; cbv zeta; simpl; rewrite ?upsert_upsert; reflexivity]);
      cbv beta; auto 10 with conv.
  - destruct (py_loads json_loads body_text) as [resp_json|e3]; simpl.
    2:{ eexists; split; [|intros t; rewrite ?upsert_upsert; reflexivity].
        cbv beta. auto 10 with conv. }
    destruct (extract_text resp_json) as [text|e4]; simpl.
    2:{ eexists; split; [|intros t; rewrite ?upsert_upsert; reflexivity].
        cbv beta. auto 10 with conv. }
    destruct (py_get resp_json "usage" (JObj [])) as [u|e5]; simpl;
      (eexists; split; [|intros t; rewrite ?upsert_upsert; reflexivity]);
      cbv beta; auto 10 with conv.
Qed.

Lemma response_branch_unhashable (log request_id : json) (e : exn) (t : table) :
  to_key request_id = Raise e ->
  response_branch log request_id t = (Raise TypeError, t).
Proof.
  intros Hk.
  assert (e = TypeError) as -> by (destruct request_id; simpl in Hk; congruence).
  unfold Conversations.response_branch, Conversations.interpret_response,
    set_field, try_except, bind, lift, ret, raise, modify.
  rewrite Hk.
  destruct (py_getitem log "fields") as [fields|e0]; simpl; [|reflexivity].
  destruct (py_getitem fields "body") as [body_text|e1]; simpl; [|reflexivity].
  destruct (py_get fields "streaming" (JBool false)); reflexivity.
Qed.

Lemma eq_str_true (v : json) (s : string) : eq_str v s = true -> v = JStr s.
Proof.
  destruct v; simpl; try discriminate.
  intros H. apply String.eqb_eq in H. now subst.
Qed.

Lemma line_record_loads (line : string) (log event_type request_id : json) :
  line_record line = Some (log, event_type, request_id) ->
  json_loads (Str.strip line) = Some log /\
  record_header log = Ok (Some (event_type, request_id)).
Proof.
  unfold Conversations.line_record.
  destruct (json_loads (Str.strip line)) as [log'|]; [|discriminate].
  destruct (record_header log') as [[[et rid]|]|] eqn:Eh; try discriminate.
  intros H. injection H as <- <- <-. auto.
Qed.

(** A line that is a request record runs the request branch, which takes
    the request when the body is decoded and the request id can be hashed. *)
Lemma process_line_request (line : string) (log request_id : json) (t : table) :
  line_record line = Some (log, JStr "request_body", request_id) ->
  process_line line t =
  (Ok tt,
   match request_body_of log, to_key request_id with
   | Ok body, Ok k => upsert default_conv k (request_update log body) t
   | _, _ => t
   end).
Proof.
  intros H. apply line_record_loads in H as [Hl Hh].
  unfold Conversations.process_line, try_except.
  rewrite Hl. unfold Conversations.process_record, bind, lift.
  rewrite Hh.
  change (eq_str (JStr "request_body") "request_body") with true.
  cbv iota.
  now rewrite (request_branch_eq _ _ _ t Hh).
Qed.

(** A line that is a response record runs the response branch. *)
Lemma process_line_response (line : string) (log request_id : json) (t : table) :
  line_record line = Some (log, JStr "response_body", request_id) ->
  process_line line t = response_branch log request_id t.
Proof.
  intros H. apply line_record_loads in H as [Hl Hh].
  unfold Conversations.process_line, try_except.
  rewrite Hl. unfold Conversations.process_record, bind, lift.
  rewrite Hh.
  change (eq_str (JStr "response_body") "request_body") with false.
  change (eq_str (JStr "response_body") "response_body") with true.
  cbv iota.
  destruct (to_key request_id) as [k|e] eqn:Ek.
  - destruct (response_branch_hashable log request_id k Ek) as (g & _ & Hb).
    now rewrite Hb.
  - now rewrite (response_branch_unhashable _ _ _ t Ek).
Qed.

(** What a line does to the table: nothing, or the request update, or an
    update of the response fields, at the entry of its request id. *)
Lemma process_line_cases (line : string) (t : table) :
  (exists r, process_line line t = (r, t)) \/
  (exists log request_id body k,
      line_record line = Some (log, JStr "request_body", request_id) /\
      request_body_of log = Ok body /\ to_key request_id = Ok k /\
      process_line line t
      = (Ok tt, upsert default_conv k (request_update log body) t)) \/
  (exists log request_id k g,
      line_record line = Some (log, JStr "response_body", request_id) /\
      to_key request_id = Ok k /\ response_only g /\
      process_line line t = (Ok tt, upsert default_conv k g t)).
Proof.
  unfold Conversations.process_line, Conversations.line_record, try_except.
  destruct (json_loads (Str.strip line)) as [log|]; [|left; eexists; reflexivity].
  unfold Conversations.process_record, bind, lift.
  destruct (record_header log) as [[[et rid]|]|e] eqn:Eh;
    [| left; eexists; reflexivity | left; destruct e; eexists; reflexivity].
  destruct (eq_str et "request_body") eqn:Eq.
  - apply eq_str_true in Eq. subst et.
    rewrite (request_branch_eq _ _ _ t Eh).
    destruct (request_body_of log) as [body|] eqn:Eb;
      [|left; eexists; reflexivity].
    destruct (to_key rid) as [k|] eqn:Ek; [|left; eexists; reflexivity].
    right; left. exists log, rid, body, k. auto.
  - destruct (eq_str et "response_body") eqn:Es;
      [|left; eexists; reflexivity].
    apply eq_str_true in Es. subst et.
    destruct (to_key rid) as [k|e] eqn:Ek.
    + destruct (response_branch_hashable log rid k Ek) as (g & Hg & Hb).
      rewrite Hb. right; right. exists log, rid, k, g. auto.
    + rewrite (response_branch_unhashable _ _ _ t Ek).
      left; eexists; reflexivity.
Qed.

Lemma run_nil (t : table) : run [] t = Ok t.
Proof. reflexivity. Qed.

Lemma run_cons (line : string) (lines : list string) (t : table) :
  run (line :: lines) t =
  match process_line line t with
  | (Ok _, t') => run lines t'
  | (Raise e, _) => Raise e
  end.
Proof.
  unfold Conversations.run. simpl. unfold bind.
  destruct (process_line line t) as [[[]|e] t']; reflexivity.
Qed.

Lemma run_app (l1 l2 : list string) (t : table) :
  run (l1 ++ l2) t = rbind (run l1 t) (run l2).
Proof.
  revert t. induction l1 as [|l l1 IH]; intros t; [reflexivity|].
  simpl app. rewrite !run_cons.
  destruct (process_line l t) as [[[]|e] t']; [apply IH|reflexivity].
Qed.

Lemma run_keys_distinct (lines : list string) (t t' : table) :
  keys_distinct t -> run lines t = Ok t' -> keys_distinct t'.
Proof.
  revert t. induction lines as [|l lines IH]; intros t Ht.
  - rewrite run_nil. now intros [= <-].
  - rewrite run_cons.
    destruct (process_line_cases l t)
      as [[r E] | [(log & rid & body & k & _ & _ & _ & E)
                  | (log & rid & k & g & _ & _ & _ & E)]];
      rewrite E.
    + destruct r as [[]|e]; [now apply IH | discriminate].
    + apply IH. now apply upsert_keys_distinct.
    + apply IH. now apply upsert_keys_distinct.
Qed.

(** A request record and a response record for one request id commute. *)
Lemma request_response_commute (lq ls : string) (log_q log_s request_id : json)
    (t : table) :
  line_record lq = Some (log_q, JStr "request_body", request_id) ->
  line_record ls = Some (log_s, JStr "response_body", request_id) ->
  run [lq; ls] t = run [ls; lq] t.
Proof.
  intros Hq Hs.
  rewrite (run_cons lq), (process_line_request _ _ _ _ Hq).
  rewrite (run_cons ls [lq]), (process_line_response _ _ _ _ Hs).
  destruct (to_key request_id) as [k|e] eqn:Ek.
  - destruct (response_branch_hashable log_s request_id k Ek) as (g & Hg & Hb).
    rewrite Hb, !run_cons, (process_line_response _ _ _ _ Hs),
      (process_line_request _ _ _ _ Hq), Hb, Ek.
    rewrite !run_nil.
    destruct (request_body_of log_q) as [body|]; [|reflexivity].
    rewrite !upsert_upsert. f_equal. apply upsert_ext.
    intros c. now rewrite response_only_commutes.
  - rewrite (response_branch_unhashable _ _ _ _ Ek).
    rewrite run_cons, (process_line_response _ _ _ _ Hs),
      (response_branch_unhashable _ _ _ _ Ek).
    now destruct (request_body_of log_q).
Qed.

(** What a line does is the same on every table: nothing (it is passed
    over, or it raises), or the request update, or an update of the response
    fields, at the entry of its request id. *)
Lemma process_line_effect (line : string) :
  (exists r, forall t, process_line line t = (r, t)) \/
  (exists log request_id body k,
      line_record line = Some (log, JStr "request_body", request_id) /\
      request_body_of log = Ok body /\ to_key request_id = Ok k /\
      forall t, process_line line t
                = (Ok tt, upsert default_conv k (request_update log body) t)) \/
  (exists log request_id k g,
      line_record line = Some (log, JStr "response_body", request_id) /\
      to_key request_id = Ok k /\ response_only g /\
      forall t, process_line line t = (Ok tt, upsert default_conv k g t)).
Proof.
  destruct (line_record line) as [[[log et] rid]|] eqn:Er.
  - destruct (eq_str et "request_body") eqn:Eq.
    + apply eq_str_true in Eq. subst et.
      destruct (request_body_of log) as [body|e] eqn:Eb;
        [destruct (to_key rid) as [k|e] eqn:Ek|].
      * right; left. exists log, rid, body, k. repeat split; auto.
        intros t. now rewrite (process_line_request _ _ _ t Er), Eb, Ek.
      * left. exists (Ok tt). intros t.
        now rewrite (process_line_request _ _ _ t Er), Eb, Ek.
      * left. exists (Ok tt). intros t.
        now rewrite (process_line_request _ _ _ t Er), Eb.
    + destruct (eq_str et "response_body") eqn:Es.
      * apply eq_str_true in Es. subst et.
        destruct (to_key rid) as [k|e] eqn:Ek.
        -- destruct (response_branch_hashable log rid k Ek) as (g & Hg & Hb).
           right; right. exists log, rid, k, g. repeat split; auto.
           intros t. now rewrite (process_line_response _ _ _ t Er).
        -- left. exists (Raise TypeError). intros t.
           now rewrite (process_line_response _ _ _ t Er),
             (response_branch_unhashable _ _ _ t Ek).
      * left. exists (Ok tt). intros t.
        apply line_record_loads in Er as [Hl Hh].
        unfold Conversations.process_line, try_except. rewrite Hl.
        unfold Conversations.process_record, bind, lift.
        now rewrite Hh, Eq, Es.
  - left. unfold Conversations.process_line, Conversations.line_record,
      try_except in *.
    destruct (json_loads (Str.strip line)) as [log|];
      [|exists (Ok tt); reflexivity].
    unfold Conversations.process_record, bind, lift.
    destruct (record_header log) as [[[et rid]|]|e]; try discriminate.
    + exists (Ok tt). reflexivity.
    + destruct e; eexists; intros t; reflexivity.
Qed.

(** The lines that are no request or response record of the request id
    leave its entry as it is. *)
Lemma run_keeps_other_ids (k : pykey) (lines : list string) (t t' : table) :
  Forall (fun p => bears_request_id json_loads k p = false) lines ->
  run lines t = Ok t' ->
  assoc_get k t' = assoc_get k t.
Proof.
  intros Hall. revert t.
  induction Hall as [|l lines Hl _ IH]; intros t.
  - rewrite run_nil. now intros [= <-].
  - rewrite run_cons. unfold Conversations.bears_request_id in Hl.
    destruct (process_line_effect l)
      as [[r E] | [(log & rid & body & k' & Hr & _ & Hk & E)
                  | (log & rid & k' & g & Hr & Hk & _ & E)]];
      rewrite E.
    + destruct r as [[]|e]; [apply IH | discriminate].
    + rewrite Hr, Hk in Hl. intros H. rewrite (IH _ H).
      apply assoc_get_upsert_other. exact Hl.
    + rewrite Hr, Hk in Hl. intros H. rewrite (IH _ H).
      apply assoc_get_upsert_other. exact Hl.
Qed.

(** An update of an entry that is in the table already can be moved across
    the lines that are no request or response record of its request id. *)
Lemma run_commutes_update (k : pykey) (f : conv -> conv) (lines : list string)
    (t : table) :
  Forall (fun p => bears_request_id json_loads k p = false) lines ->
  assoc_get k t <> None ->
  run lines (upsert default_conv k f t)
  = rbind (run lines t) (fun t' => Ok (upsert default_conv k f t')).
Proof.
  intros Hall. revert t.
  induction Hall as [|l lines Hl _ IH]; intros t Hin.
  - reflexivity.
  - rewrite !run_cons. unfold Conversations.bears_request_id in Hl.
    destruct (process_line_effect l)
      as [[r E] | [(log & rid & body & k' & Hr & _ & Hk & E)
                  | (log & rid & k' & g & Hr & Hk & _ & E)]];
      rewrite !E.
    + destruct r as [[]|e]; [now apply IH | reflexivity].
    + rewrite Hr, Hk in Hl.
      assert (Hne : key_eqb k k' = false) by exact Hl.
      rewrite <- (upsert_swap default_conv k k') by assumption.
      apply IH. now rewrite assoc_get_upsert_other.
    + rewrite Hr, Hk in Hl.
      assert (Hne : key_eqb k k' = false) by exact Hl.
      rewrite <- (upsert_swap default_conv k k') by assumption.
      apply IH. now rewrite assoc_get_upsert_other.
Qed.

(** What the response branch attaches to the entry of a hashable request
    id: always the raw body and the streaming flag; the text and the usage
    the decoder assembled, for a streaming body; the text and the usage of
    the document, for a body that decodes to a dictionary with a well-formed
    content; only the marker, for a body that is not decoded. *)
Lemma response_branch_attaches
    (log request_id fields body_text flag : json) (k : pykey) :
  to_key request_id = Ok k ->
  py_getitem log "fields" = Ok fields ->
  py_getitem fields "body" = Ok body_text ->
  py_get fields "streaming" (JBool false) = Ok flag ->
  exists g,
    (forall t, response_branch log request_id t
               = (Ok tt, upsert default_conv k g t)) /\
    response_only g /\
    forall c,
      response_raw (g c) = Some body_text /\
      streaming (g c) = Some flag /\
      (truthy flag = true ->
       forall sse_text, body_text = JStr sse_text ->
       response_text (g c)
         = Some (Sse.full_text (Sse.parse_sse_response json_loads sse_text)) /\
       usage (g c)
         = Some (Sse.usage (Sse.parse_sse_response json_loads sse_text)) /\
       parse_error (g c) = parse_error c) /\
      (truthy flag = false ->
       forall d text,
         py_loads json_loads body_text = Ok (JObj d) ->
         extract_text (JObj d) = Ok text ->
         response_text (g c) = Some text /\
         usage (g c) = Some (current (JObj []) (KStr "usage") d) /\
         parse_error (g c) = parse_error c) /\
      (truthy flag = false ->
       forall e, py_loads json_loads body_text = Raise e ->
       response_text (g c) = response_text c /\
       usage (g c) = usage c /\
       parse_error (g c) = Some e).
Proof.
  intros Hk Hf Hb Hs.
  unfold Conversations.response_branch, Conversations.interpret_response,
    set_field, try_except, bind, lift, ret, raise, modify.
  rewrite Hk, Hf. cbv beta iota. rewrite Hb. cbv beta iota.
  rewrite Hs. cbv beta iota.
  destruct (truthy flag).
  - destruct body_text as [| | |sse_text| |];
      (eexists; split;
       [intros t; cbv zeta; simpl; rewrite ?upsert_upsert; reflexivity|]);
      (split; [cbv beta; auto 10 with conv|]);
      intros c; repeat split; intros; simpl; try discriminate;
      try congruence.
  - destruct (py_loads json_loads body_text) as [resp_json|e3]; simpl.
    2:{ eexists. split; [intros t; rewrite ?upsert_upsert; reflexivity|].
        split; [cbv beta; auto 10 with conv|].
        intros c. repeat split; intros; simpl; try discriminate;
          congruence. }
    destruct (extract_text resp_json) as [text|e4] eqn:Et; simpl.
    2:{ eexists. split; [intros t; rewrite ?upsert_upsert; reflexivity|].
        split; [cbv beta; auto 10 with conv|].
        intros c. repeat split; intros; simpl; try discriminate;
          congruence. }
    destruct (py_get resp_json "usage" (JObj [])) as [u|e5] eqn:Eu; simpl;
      (eexists; split; [intros t; rewrite ?upsert_upsert; reflexivity|]);
      (split; [cbv beta; auto 10 with conv|]);
      intros c; repeat split; intros; simpl; try discriminate;
      try congruence;
      match goal with
      | H : Ok _ = Ok (JObj _) |- _ => injection H as ->
      end;
      simpl in Eu; unfold current;
      destruct (assoc_get (KStr "usage") d); congruence.
Qed.

(** C5: the table holds at most one entry for a request id, and a request
    record and a response record that bear the same request id are merged
    into that one entry whichever comes first.  The two orders give the same
    table, next to each other and with any lines between them that are no
    request or response record of that id; and the one entry holds what both
    records wrote: the body, the model, the API key and the timestamp of the
    request record, and the raw body and the streaming flag of the response
    record with the text and the usage read from it. *)
Theorem one_entry_per_request_id :
  (forall lines t, collect lines = Ok t -> keys_distinct t) /\
  (forall before after lq ls log_q log_s request_id,
      line_record lq = Some (log_q, JStr "request_body", request_id) ->
      line_record ls = Some (log_s, JStr "response_body", request_id) ->
      collect (before ++ lq :: ls :: after)
      = collect (before ++ ls :: lq :: after)) /\
  (forall lq ls log_q log_s request_id body k,
      line_record lq = Some (log_q, JStr "request_body", request_id) ->
      line_record ls = Some (log_s, JStr "response_body", request_id) ->
      request_body_of log_q = Ok body ->
      to_key request_id = Ok k ->
      exists g, response_only g /\
        forall t,
          run [ls] t = Ok (upsert default_conv k g t) /\
          run [lq] t = Ok (upsert default_conv k (request_update log_q body) t) /\
          run [lq; ls] t
          = Ok (upsert default_conv k
                  (fun c => g (request_update log_q body c)) t) /\
          run [ls; lq] t = run [lq; ls] t) /\
  (forall before between after lq ls log_q log_s request_id body k,
      line_record lq = Some (log_q, JStr "request_body", request_id) ->
      line_record ls = Some (log_s, JStr "response_body", request_id) ->
      request_body_of log_q = Ok body ->
      to_key request_id = Ok k ->
      Forall (fun p => bears_request_id json_loads k p = false) between ->
      collect (before ++ lq :: between ++ ls :: after)
      = collect (before ++ ls :: between ++ lq :: after)) /\
  (forall before between after lq ls log_q log_s request_id body k
          fields body_text flag t,
      line_record lq = Some (log_q, JStr "request_body", request_id) ->
      line_record ls = Some (log_s, JStr "response_body", request_id) ->
      request_body_of log_q = Ok body ->
      to_key request_id = Ok k ->
      py_getitem log_s "fields" = Ok fields ->
      py_getitem fields "body" = Ok body_text ->
      py_get fields "streaming" (JBool false) = Ok flag ->
      Forall (fun p => bears_request_id json_loads k p = false) between ->
      Forall (fun p => bears_request_id json_loads k p = false) after ->
      collect (before ++ lq :: between ++ ls :: after) = Ok t \/
      collect (before ++ ls :: between ++ lq :: after) = Ok t ->
      exists c,
        assoc_get k t = Some c /\
        request c = body /\
        model c = Some (span_field log_q "model") /\
        api_key c = Some (span_field log_q "api_key_name") /\
        timestamp c = top_field log_q "timestamp" /\
        response_raw c = Some body_text /\
        streaming c = Some flag /\
        (truthy flag = true ->
         forall sse_text, body_text = JStr sse_text ->
         response_text c
           = Some (Sse.full_text (Sse.parse_sse_response json_loads sse_text)) /\
         usage c
           = Some (Sse.usage (Sse.parse_sse_response json_loads sse_text)) /\
         (body <> JNull -> is_complete c = true)) /\
        (truthy flag = false ->
         forall d text,
           py_loads json_loads body_text = Ok (JObj d) ->
           extract_text (JObj d) = Ok text ->
           response_text c = Some text /\
           usage c = Some (current (JObj []) (KStr "usage") d) /\
           (body <> JNull -> is_complete c = true))).
Proof.
  assert (Hswap : forall before between after lq ls log_q log_s rid body k,
      line_record lq = Some (log_q, JStr "request_body", rid) ->
      line_record ls = Some (log_s, JStr "response_body", rid) ->
      request_body_of log_q = Ok body ->
      to_key rid = Ok k ->
      Forall (fun p => bears_request_id json_loads k p = false) between ->
      collect (before ++ lq :: between ++ ls :: after)
      = collect (before ++ ls :: between ++ lq :: after)).
  { intros before between after lq ls log_q log_s rid body k Hq Hs Hb Hk Hbt.
    destruct (response_branch_hashable log_s rid k Hk) as (g & Hg & Hbr).
    assert (Pq : forall t0, process_line lq t0
                 = (Ok tt, upsert default_conv k (request_update log_q body) t0)).
    { intros t0. now rewrite (process_line_request _ _ _ _ Hq), Hb, Hk. }
    assert (Ps : forall t0, process_line ls t0
                 = (Ok tt, upsert default_conv k g t0)).
    { intros t0. now rewrite (process_line_response _ _ _ _ Hs), Hbr. }
    unfold Conversations.collect. rewrite !run_app.
    destruct (run before []) as [t1|e]; [|reflexivity].
    cbv beta iota delta [rbind].
    rewrite !run_cons, Pq, Ps, !run_app.
    set (t2 := upsert default_conv k (request_update log_q body) t1).
    set (t3 := upsert default_conv k g t1).
    assert (H2 : assoc_get k t2 <> None)
      by (unfold t2; now rewrite assoc_get_upsert_same).
    assert (H3 : assoc_get k t3 <> None)
      by (unfold t3; now rewrite assoc_get_upsert_same).
    pose proof (run_commutes_update k g between t2 Hbt H2) as Dq.
    pose proof (run_commutes_update k (request_update log_q body) between t3
                  Hbt H3) as Ds.
    assert (E : upsert default_conv k g t2
                = upsert default_conv k (request_update log_q body) t3).
    { unfold t2, t3. rewrite !upsert_upsert. apply upsert_ext.
      intros c. now apply response_only_commutes. }
    rewrite E in Dq. rewrite Ds in Dq.
    destruct (run between t2) as [u2|e2], (run between t3) as [u3|e3];
      cbv beta iota delta [rbind] in *; rewrite ?run_cons, ?Pq, ?Ps.
    - injection Dq as Dq. now rewrite Dq.
    - discriminate.
    - discriminate.
    - congruence. }
  split; [|split; [|split; [|split]]].
  - intros lines t H. eapply run_keys_distinct; [|exact H]. exact I.
  - intros before after lq ls log_q log_s rid Hq Hs.
    unfold Conversations.collect.
    change (lq :: ls :: after) with ([lq; ls] ++ after).
    change (ls :: lq :: after) with ([ls; lq] ++ after).
    rewrite !run_app.
    destruct (run before []) as [t1|e]; [|reflexivity].
    cbv beta iota delta [rbind].
    rewrite !run_app.
    now rewrite (request_response_commute _ _ _ _ _ t1 Hq Hs).
  - intros lq ls log_q log_s rid body k Hq Hs Hb Hk.
    destruct (response_branch_hashable log_s rid k Hk) as (g & Hg & Hbr).
    assert (Pq : forall t0, process_line lq t0
                 = (Ok tt, upsert default_conv k (request_update log_q body) t0)).
    { intros t0. now rewrite (process_line_request _ _ _ _ Hq), Hb, Hk. }
    assert (Ps : forall t0, process_line ls t0
                 = (Ok tt, upsert default_conv k g t0)).
    { intros t0. now rewrite (process_line_response _ _ _ _ Hs), Hbr. }
    exists g. split; [exact Hg|]. intros t. repeat split.
    + now rewrite run_cons, Ps, run_nil.
    + now rewrite run_cons, Pq, run_nil.
    + now rewrite run_cons, Pq, run_cons, Ps, run_nil, upsert_upsert.
    + symmetry. now apply (request_response_commute _ _ log_q log_s rid).
  - exact Hswap.
  - intros before between after lq ls log_q log_s rid body k fields body_text
      flag t Hq Hs Hb Hk Hf Hbt Hfl Hbtw Haft Hrun.
    assert (Hrun' : collect (before ++ lq :: between ++ ls :: after) = Ok t).
    { destruct Hrun as [H|H]; [exact H|].
      now rewrite (Hswap before between after lq ls log_q log_s rid body k). }
    clear Hrun.
    destruct (response_branch_attaches log_s rid fields body_text flag k
                Hk Hf Hbt Hfl) as (g & Hbr & Hg & Hc).
    unfold Conversations.collect in Hrun'. rewrite run_app in Hrun'.
    destruct (run before []) as [t1|e]; [|discriminate].
    cbv beta iota delta [rbind] in Hrun'.
    rewrite run_cons, (process_line_request _ _ _ _ Hq), Hb, Hk, run_app
      in Hrun'.
    set (t2 := upsert default_conv k (request_update log_q body) t1) in *.
    destruct (run between t2) as [u2|e] eqn:E2; [|discriminate].
    cbv beta iota delta [rbind] in Hrun'.
    rewrite run_cons, (process_line_response _ _ _ _ Hs), Hbr in Hrun'.
    pose proof (run_keeps_other_ids k between t2 u2 Hbtw E2) as K2.
    pose proof (run_keeps_other_ids k after _ t Haft Hrun') as K3.
    unfold t2 in K2. rewrite assoc_get_upsert_same in K2.
    rewrite assoc_get_upsert_same in K3. unfold current in K3 at 1.
    rewrite K2 in K3.
    set (c0 := current default_conv k t1) in *.
    destruct (Hc (request_update log_q body c0)) as (R1 & R2 & R3 & R4 & _).
    destruct (response_only_same_request g (request_update log_q body c0) Hg)
      as (S1 & S2 & S3 & S4).
    exists (g (request_update log_q body c0)).
    split; [exact K3|]. rewrite S1, S2, S3, S4.
    do 4 (split; [reflexivity|]).
    split; [exact R1|]. split; [exact R2|]. split.
    + intros Ht sse_text Hx.
      destruct (R3 Ht sse_text Hx) as (T1 & T2 & _).
      repeat split; try assumption.
      intros Hn. unfold is_complete. rewrite S1, T1. simpl.
      destruct body; [contradiction | reflexivity ..].
    + intros Ht d text Hl Hx.
      destruct (R4 Ht d text Hl Hx) as (T1 & T2 & _).
      repeat split; try assumption.
      intros Hn. unfold is_complete. rewrite S1, T1. simpl.
      destruct body; [contradiction | reflexivity ..].
Qed.

Lemma same_request_trans (a b c : conv) :
  same_request a b -> same_request b c -> same_request a c.
Proof.
  unfold same_request. intros (A1 & A2 & A3 & A4) (B1 & B2 & B3 & B4).
  repeat split; congruence.
Qed.

(** The lines that do not take a request for the key leave what the
    request record wrote at its entry. *)
Lemma run_keeps_request (k : pykey) (lines : list string) (t t' : table)
    (c : conv) :
  Forall (fun p => writes_request k p = false) lines ->
  assoc_get k t = Some c ->
  run lines t = Ok t' ->
  exists c', assoc_get k t' = Some c' /\ same_request c' c.
Proof.
  intros Hall. revert t c.
  induction Hall as [|l lines Hl _ IH]; intros t c Hc.
  - rewrite run_nil. intros [= <-]. exists c. split; [exact Hc|].
    repeat split.
  - rewrite run_cons.
    destruct (process_line_cases l t)
      as [[r E] | [(log & rid & body & k' & Hr & Hb & Hk & E)
                  | (log & rid & k' & g & _ & _ & Hg & E)]];
      rewrite E.
    + destruct r as [[]|e]; [now apply IH | discriminate].
    + assert (Hne : key_eqb k k' = false).
      { unfold Conversations.writes_request in Hl.
        rewrite Hr, Hb, Hk in Hl. exact Hl. }
      apply IH. now rewrite assoc_get_upsert_other.
    + destruct (key_eqb k k') eqn:Ek.
      * intros Hrun.
        edestruct (IH (upsert default_conv k' g t)) as (c' & Hc' & Hs);
          [|exact Hrun|].
        { rewrite (assoc_get_congr k k' _ Ek). apply assoc_get_upsert_same. }
        exists c'. split; [exact Hc'|].
        eapply same_request_trans; [exact Hs|].
        unfold current. rewrite <- (assoc_get_congr k k' _ Ek), Hc.
        now apply response_only_same_request.
      * apply IH. now rewrite assoc_get_upsert_other.
Qed.

Lemma conversations_last_request
    (before after : list string) (line : string)
    (log request_id body : json) (k : pykey) (t : table) :
  line_record line = Some (log, JStr "request_body", request_id) ->
  request_body_of log = Ok body ->
  to_key request_id = Ok k ->
  Forall (fun p => writes_request k p = false) after ->
  collect (before ++ line :: after) = Ok t ->
  exists c,
    assoc_get k t = Some c /\
    request c = body /\
    model c = Some (span_field log "model") /\
    api_key c = Some (span_field log "api_key_name") /\
    timestamp c = top_field log "timestamp".
Proof.
  intros Hr Hb Hk Hafter. unfold Conversations.collect.
  rewrite run_app.
  destruct (run before []) as [t1|e]; [|discriminate].
  cbv beta iota delta [rbind]. rewrite run_cons.
  assert (E : process_line line t1
              = (Ok tt, upsert default_conv k (request_update log body) t1)).
  { now rewrite (process_line_request _ _ _ _ Hr), Hb, Hk. }
  rewrite E. intros Hrun.
  destruct (run_keeps_request k after _ t _ Hafter
              (assoc_get_upsert_same default_conv k _ t1) Hrun)
    as (c & Hc & S1 & S2 & S3 & S4).
  exists c. split; [exact Hc|].
  rewrite S1, S2, S3, S4. repeat split.
Qed.

End CorrelatorFacts.

(** *** Runs of the correlator on concrete logs *)

Lemma one_entry_per_request_id_witness :
  (exists t,
      Conversations.collect JsonRef.loads
        [Sample.response_r1; Sample.request_r1; Sample.request_r1_again] = Ok t /\
      keys_distinct t) /\
  Conversations.collect JsonRef.loads [Sample.request_r1; Sample.response_r1]
  = Conversations.collect JsonRef.loads [Sample.response_r1; Sample.request_r1] /\
  (exists g, Conversations.response_only g /\
     forall t,
       Conversations.run JsonRef.loads [Sample.response_r1; Sample.request_r1] t
       = Conversations.run JsonRef.loads [Sample.request_r1; Sample.response_r1] t) /\
  Conversations.collect JsonRef.loads
    [Sample.request_r1; Sample.request_bad_system;
     MoreSamples.other_event_line; Sample.response_r1]
  = Conversations.collect JsonRef.loads
      [Sample.response_r1; Sample.request_bad_system;
       MoreSamples.other_event_line; Sample.request_r1] /\
  (exists t c,
      Conversations.collect JsonRef.loads
        [Sample.response_r1; Sample.request_bad_system;
         MoreSamples.other_event_line; Sample.request_r1]
        = Ok t /\
      map fst t = [KStr "r1"; KStr "r2"] /\
      assoc_get (KStr "r1") t = Some c /\
      Conversations.request c
        = JObj [(KStr "model", JStr "m1"); (KStr "stream", JBool false)] /\
      Conversations.model c = Some (JStr "m1") /\
      Conversations.api_key c = Some (JStr "k1") /\
      Conversations.timestamp c = JStr "t1" /\
      Conversations.streaming c = Some (JBool false) /\
      Conversations.response_text c = Some "hi" /\
      Conversations.usage c
        = Some (JObj [(KStr "input_tokens", JInt 5);
                      (KStr "output_tokens", JInt 2)]) /\
      Conversations.is_complete c = true).
Proof.
  destruct (one_entry_per_request_id JsonRef.loads) as (H1 & H2 & H3 & H4 & H5).
  split; [|split; [|split; [|split]]].
  - eexists. split; [vm_compute; reflexivity|].
    apply (H1 [Sample.response_r1; Sample.request_r1; Sample.request_r1_again]).
    vm_compute. reflexivity.
  - eapply (H2 [] [] Sample.request_r1 Sample.response_r1);
      vm_compute; reflexivity.
  - edestruct (H3 Sample.request_r1 Sample.response_r1) as (g & Hg & Hall);
      [vm_compute; reflexivity | vm_compute; reflexivity
      | vm_compute; reflexivity | vm_compute; reflexivity |].
    exists g. split; [exact Hg|]. intros t.
    now destruct (Hall t) as (_ & _ & _ & E).
  - eapply (H4 [] [Sample.request_bad_system; MoreSamples.other_event_line]
               [] Sample.request_r1 Sample.response_r1);
      [ vm_compute; reflexivity | vm_compute; reflexivity
      | vm_compute; reflexivity | vm_compute; reflexivity
      | repeat (constructor; [vm_compute; reflexivity|]); constructor ].
  - edestruct (H5 [] [Sample.request_bad_system; MoreSamples.other_event_line]
                  [] Sample.request_r1 Sample.response_r1)
      as (c & Hc & Hreq & Hm & Ha & Hts & Hraw & Hfl & _ & Hdoc);
      [ vm_compute; reflexivity | vm_compute; reflexivity
      | vm_compute; reflexivity | vm_compute; reflexivity
      | vm_compute; reflexivity | vm_compute; reflexivity
      | vm_compute; reflexivity
      | repeat (constructor; [vm_compute; reflexivity|]); constructor
      | constructor
      | right; vm_compute; reflexivity | ].
    edestruct (Hdoc eq_refl) as (Ht & Hu & Hall);
      [vm_compute; reflexivity | vm_compute; reflexivity |].
    eexists. exists c. split; [vm_compute; reflexivity|].
    split; [reflexivity|].
    split; [exact Hc|]. split; [exact Hreq|]. split; [exact Hm|].
    split; [exact Ha|]. split; [exact Hts|]. split; [exact Hfl|].
    split; [exact Ht|]. split; [exact Hu|].
    apply Hall. discriminate.
Defined.

(** C3: a request of [r1] is followed by a non-streaming response of [r1]
    whose body is no JSON document.  The handler of line 129 marks the entry
    with the error, but no response text is attached, so the guard of lines
    136-137 leaves the conversation out: it is omitted, not surfaced with its
    marker, and nothing reads the marker again.  The streaming path does
    surface a response that is cut in the middle of a block, with the text
    decoded so far. *)
Theorem unparseable_response_omitted :
  (exists t c,
      Conversations.collect JsonRef.loads
        [Sample.request_r1; Sample.response_r1_broken] = Ok t /\
      t = [(KStr "r1", c)] /\
      Conversations.request c
        = JObj [(KStr "model", JStr "m1"); (KStr "stream", JBool false)] /\
      Conversations.parse_error c = Some JSONDecodeError /\
      Conversations.response_text c = None /\
      Conversations.complete_conversations t = []) /\
  (exists t c,
      Conversations.collect JsonRef.loads
        [Sample.request_r1; Sample.response_r1_cut] = Ok t /\
      t = [(KStr "r1", c)] /\
      Conversations.response_text c = Some "he" /\
      Conversations.parse_error c = None /\
      Conversations.complete_conversations t = t).
Proof.
  split; do 2 eexists; vm_compute; repeat split.
Qed.

(** ** The request statistics *)

Section ReportFacts.

Import Report.

Variable json_loads : string -> option json.

#[local] Abbreviation process_line := (Report.process_line json_loads).
#[local] Abbreviation process_record := (Report.process_record json_loads).
#[local] Abbreviation take_request := (Report.take_request json_loads).
#[local] Abbreviation run := (Report.run json_loads).
#[local] Abbreviation first_pass := (Report.first_pass json_loads).
#[local] Abbreviation counted_model := (Report.counted_model json_loads).
#[local] Abbreviation counted_api_key := (Report.counted_api_key json_loads).
#[local] Abbreviation stored_entry := (Report.stored_entry json_loads).
#[local] Abbreviation stores_at := (Report.stores_at json_loads).

Lemma py_get_raises (v : json) (k : string) (dflt : json) (e : exn) :
  py_get v k dflt = Raise e -> e = AttributeError.
Proof.
  destruct v; simpl; try congruence.
  destruct (assoc_get (KStr k) d); discriminate.
Qed.

Lemma to_key_raises (v : json) (e : exn) :
  to_key v = Raise e -> e = TypeError.
Proof. destruct v; simpl; congruence. Qed.

(** The error bookkeeping leaves the request statistics alone, and what it
    raises is not a decoding error. *)
Lemma note_error_frame (log : json) (st : state) :
  let (r, st') := note_error log st in
  models st' = models st /\ api_keys st' = api_keys st /\
  conversations st' = conversations st /\
  r <> Raise JSONDecodeError.
Proof.
  unfold note_error, bind, lift, modify, ret.
  destruct (py_get log "level" JNull) as [level|e] eqn:E1.
  2:{ apply py_get_raises in E1. subst. repeat split; discriminate. }
  destruct (eq_str level "ERROR"); [|repeat split; discriminate].
  destruct (py_get log "fields" (JObj [])) as [fields|e] eqn:E2.
  2:{ apply py_get_raises in E2. subst. repeat split; discriminate. }
  destruct (py_get fields "message" (JStr "")) as [msg|e] eqn:E3.
  2:{ apply py_get_raises in E3. subst. repeat split; discriminate. }
  destruct (py_get log "timestamp" JNull) as [time|e] eqn:E4.
  2:{ apply py_get_raises in E4. subst. repeat split; discriminate. }
  destruct (py_get log "target" JNull) as [target|e] eqn:E5.
  2:{ apply py_get_raises in E5. subst. repeat split; discriminate. }
  destruct (to_key msg) as [k|e] eqn:E6.
  2:{ apply to_key_raises in E6. subst. repeat split; discriminate. }
  repeat split; discriminate.
Qed.

Lemma is_request_raises (log : json) (e : exn) :
  is_request log = Raise e -> e = AttributeError.
Proof.
  unfold is_request, rbind.
  destruct (py_get log "fields" (JObj [])) as [fields|e1] eqn:E1.
  - destruct (py_get fields "event_type" JNull) as [et|e2] eqn:E2;
      [discriminate|].
    intros [= <-]. now apply py_get_raises in E2.
  - intros [= <-]. now apply py_get_raises in E1.
Qed.

Lemma request_id_of_raises (log : json) (e : exn) :
  request_id_of log = Raise e -> e = AttributeError.
Proof.
  unfold request_id_of, rbind.
  destruct (py_get log "span" (JObj [])) as [span|e1] eqn:E1.
  - apply py_get_raises.
  - intros [= <-]. now apply py_get_raises in E1.
Qed.

(** What a line that runs through adds to the request statistics. *)
Lemma process_line_stats (line : string) (st st' : state) :
  process_line line st = (Ok tt, st') ->
  models st' = match counted_model line with
               | Some k => counter_incr k (models st)
               | None => models st
               end /\
  api_keys st' = match counted_api_key line with
                 | Some k => counter_incr k (api_keys st)
                 | None => api_keys st
                 end /\
  conversations st' = match stored_entry line with
                      | Some (k, e) => upsert e k (fun _ => e) (conversations st)
                      | None => conversations st
                      end.
Proof.
  unfold Report.process_line, Report.counted_model, Report.counted_api_key,
    Report.stored_entry, Report.request_log, try_except.
  destruct (json_loads (Str.strip line)) as [log|].
  2:{ simpl. intros [= <-]. auto. }
  unfold Report.process_record, bind.
  pose proof (note_error_frame log st) as Hfr.
  destruct (note_error log st) as [[[]|e0] st1].
  2:{ destruct Hfr as (_ & _ & _ & Hne).
      destruct e0; try discriminate. congruence. }
  destruct Hfr as (Hm & Ha & Hc & _).
  unfold lift.
  destruct (is_request log) as [[|]|e1] eqn:E1.
  3:{ apply is_request_raises in E1. subst. discriminate. }
  2:{ simpl. intros [= <-]. auto. }
  unfold modify.
  destruct (request_id_of log) as [rid|e2] eqn:E2.
  2:{ apply request_id_of_raises in E2. subst. discriminate. }
  unfold Report.take_request, try_pass, try_except, bind, lift, modify, ret.
  destruct (request_model json_loads log) as [[[body model] km]|e3].
  2:{ simpl. intros [= <-]. simpl. auto. }
  destruct (request_api_key log) as [[api_key ka]|e4].
  2:{ simpl. intros [= <-]. simpl. rewrite Hm. auto. }
  destruct (request_entry log rid body model api_key) as [[kr en]|e5].
  2:{ simpl. intros [= <-]. simpl. rewrite Hm, Ha. auto. }
  simpl. intros [= <-]. simpl. rewrite Hm, Ha, Hc. auto.
Qed.

Lemma report_run_nil (st : state) : run [] st = Ok st.
Proof. reflexivity. Qed.

Lemma report_run_cons (line : string) (lines : list string) (st : state) :
  run (line :: lines) st =
  match process_line line st with
  | (Ok _, st') => run lines st'
  | (Raise e, _) => Raise e
  end.
Proof.
  unfold Report.run. simpl. unfold bind.
  destruct (process_line line st) as [[[]|e] st']; reflexivity.
Qed.

Lemma report_run_app (l1 l2 : list string) (st : state) :
  run (l1 ++ l2) st = rbind (run l1 st) (run l2).
Proof.
  revert st. induction l1 as [|l l1 IH]; intros st; [reflexivity|].
  simpl app. rewrite !report_run_cons.
  destruct (process_line l st) as [[[]|e] st']; [apply IH|reflexivity].
Qed.

Lemma counter_get_incr (k k' : pykey) (c : counter) :
  counter_get k (counter_incr k' c)
  = counter_get k c + (if key_eqb k k' then 1 else 0).
Proof.
  unfold counter_get, counter_incr.
  destruct (key_eqb k k') eqn:E.
  - rewrite (assoc_get_congr k k' _ E), assoc_get_upsert_same.
    unfold current. now rewrite (assoc_get_congr k k' c E).
  - rewrite assoc_get_upsert_other by exact E. lia.
Qed.

Lemma run_counts (k : pykey) (lines : list string) (st st' : state) :
  run lines st = Ok st' ->
  counter_get k (models st')
  = counter_get k (models st) + occurrences k (map counted_model lines) /\
  counter_get k (api_keys st')
  = counter_get k (api_keys st) + occurrences k (map counted_api_key lines).
Proof.
  revert st. induction lines as [|l lines IH]; intros st.
  - rewrite report_run_nil. intros [= <-]. simpl. lia.
  - rewrite report_run_cons.
    destruct (process_line l st) as [[[]|e] st1] eqn:E; [|discriminate].
    intros Hrun. destruct (IH _ Hrun) as [IHm IHa].
    destruct (process_line_stats _ _ _ E) as (Hm & Ha & _).
    rewrite IHm, IHa, Hm, Ha. simpl.
    destruct (counted_model l), (counted_api_key l);
      rewrite ?counter_get_incr; lia.
Qed.

(** C9 (amended): the two histograms count records, not conversations.
    Every [request_body] record whose body is decoded to a dictionary adds one
    to the count of its model, and one to the count of its API key, whether a
    response of its request id ever arrives or not; no other record adds
    anything.  A request id borne by several such records is counted once for
    each of them. *)
Theorem histograms_count_records (lines : list string) (st : state) :
  first_pass lines = Ok st ->
  forall k,
    counter_get k (models st) = occurrences k (map counted_model lines) /\
    counter_get k (api_keys st) = occurrences k (map counted_api_key lines).
Proof.
  intros H k. destruct (run_counts k lines init st H) as [Hm Ha].
  split; [rewrite Hm | rewrite Ha]; reflexivity.
Qed.

Lemma run_keeps_entry (k : pykey) (e : entry) (lines : list string)
    (st st' : state) :
  Forall (fun p => stores_at k p = false) lines ->
  assoc_get k (conversations st) = Some e ->
  run lines st = Ok st' ->
  assoc_get k (conversations st') = Some e.
Proof.
  intros Hall. revert st.
  induction Hall as [|l lines Hl _ IH]; intros st He.
  - rewrite report_run_nil. now intros [= <-].
  - rewrite report_run_cons.
    destruct (process_line l st) as [[[]|x] st1] eqn:E; [|discriminate].
    apply IH.
    destruct (process_line_stats _ _ _ E) as (_ & _ & Hc). rewrite Hc.
    unfold Report.stores_at in Hl.
    destruct (stored_entry l) as [[k' e']|]; [|exact He].
    now rewrite assoc_get_upsert_other.
Qed.

Lemma report_last_request
    (before after : list string) (line : string)
    (log request_id body model api_key ts : json) (km ka k : pykey)
    (st : state) :
  request_log json_loads line = Some log ->
  request_model json_loads log = Ok (body, model, km) ->
  request_api_key log = Ok (api_key, ka) ->
  request_id_of log = Ok request_id ->
  to_key request_id = Ok k ->
  py_get log "timestamp" JNull = Ok ts ->
  Forall (fun p => stores_at k p = false) after ->
  first_pass (before ++ line :: after) = Ok st ->
  assoc_get k (conversations st) = Some (mkEntry model api_key body ts).
Proof.
  intros Hl Hm Ha Hr Hk Ht Hafter. unfold Report.first_pass.
  rewrite report_run_app.
  destruct (run before init) as [st1|x]; [|discriminate].
  cbv beta iota delta [rbind]. rewrite report_run_cons.
  destruct (process_line line st1) as [[[]|x] st2] eqn:E; [|discriminate].
  apply run_keeps_entry; [exact Hafter|].
  destruct (process_line_stats _ _ _ E) as (_ & _ & Hc). rewrite Hc.
  unfold Report.stored_entry. rewrite Hl, Hm, Ha, Hr.
  unfold request_entry, rbind. rewrite Ht, Hk.
  apply assoc_get_upsert_same.
Qed.

End ReportFacts.

(** C10 (amended): of several request records that bear one request id,
    the last one taken decides the entry.  In [analyze_conversations] a
    record is taken when its body is decoded and its request id can be
    hashed; the entry then holds its body, the model and the API key of its
    span and its timestamp, and no later line that is not such a record for
    the same id changes them.  In [analyze_detailed_logs] a record is taken
    when lines 46-58 run through (the body is decoded to a dictionary; the
    model, the API key and the request id can be hashed); the entry stored is
    the one built from it.  A record whose body is decoded to anything but a
    dictionary stores nothing there, so it leaves the entry of an earlier
    record. *)
Theorem last_request_wins (json_loads : string -> option json) :
  (forall before after line log request_id body k t,
      Conversations.line_record json_loads line
        = Some (log, JStr "request_body", request_id) ->
      Conversations.request_body_of json_loads log = Ok body ->
      to_key request_id = Ok k ->
      Forall (fun p => Conversations.writes_request json_loads k p = false)
             after ->
      Conversations.collect json_loads (before ++ line :: after) = Ok t ->
      exists c,
        assoc_get k t = Some c /\
        Conversations.request c = body /\
        Conversations.model c = Some (Conversations.span_field log "model") /\
        Conversations.api_key c
          = Some (Conversations.span_field log "api_key_name") /\
        Conversations.timestamp c = Conversations.top_field log "timestamp") /\
  (forall before after line log request_id body model api_key ts km ka k st,
      Report.request_log json_loads line = Some log ->
      Report.request_model json_loads log = Ok (body, model, km) ->
      Report.request_api_key log = Ok (api_key, ka) ->
      Report.request_id_of log = Ok request_id ->
      to_key request_id = Ok k ->
      py_get log "timestamp" JNull = Ok ts ->
      Forall (fun p => Report.stores_at json_loads k p = false) after ->
      Report.first_pass json_loads (before ++ line :: after) = Ok st ->
      assoc_get k (Report.conversations st)
      = Some (Report.mkEntry model api_key body ts)) /\
  (forall line log body k,
      Report.request_log json_loads line = Some log ->
      Conversations.request_body_of json_loads log = Ok body ->
      is_obj body = false ->
      Report.stores_at json_loads k line = false).
Proof.
  split; [|split].
  - apply conversations_last_request.
  - intros. eapply report_last_request; eassumption.
  - intros line log body k Hl Hb Hn.
    unfold Report.stores_at, Report.stored_entry. rewrite Hl.
    unfold Report.request_model, Conversations.request_body_of, rbind in *.
    destruct (py_getitem log "fields") as [fields|]; [|reflexivity].
    destruct (py_getitem fields "body") as [b|]; [|reflexivity].
    rewrite Hb.
    destruct body; simpl in *; try discriminate; reflexivity.
Qed.

(** ** The summaries *)

Lemma sum_from_raises (name : string) (l : Conversations.table) (acc : Z)
    (e : exn) :
  Conversations.sum_from name acc l = Raise e -> e <> ZeroDivisionError.
Proof.
  revert acc. induction l as [|[k c] l IH]; intros acc; simpl.
  - discriminate.
  - unfold rbind, Conversations.usage_field.
    destruct (py_get _ name (JInt 0)) as [v|e1] eqn:E1.
    + destruct (Conversations.int_add acc v) as [acc'|e2] eqn:E2.
      * apply IH.
      * destruct v; simpl in E2; try discriminate; injection E2 as <-;
          intros [= <-]; discriminate.
    + apply py_get_raises in E1. subst. intros [= <-]. discriminate.
Qed.

Lemma or_one_nonzero (x : Z) : Conversations.or_one x <> 0.
Proof.
  unfold Conversations.or_one. destruct (x =? 0) eqn:E; [lia|].
  now apply Z.eqb_neq in E.
Qed.

Lemma or_one_max (x : Z) : 0 <= x -> Conversations.or_one x = Z.max x 1.
Proof.
  unfold Conversations.or_one. intros H.
  destruct (x =? 0) eqn:E.
  - apply Z.eqb_eq in E. subst. reflexivity.
  - apply Z.eqb_neq in E. lia.
Qed.

Lemma cache_ratio_value (tcr ti : Z) :
  Conversations.cache_ratio tcr ti =
  Ok (if 0 <? tcr
      then Some (inject_Z tcr / inject_Z (Conversations.or_one ti)
                 * inject_Z 100)%Q
      else None).
Proof.
  unfold Conversations.cache_ratio, truediv, rbind.
  destruct (0 <? tcr); [|reflexivity].
  destruct (Conversations.or_one ti =? 0) eqn:E; [|reflexivity].
  apply Z.eqb_eq in E. now destruct (or_one_nonzero ti).
Qed.

(** C7 (amended): the summary never divides by zero.  When it succeeds and
    cache reads were counted, the cache hit ratio, in percent, is
    [total_cache_read / max(total_input, 1) * 100] for a total input that is
    not negative; for a total input of zero the divisor is [1] and the ratio
    is [total_cache_read * 100] percent, which is not zero; when no cache
    reads were counted no ratio is computed. *)
Theorem cache_hit_ratio (t : Conversations.table) :
  Conversations.summarize t <> Raise ZeroDivisionError /\
  forall s, Conversations.summarize t = Ok s ->
    (0 < Conversations.total_cache_read s ->
     0 <= Conversations.total_input s ->
     Conversations.cache_hit_percent s
     = Some (inject_Z (Conversations.total_cache_read s)
             / inject_Z (Z.max (Conversations.total_input s) 1)
             * inject_Z 100)%Q) /\
    (0 < Conversations.total_cache_read s ->
     Conversations.total_input s = 0 ->
     exists q, Conversations.cache_hit_percent s = Some q /\
               (q == inject_Z (Conversations.total_cache_read s * 100))%Q /\
               ~ (q == 0)%Q) /\
    (Conversations.total_cache_read s <= 0 ->
     Conversations.cache_hit_percent s = None).
Proof.
  unfold Conversations.summarize, Conversations.sum_usage.
  set (complete := Conversations.complete_conversations t).
  destruct (Conversations.sum_from "input_tokens" 0 complete) as [ti|e] eqn:E1.
  2:{ split; [|discriminate]. intros [= ->].
      now apply sum_from_raises in E1. }
  destruct (Conversations.sum_from "output_tokens" 0 complete) as [to|e] eqn:E2.
  2:{ split; [|discriminate]. intros [= ->].
      now apply sum_from_raises in E2. }
  destruct (Conversations.sum_from "cache_read_input_tokens" 0 complete)
    as [tcr|e] eqn:E3.
  2:{ split; [|discriminate]. intros [= ->].
      now apply sum_from_raises in E3. }
  destruct (Conversations.sum_from "cache_creation_input_tokens" 0 complete)
    as [tcc|e] eqn:E4.
  2:{ split; [|discriminate]. intros [= ->].
      now apply sum_from_raises in E4. }
  cbv beta iota delta [rbind]. rewrite cache_ratio_value.
  split; [discriminate|].
  intros s [= <-]. simpl.
  split; [|split].
  - intros Hpos Hin. apply Z.ltb_lt in Hpos. rewrite Hpos.
    now rewrite or_one_max.
  - intros Hpos ->. pose proof Hpos as Hlt. apply Z.ltb_lt in Hlt.
    rewrite Hlt. eexists. split; [reflexivity|].
    change (Conversations.or_one 0) with 1.
    split.
    + unfold Qeq, Qdiv, Qmult, Qinv, inject_Z. simpl. lia.
    + unfold Qeq, Qdiv, Qmult, Qinv, inject_Z. simpl. lia.
  - intros Hle. destruct (0 <? tcr) eqn:E; [|reflexivity].
    apply Z.ltb_lt in E. lia.
Qed.

(** *** Runs of the statistics on concrete logs *)

(** C9 (counterexample): the request record of [r1] comes twice.  There is
    one conversation, and it is counted twice under its model and twice under
    its API key. *)
Lemma conversation_counted_twice :
  exists st e,
    Report.first_pass JsonRef.loads [Sample.request_r1; Sample.request_r1]
      = Ok st /\
    Report.conversations st = [(KStr "r1", e)] /\
    Report.models st = [(KStr "m1", 2)] /\
    Report.api_keys st = [(KStr "k1", 2)].
Proof.
  do 2 eexists. vm_compute. repeat split.
Qed.

Lemma histograms_count_records_witness :
  exists st,
    Report.first_pass JsonRef.loads
      [Sample.request_r1; Sample.response_r1; Sample.request_r1_again;
       Sample.request_r1] = Ok st /\
    counter_get (KStr "m1") (Report.models st) = 2 /\
    counter_get (KStr "k2") (Report.api_keys st) = 1.
Proof.
  destruct (Report.first_pass JsonRef.loads
              [Sample.request_r1; Sample.response_r1; Sample.request_r1_again;
               Sample.request_r1]) as [st|e] eqn:E;
    [|vm_compute in E; discriminate].
  exists st. split; [reflexivity|].
  split.
  - exact (proj1 (histograms_count_records JsonRef.loads _ st E (KStr "m1"))).
  - exact (proj2 (histograms_count_records JsonRef.loads _ st E (KStr "k2"))).
Defined.

(** C10 (counterexample): a request record of [r1] is followed by a
    request record of [r1] whose body is the JSON list [[1]].  The body of
    the second record is decoded, but [analyze_detailed_logs] stores nothing
    for it (line 47 raises inside the [try]): the entry keeps the body, the
    model, the API key and the timestamp of the first record.  On the same
    log [analyze_conversations] does take the second record. *)
Lemma decoded_list_body_dropped :
  exists log st e t c,
    Report.request_log JsonRef.loads Sample.request_r1_list = Some log /\
    Conversations.request_body_of JsonRef.loads log = Ok (JArr [JInt 1]) /\
    Report.first_pass JsonRef.loads [Sample.request_r1; Sample.request_r1_list]
      = Ok st /\
    Report.total_requests st = 2 /\
    Report.conversations st = [(KStr "r1", e)] /\
    e = Report.mkEntry (JStr "m1") (JStr "k1")
          (JObj [(KStr "model", JStr "m1"); (KStr "stream", JBool false)])
          (JStr "t1") /\
    Report.request e <> JArr [JInt 1] /\
    Conversations.collect JsonRef.loads
      [Sample.request_r1; Sample.request_r1_list] = Ok t /\
    t = [(KStr "r1", c)] /\
    Conversations.request c = JArr [JInt 1] /\
    Conversations.model c = Some (JStr "m3").
Proof.
  do 5 eexists. vm_compute. repeat split. discriminate.
Qed.

Lemma last_request_wins_witness :
  (exists t c,
      Conversations.collect JsonRef.loads
        [Sample.request_r1; Sample.response_r1; Sample.request_r1_again;
         Sample.response_r1_broken] = Ok t /\
      assoc_get (KStr "r1") t = Some c /\
      Conversations.request c = JObj [(KStr "model", JStr "m2")] /\
      Conversations.model c = Some (JStr "m2") /\
      Conversations.api_key c = Some (JStr "k2") /\
      Conversations.timestamp c = JStr "t2") /\
  (exists st,
      Report.first_pass JsonRef.loads
        [Sample.request_r1; Sample.request_r1_again; Sample.response_r1;
         Sample.request_r1_list]
        = Ok st /\
      assoc_get (KStr "r1") (Report.conversations st)
      = Some (Report.mkEntry (JStr "m2") (JStr "k2")
                (JObj [(KStr "model", JStr "m2")]) (JStr "t2"))) /\
  Report.stores_at JsonRef.loads (KStr "r1") Sample.request_r1_list = false.
Proof.
  destruct (last_request_wins JsonRef.loads) as (H1 & H2 & H3).
  assert (Hlist : Report.stores_at JsonRef.loads (KStr "r1")
                    Sample.request_r1_list = false).
  { eapply (H3 Sample.request_r1_list);
      [vm_compute; reflexivity | vm_compute; reflexivity | reflexivity]. }
  split; [|split; [|exact Hlist]].
  - edestruct (H1 [Sample.request_r1; Sample.response_r1]
                  [Sample.response_r1_broken] Sample.request_r1_again)
      as (c & Hc & Hreq & Hm & Ha & Ht);
      [ vm_compute; reflexivity | vm_compute; reflexivity
      | vm_compute; reflexivity
      | repeat (constructor; [vm_compute; reflexivity|]); constructor
      | vm_compute; reflexivity | ].
    eexists. exists c. split; [vm_compute; reflexivity|].
    split; [exact Hc|]. split; [exact Hreq|]. split; [exact Hm|].
    split; [exact Ha | exact Ht].
  - eexists. split; [vm_compute; reflexivity|].
    eapply (H2 [Sample.request_r1] [Sample.response_r1; Sample.request_r1_list]
               Sample.request_r1_again);
      [ vm_compute; reflexivity | vm_compute; reflexivity
      | vm_compute; reflexivity | vm_compute; reflexivity
      | vm_compute; reflexivity | vm_compute; reflexivity
      | constructor; [vm_compute; reflexivity|];
        constructor; [exact Hlist | constructor]
      | vm_compute; reflexivity ].
Defined.

(** C7 (counterexample): a request and its response, whose usage reports
    five tokens read from the cache and no fresh input.  The total input is
    zero and the ratio is 500 percent, not zero. *)
Lemma cache_ratio_without_input :
  exists t s q,
    Conversations.collect JsonRef.loads
      [Sample.request_r1; Sample.response_r1_cached] = Ok t /\
    Conversations.summarize t = Ok s /\
    Conversations.total_conversations s = 1%nat /\
    Conversations.total_input s = 0 /\
    Conversations.total_cache_read s = 5 /\
    Conversations.cache_hit_percent s = Some q /\
    (q == inject_Z 500)%Q /\ ~ (q == 0)%Q.
Proof.
  do 3 eexists. vm_compute. repeat split; discriminate.
Qed.

Lemma cache_hit_ratio_witness :
  exists s q,
    Conversations.summarize Sample.cached_table = Ok s /\
    Conversations.cache_hit_percent s = Some q /\
    (q == inject_Z (5 * 100))%Q.
Proof.
  destruct (Conversations.summarize Sample.cached_table) as [s|e] eqn:E;
    [|vm_compute in E; discriminate].
  destruct (cache_hit_ratio Sample.cached_table) as [_ H].
  destruct (H s E) as (_ & H0 & _).
  assert (Ei : Conversations.total_input s = 0)
    by (vm_compute in E; injection E as <-; reflexivity).
  assert (Er : Conversations.total_cache_read s = 5)
    by (vm_compute in E; injection E as <-; reflexivity).
  destruct H0 as (q & Hq & Hv & _); [rewrite Er; reflexivity | exact Ei |].
  exists s, q. split; [reflexivity|]. split; [exact Hq|].
  now rewrite Er in Hv.
Defined.

(** C8: on a log without any request record the table is empty and the
    statistics divide by its length; on a request whose [system] is a number
    the loop over the system prompts raises. *)
Theorem empty_log_divides_by_zero :
  (exists st,
      Report.first_pass JsonRef.loads [] = Ok st /\
      Report.conversations st = [] /\
      Report.interaction_stats (Report.conversations st)
      = Raise ZeroDivisionError) /\
  (exists st,
      Report.first_pass JsonRef.loads [Sample.request_bad_system] = Ok st /\
      List.length (Report.conversations st) = 1%nat /\
      Report.interaction_stats (Report.conversations st) = Raise TypeError).
Proof.
  split; eexists; vm_compute; repeat split.
Qed.

(** * Further properties of the scripts *)

(** ** The brace count of the decoder (lines 35-44) *)

Lemma brace_depth_cons (c : ascii) (s : string) :
  brace_depth (String c s)
  = (if Ascii.eqb c "{" then 1 else 0) - (if Ascii.eqb c "}" then 1 else 0)
    + brace_depth s.
Proof.
  unfold brace_depth. simpl.
  destruct (Ascii.eqb c "{"), (Ascii.eqb c "}"); lia.
Qed.

Lemma get_some_length (n : nat) (s : string) (c : ascii) :
  String.get n s = Some c -> (n < String.length s)%nat.
Proof.
  revert n. induction s as [|a s IH]; intros n; simpl; [discriminate|].
  destruct n as [|n]; [lia|]. intros H. apply IH in H. lia.
Qed.

Lemma brace_depth_take_cons (c : ascii) (s : string) (m : nat) :
  brace_depth (Str.take (S (S m)) (String c s))
  = brace_depth (String c "") + brace_depth (Str.take (S m) s).
Proof.
  change (Str.take (S (S m)) (String c s)) with (String c (Str.take (S m) s)).
  rewrite !brace_depth_cons. unfold brace_depth at 2. simpl. lia.
Qed.

Lemma brace_depth_take_one (c : ascii) (s : string) :
  brace_depth (Str.take 1 (String c s)) = brace_depth (String c "").
Proof. reflexivity. Qed.

(** The scan stops at the first closing brace at which the count is zero,
    and gives [0] when there is none. *)
Lemma scan_braces_spec (s : string) (brace_count : Z) (i : nat) :
  match Sse.scan_braces brace_count i s with
  | O =>
      forall m, String.get m s = Some "}"%char ->
                brace_count + brace_depth (Str.take (S m) s) <> 0
  | S r =>
      exists n,
        S r = (i + S n)%nat /\
        String.get n s = Some "}"%char /\
        brace_count + brace_depth (Str.take (S n) s) = 0 /\
        forall m, (m < n)%nat -> String.get m s = Some "}"%char ->
                  brace_count + brace_depth (Str.take (S m) s) <> 0
  end.
Proof.
  revert brace_count i.
  induction s as [|c s IH]; intros bc i; simpl Sse.scan_braces.
  - intros m. destruct m; discriminate.
  - (* the step shared by the three kinds of character: the scan goes on
       with the count [bc'] = [bc] + the depth of the character *)
    assert (Hstep : forall bc',
              bc' = bc + brace_depth (String c "") ->
              (c = "}"%char -> bc' <> 0) ->
              match Sse.scan_braces bc' (S i) s with
              | O =>
                  forall m, String.get m (String c s) = Some "}"%char ->
                            bc + brace_depth (Str.take (S m) (String c s)) <> 0
              | S r =>
                  exists n,
                    S r = (i + S n)%nat /\
                    String.get n (String c s) = Some "}"%char /\
                    bc + brace_depth (Str.take (S n) (String c s)) = 0 /\
                    forall m, (m < n)%nat ->
                      String.get m (String c s) = Some "}"%char ->
                      bc + brace_depth (Str.take (S m) (String c s)) <> 0
              end).
    { intros bc' Hbc Hclose. specialize (IH bc' (S i)).
      destruct (Sse.scan_braces bc' (S i) s) as [|r].
      - intros [|m] Hm.
        + simpl in Hm. injection Hm as ->.
          rewrite brace_depth_take_one. specialize (Hclose eq_refl). lia.
        + simpl in Hm. rewrite brace_depth_take_cons.
          specialize (IH m Hm). lia.
      - destruct IH as (n & Hr & Hg & Hz & Hmin).
        exists (S n). repeat split.
        + lia.
        + exact Hg.
        + rewrite brace_depth_take_cons. lia.
        + intros [|m] Hlt Hm.
          * simpl in Hm. injection Hm as ->.
            rewrite brace_depth_take_one. specialize (Hclose eq_refl). lia.
          * simpl in Hm. rewrite brace_depth_take_cons.
            assert (Hlt' : (m < n)%nat) by lia.
            specialize (Hmin m Hlt' Hm). lia. }
    destruct (Ascii.eqb c "{") eqn:Eo.
    + apply Ascii.eqb_eq in Eo. subst c.
      apply Hstep; [reflexivity | discriminate].
    + destruct (Ascii.eqb c "}") eqn:Ec.
      * apply Ascii.eqb_eq in Ec. subst c.
        destruct (bc - 1 =? 0) eqn:Ez.
        -- apply Z.eqb_eq in Ez. rewrite Nat.add_1_r.
           exists 0%nat. repeat split.
           ++ lia.
           ++ rewrite brace_depth_take_one.
              change (brace_depth (String "}" "")) with (-1). lia.
           ++ intros m Hlt. lia.
        -- apply Z.eqb_neq in Ez.
           apply Hstep; [reflexivity | intros _; exact Ez].
      * apply Hstep.
        -- rewrite brace_depth_cons, Eo, Ec. unfold brace_depth. simpl. lia.
        -- intros ->. discriminate.
Qed.

Lemma json_end_le_length (s : string) :
  (Sse.json_end s <= String.length s)%nat.
Proof.
  unfold Sse.json_end.
  pose proof (scan_braces_spec s 0 0) as H.
  destruct (Sse.scan_braces 0 0 s) as [|r]; [lia|].
  destruct H as (n & Hr & Hg & _). apply get_some_length in Hg. lia.
Qed.

(** X1: [json_end] is the position after the first closing brace at which
    the text so far has as many opening as closing braces; it lies inside the
    text, and it is [0] exactly when no closing brace balances. *)
Theorem json_end_first_balanced (s : string) :
  (Sse.json_end s <= String.length s)%nat /\
  (forall n, Sse.json_end s = S n ->
     String.get n s = Some "}"%char /\
     brace_depth (Str.take (S n) s) = 0 /\
     forall m, (m < n)%nat -> String.get m s = Some "}"%char ->
               brace_depth (Str.take (S m) s) <> 0) /\
  (Sse.json_end s = 0%nat ->
     forall m, String.get m s = Some "}"%char ->
               brace_depth (Str.take (S m) s) <> 0).
Proof.
  unfold Sse.json_end.
  pose proof (scan_braces_spec s 0 0) as H.
  destruct (Sse.scan_braces 0 0 s) as [|r].
  - split; [lia|]. split; [discriminate|].
    intros _ m Hm. specialize (H m Hm). lia.
  - destruct H as (n & Hr & Hg & Hz & Hmin).
    split; [pose proof (get_some_length _ _ _ Hg); lia|].
    split; [|discriminate].
    intros n' [= ->]. assert (n' = n) as -> by lia.
    repeat split; [exact Hg | lia |].
    intros m Hlt Hm. specialize (Hmin m Hlt Hm). lia.
Qed.

Lemma scan_braces_app (s rest : string) (brace_count : Z) (i : nat) :
  Sse.scan_braces brace_count i s <> 0%nat ->
  Sse.scan_braces brace_count i (s ++ rest) = Sse.scan_braces brace_count i s.
Proof.
  revert brace_count i.
  induction s as [|c s IH]; intros bc i; simpl.
  - congruence.
  - destruct (Ascii.eqb c "{"); [apply IH|].
    destruct (Ascii.eqb c "}"); [|apply IH].
    destruct (bc - 1 =? 0); [reflexivity | apply IH].
Qed.

Lemma take_app (n : nat) (s rest : string) :
  (n <= String.length s)%nat -> Str.take n (s ++ rest) = Str.take n s.
Proof.
  revert n. induction s as [|c s IH]; intros n; simpl.
  - intros H. assert (n = 0)%nat as -> by lia. now destruct rest.
  - destruct n as [|n]; [reflexivity|]. intros H. simpl.
    rewrite IH by lia. reflexivity.
Qed.

(** X2: once the braces have balanced, what follows never matters: the
    extracted text is the same whatever is appended to the data. *)
Theorem trailing_text_ignored (s rest : string) :
  (0 < Sse.json_end s)%nat ->
  Sse.json_end (s ++ rest) = Sse.json_end s /\
  Str.take (Sse.json_end (s ++ rest)) (s ++ rest)
  = Str.take (Sse.json_end s) s.
Proof.
  intros H.
  assert (E : Sse.json_end (s ++ rest) = Sse.json_end s).
  { unfold Sse.json_end in *. apply scan_braces_app. lia. }
  split; [exact E|]. rewrite E. apply take_app.
  apply json_end_le_length.
Qed.

Lemma json_end_first_balanced_witness :
  let s := txt "{'a':{'b':1}} tail}" in
  Sse.json_end s = 13%nat /\
  String.get 12 s = Some "}"%char /\
  brace_depth (Str.take 13 s) = 0.
Proof.
  cbv zeta.
  destruct (json_end_first_balanced (txt "{'a':{'b':1}} tail}"))
    as (_ & H & _).
  destruct (H 12%nat) as (Hg & Hd & _); [vm_compute; reflexivity|].
  split; [vm_compute; reflexivity|]. split; [exact Hg | exact Hd].
Defined.

Lemma trailing_text_ignored_witness :
  Str.take (Sse.json_end (txt "{'a':1}" ++ " more } text"))
           (txt "{'a':1}" ++ " more } text")
  = Str.take (Sse.json_end (txt "{'a':1}")) (txt "{'a':1}").
Proof.
  apply (trailing_text_ignored (txt "{'a':1}") " more } text").
  vm_compute. lia.
Defined.

(** ** The events of the decoder (lines 17-64) *)

Section DecoderMore.

Variable json_loads : string -> option json.

Lemma events_are_decoded_blocks (parts : list string) (st : Sse.state) :
  Sse.events (fold_left (Sse.process_part json_loads) parts st)
  = Sse.events st ++ decoded_blocks json_loads parts.
Proof.
  revert st. induction parts as [|p parts IH]; intros st; simpl.
  - now rewrite app_nil_r.
  - rewrite IH. unfold Sse.process_part.
    destruct (Sse.decode_block json_loads p) as [[ty data]|].
    + destruct (handle_event_frame ty data st) as [He _].
      rewrite He, <- app_assoc. reflexivity.
    + reflexivity.
Qed.

(** X3: the decoder records one event for every block it decodes, in the
    order of the blocks and with the kind of the block, also when the
    statements after the recording raise; it records nothing else. *)
Theorem recorded_event_kinds (sse_text : string) :
  map fst (Sse.events (Sse.parse_sse_response json_loads sse_text))
  = map fst (decoded_blocks json_loads (Str.split "event:" sse_text)).
Proof.
  unfold Sse.parse_sse_response, Sse.parse_blocks.
  now rewrite events_are_decoded_blocks.
Qed.

(** X4: the assembled text is the concatenation, in order, of the text
    fragments of the recorded events: the string at [delta.text] of every
    [content_block_delta] event, and nothing for any other event. *)
Theorem assembled_text_from_events (sse_text : string) :
  let st := Sse.parse_sse_response json_loads sse_text in
  Sse.full_text st = Sse.join (map Sse.fragment (Sse.events st)).
Proof.
  apply full_text_is_join_of_fragments.
Qed.

(** [d.update(o)] for a dictionary [o] without repeated keys: the keys of
    [o] take the values of [o], the others keep theirs. *)
Lemma update_lookup (o d : dict) (k : pykey) :
  keys_distinct o ->
  assoc_get k (fold_left (fun acc kv => dict_set (fst kv) (snd kv) acc) o d)
  = match assoc_get k o with
    | Some v => Some v
    | None => assoc_get k d
    end.
Proof.
  revert d. induction o as [|[k0 v0] o IH]; intros d; simpl; [reflexivity|].
  intros [Hn Hd]. rewrite (IH _ Hd). unfold dict_set.
  destruct (key_eqb k k0) eqn:E.
  - rewrite (assoc_get_congr k k0 o E), Hn.
    rewrite (assoc_get_congr k k0 _ E). apply assoc_get_upsert_same.
  - destruct (assoc_get k o); [reflexivity|].
    now apply assoc_get_upsert_other.
Qed.

(** X5: a [message_start] event merges its usage into the usage so far:
    every field the event carries takes the value of the event, every other
    field keeps its value. *)
Theorem message_start_merges
    (before : list string) (part : string) (data message : json)
    (mu d : dict) :
  Sse.decode_block json_loads part = Some ("message_start", data) ->
  py_get data "message" (JObj []) = Ok message ->
  py_get message "usage" (JObj []) = Ok (JObj mu) ->
  keys_distinct mu ->
  Sse.usage (Sse.parse_blocks json_loads before) = JObj d ->
  exists d',
    Sse.usage (Sse.parse_blocks json_loads (before ++ [part])) = JObj d' /\
    forall k, assoc_get k d' = match assoc_get k mu with
                               | Some v => Some v
                               | None => assoc_get k d
                               end.
Proof.
  intros Hdec Hm Hu Hdist Hd.
  unfold Sse.parse_blocks in *. rewrite fold_left_app. simpl.
  set (st := fold_left (Sse.process_part json_loads) before Sse.init) in *.
  unfold Sse.process_part. rewrite Hdec.
  unfold Sse.handle_event, try_pass, try_except, bind, modify, lift, ret.
  simpl String.eqb. cbv iota. rewrite Hm, Hu.
  destruct mu as [|kv mu].
  - simpl. exists d. split; [exact Hd|]. reflexivity.
  - cbn [truthy]. unfold Sse.usage_update. simpl Sse.usage. rewrite Hd.
    unfold dict_update, modify. simpl.
    eexists. split; [reflexivity|].
    intros k. apply (update_lookup (kv :: mu) d k Hdist).
Qed.

(** What a block does to the text and to the usage does not depend on the
    events recorded so far. *)
Lemma process_part_ignores_events (p : string) (st1 st2 : Sse.state) :
  Sse.full_text st1 = Sse.full_text st2 ->
  Sse.usage st1 = Sse.usage st2 ->
  Sse.full_text (Sse.process_part json_loads st1 p)
  = Sse.full_text (Sse.process_part json_loads st2 p) /\
  Sse.usage (Sse.process_part json_loads st1 p)
  = Sse.usage (Sse.process_part json_loads st2 p).
Proof.
  destruct st1 as [t1 u1 e1], st2 as [t2 u2 e2]. simpl.
  intros <- <-. unfold Sse.process_part.
  destruct (Sse.decode_block json_loads p) as [[ty data]|]; [|split; reflexivity].
  unfold Sse.handle_event, try_pass, try_except, bind, modify, lift, ret,
    Sse.str_iadd, raise, Sse.usage_update.
  destruct (String.eqb ty "content_block_delta");
    [destruct (py_get data "delta" (JObj [])) as [delta|]; simpl;
       [destruct (py_get delta "text" (JStr "")) as [[| | |t| |]|]; simpl|]|];
    auto;
    (destruct (String.eqb ty "message_delta");
     [destruct (py_get data "usage" (JObj [])); simpl; now auto|]);
    (destruct (String.eqb ty "message_start"); simpl; [|now auto]);
    (destruct (py_get data "message" (JObj [])) as [m|]; simpl; [|now auto]);
    (destruct (py_get m "usage" (JObj [])) as [mu|]; simpl; [|now auto]);
    (destruct (truthy mu); simpl; [|now auto]);
    (destruct u1 as [| | | | |d]; simpl; auto);
    destruct (dict_update mu d) as [[[]|e] d']; simpl; auto.
Qed.

Lemma parse_ignores_events (parts : list string) (st1 st2 : Sse.state) :
  Sse.full_text st1 = Sse.full_text st2 ->
  Sse.usage st1 = Sse.usage st2 ->
  Sse.full_text (fold_left (Sse.process_part json_loads) parts st1)
  = Sse.full_text (fold_left (Sse.process_part json_loads) parts st2) /\
  Sse.usage (fold_left (Sse.process_part json_loads) parts st1)
  = Sse.usage (fold_left (Sse.process_part json_loads) parts st2).
Proof.
  revert st1 st2. induction parts as [|p parts IH]; intros st1 st2 Ht Hu; simpl.
  - now split.
  - destruct (process_part_ignores_events p st1 st2 Ht Hu) as [Ht' Hu'].
    now apply IH.
Qed.

(** X6: a block of a kind other than the three the decoder knows is
    recorded, with its kind, in its place among the events, and changes
    neither the text nor the usage of the whole stream. *)
Theorem unknown_event_only_recorded
    (before after : list string) (part ty : string) (data : json) :
  Sse.decode_block json_loads part = Some (ty, data) ->
  ty <> "content_block_delta" ->
  ty <> "message_delta" ->
  ty <> "message_start" ->
  let with_it := Sse.parse_blocks json_loads (before ++ part :: after) in
  let without := Sse.parse_blocks json_loads (before ++ after) in
  Sse.full_text with_it = Sse.full_text without /\
  Sse.usage with_it = Sse.usage without /\
  map fst (Sse.events with_it)
  = map fst (Sse.events (Sse.parse_blocks json_loads before)) ++ ty ::
    map fst (decoded_blocks json_loads after).
Proof.
  intros Hdec H1 H2 H3. cbv zeta.
  apply String.eqb_neq in H1. apply String.eqb_neq in H2.
  apply String.eqb_neq in H3.
  unfold Sse.parse_blocks. rewrite !fold_left_app. simpl fold_left.
  set (st := fold_left (Sse.process_part json_loads) before Sse.init).
  assert (E : Sse.process_part json_loads st part
              = Sse.append_event (ty, data) st).
  { unfold Sse.process_part. rewrite Hdec.
    unfold Sse.handle_event, try_pass, try_except, bind, modify, lift, ret.
    now rewrite H1, H2, H3. }
  rewrite E.
  destruct (parse_ignores_events after (Sse.append_event (ty, data) st) st)
    as [Ht Hu]; [reflexivity | reflexivity |].
  split; [exact Ht|]. split; [exact Hu|].
  rewrite events_are_decoded_blocks. simpl Sse.events.
  rewrite !map_app. simpl. now rewrite <- app_assoc.
Qed.
End DecoderMore.

Lemma message_start_merges_witness :
  let first := txt
    " message_start~data: {'message':{'usage':{'input_tokens':10,'output_tokens':1}}}~~" in
  let second := txt
    " message_start~data: {'message':{'usage':{'output_tokens':7,'cache_read_input_tokens':3}}}~~" in
  exists d',
    Sse.usage (Sse.parse_blocks JsonRef.loads ([first] ++ [second])) = JObj d' /\
    assoc_get (KStr "input_tokens") d' = Some (JInt 10) /\
    assoc_get (KStr "output_tokens") d' = Some (JInt 7) /\
    assoc_get (KStr "cache_read_input_tokens") d' = Some (JInt 3).
Proof.
  cbv zeta.
  edestruct (message_start_merges JsonRef.loads
               [txt " message_start~data: {'message':{'usage':{'input_tokens':10,'output_tokens':1}}}~~"]
               (txt " message_start~data: {'message':{'usage':{'output_tokens':7,'cache_read_input_tokens':3}}}~~"))
    as (d' & Hu & Hl);
    [ vm_compute; reflexivity | vm_compute; reflexivity
    | vm_compute; reflexivity | vm_compute; auto
    | vm_compute; reflexivity | ].
  exists d'. split; [exact Hu|].
  split; [|split]; rewrite Hl; reflexivity.
Defined.

Lemma unknown_event_only_recorded_witness :
  let before := [txt " content_block_delta~data: {'delta':{'text':'he'}}~~"] in
  let ping := txt " ping~data: {'type':'ping'}~~" in
  let after := [txt " content_block_delta~data: {'delta':{'text':'llo'}}~~"] in
  Sse.full_text (Sse.parse_blocks JsonRef.loads (before ++ ping :: after))
  = Sse.full_text (Sse.parse_blocks JsonRef.loads (before ++ after)) /\
  Sse.full_text (Sse.parse_blocks JsonRef.loads (before ++ ping :: after))
  = "hello".
Proof.
  cbv zeta. split; [|vm_compute; reflexivity].
  edestruct (unknown_event_only_recorded JsonRef.loads
               [txt " content_block_delta~data: {'delta':{'text':'he'}}~~"]
               [txt " content_block_delta~data: {'delta':{'text':'llo'}}~~"]
               (txt " ping~data: {'type':'ping'}~~"))
    as (H & _ & _);
    [vm_compute; reflexivity | | | | exact H]; discriminate.
Defined.

(** ** The first pass of [analyze_conversations] (lines 78-133) *)

Section CorrelatorMore.

Import Conversations.

Variable json_loads : string -> option json.

#[local] Abbreviation cprocess_line := (Conversations.process_line json_loads).
#[local] Abbreviation crun := (Conversations.run json_loads).



Lemma crun_step (before after : list string) (line : string) (t : table) :
  crun (before ++ line :: after) t =
  rbind (crun before t)
    (fun t1 => match cprocess_line line t1 with
               | (Ok _, t2) => crun after t2
               | (Raise e, _) => Raise e
               end).
Proof.
  rewrite run_app. destruct (crun before t) as [t1|e]; [|reflexivity].
  simpl rbind. apply run_cons.
Qed.


Lemma aborting_record_raises (log : json) (e : exn) :
  aborting_record log e -> record_header log = Raise e.
Proof.
  intros [l Hl | d fields Hf Hn | d fields et span Hf He Ht Hs Hn];
    unfold record_header, rbind.
  - destruct l; simpl in *; try contradiction; reflexivity.
  - simpl. rewrite Hf. simpl.
    destruct fields; simpl in *; try discriminate; reflexivity.
  - simpl. rewrite Hf. simpl. rewrite He, Ht. simpl. rewrite Hs.
    destruct span; simpl in *; try discriminate; reflexivity.
Qed.

(** X8: the first pass catches only the decoding error of a line.  A line
    that decodes to a number, a boolean or [null], or to a record whose
    [fields] or [span] is no dictionary, ends the whole run with the
    exception of the guard, whatever follows it. *)
Theorem malformed_record_aborts
    (line : string) (log : json) (e : exn)
    (before after : list string) (t t1 : table) :
  json_loads (Str.strip line) = Some log ->
  aborting_record log e ->
  crun before t = Ok t1 ->
  crun (before ++ line :: after) t = Raise e.
Proof.
  intros Hl Ha Hb. rewrite crun_step, Hb. simpl rbind.
  unfold Conversations.process_line, Conversations.process_record,
    try_except, bind, lift.
  rewrite Hl, (aborting_record_raises _ _ Ha).
  destruct Ha; reflexivity.
Qed.

(** X9: a request id that cannot be hashed (a list or a dictionary) is
    harmless in a request record, which is passed over, and fatal in a
    response record, whose handler indexes the table again and raises. *)
Theorem unhashable_request_id
    (line : string) (log event_type request_id : json) (e : exn)
    (before after : list string) (t : table) :
  Conversations.line_record json_loads line
    = Some (log, event_type, request_id) ->
  to_key request_id = Raise e ->
  (event_type = JStr "request_body" ->
   crun (before ++ line :: after) t = crun (before ++ after) t) /\
  (event_type = JStr "response_body" ->
   forall t1, crun before t = Ok t1 ->
              crun (before ++ line :: after) t = Raise TypeError).
Proof.
  intros Hr Hk. split.
  - intros ->. rewrite crun_step, run_app.
    destruct (crun before t) as [t1|x]; [|reflexivity]. simpl rbind.
    rewrite (process_line_request _ _ _ _ _ Hr), Hk.
    now destruct (request_body_of json_loads log).
  - intros -> t1 Hb. rewrite crun_step, Hb. simpl rbind.
    now rewrite (process_line_response _ _ _ _ _ Hr),
      (response_branch_unhashable _ _ _ _ _ Hk).
Qed.

(** X10: a request record whose body is missing or is not decoded leaves no
    trace, not even an empty entry; a response record with a hashable request
    id always leaves an entry for it, decoded or not. *)
Theorem entry_creation
    (line : string) (log request_id : json) (t : table) :
  (Conversations.line_record json_loads line
     = Some (log, JStr "request_body", request_id) ->
   forall e, request_body_of json_loads log = Raise e ->
   crun [line] t = Ok t) /\
  (Conversations.line_record json_loads line
     = Some (log, JStr "response_body", request_id) ->
   forall k, to_key request_id = Ok k ->
   exists t' c, crun [line] t = Ok t' /\ assoc_get k t' = Some c).
Proof.
  split.
  - intros Hr e He.
    now rewrite run_cons, (process_line_request _ _ _ _ _ Hr), He, run_nil.
  - intros Hr k Hk.
    destruct (response_branch_hashable json_loads log request_id k Hk)
      as (g & _ & Hb).
    rewrite run_cons, (process_line_response _ _ _ _ _ Hr), Hb, run_nil.
    do 2 eexists. split; [reflexivity|]. apply assoc_get_upsert_same.
Qed.

Lemma upsert_keys {V : Type} (dflt : V) (k : pykey) (f : V -> V)
    (d : list (pykey * V)) :
  map fst (upsert dflt k f d)
  = map fst d ++ match assoc_get k d with Some _ => [] | None => [k] end.
Proof.
  induction d as [|[k0 v] d IH]; simpl; [reflexivity|].
  destruct (key_eqb k k0); simpl.
  - now rewrite app_nil_r.
  - now rewrite IH.
Qed.

(** X11: the table only grows, and at its end: every line leaves the keys
    already there in their places, so the order of the table is the order in
    which the request ids were first seen. *)
Theorem table_grows_at_end (lines : list string) (t t' : table) :
  crun lines t = Ok t' ->
  exists added, map fst t' = map fst t ++ added.
Proof.
  revert t. induction lines as [|l lines IH]; intros t.
  - rewrite run_nil. intros [= <-]. exists []. now rewrite app_nil_r.
  - rewrite run_cons.
    destruct (process_line_cases json_loads l t)
      as [[r E] | [(log & rid & body & k & _ & _ & _ & E)
                  | (log & rid & k & g & _ & _ & _ & E)]];
      rewrite E.
    + destruct r as [[]|e]; [apply IH | discriminate].
    + intros H. destruct (IH _ H) as [added Ha].
      rewrite upsert_keys, <- app_assoc in Ha. eauto.
    + intros H. destruct (IH _ H) as [added Ha].
      rewrite upsert_keys, <- app_assoc in Ha. eauto.
Qed.

End CorrelatorMore.

(** ** The response documents and the sums of [analyze_conversations] *)

Section ResponseMore.

Import Conversations.

Variable json_loads : string -> option json.

Lemma append_assoc (a b c : string) :
  ((a ++ b) ++ c)%string = (a ++ (b ++ c))%string.
Proof. induction a as [|x a IH]; simpl; [reflexivity|]. now rewrite IH. Qed.

Lemma concat_text_spec (items : list json) (text : string) :
  concat_text text items =
  if forallb text_typed items
  then Ok (text ++ Sse.join (map block_text items))%string
  else Raise TypeError.
Proof.
  revert text. induction items as [|item items IH]; intros text; simpl.
  - now rewrite append_empty.
  - destruct item as [| | | | |d]; simpl; try apply IH.
    destruct (assoc_get (KStr "text") d) as [[| | |t| |]|]; simpl;
      try reflexivity; try apply IH.
    rewrite IH. destruct (forallb text_typed items); [|reflexivity].
    now rewrite append_assoc.
Qed.

(** X12: the text of a non-streaming response document is the
    concatenation, in the order of the array, of the strings at [text] of the
    blocks of [content] that are dictionaries; other blocks are passed over,
    a missing [content] gives the empty text, and a block whose [text] is no
    string makes the extraction raise. *)
Theorem extract_text_concatenates (d : dict) :
  (assoc_get (KStr "content") d = None -> extract_text (JObj d) = Ok "") /\
  (forall items,
      assoc_get (KStr "content") d = Some (JArr items) ->
      extract_text (JObj d) =
      if forallb text_typed items
      then Ok (Sse.join (map block_text items))
      else Raise TypeError).
Proof.
  unfold extract_text, rbind. simpl. split.
  - now intros ->.
  - intros items ->. destruct items as [|item items]; [reflexivity|].
    cbn [truthy py_iter]. apply (concat_text_spec (item :: items) "").
Qed.

(** X13: a non-streaming response whose body decodes to a dictionary with a
    well-formed content gets its text and its usage (the empty dictionary when
    the document has none) attached, without a marker; what the request
    record wrote stays, and the conversation is complete as soon as it has a
    request. *)
Theorem decoded_response_attached
    (log request_id fields body_text streaming : json) (k : pykey)
    (d : dict) (text : string) (t : table) :
  to_key request_id = Ok k ->
  py_getitem log "fields" = Ok fields ->
  py_getitem fields "body" = Ok body_text ->
  py_get fields "streaming" (JBool false) = Ok streaming ->
  truthy streaming = false ->
  py_loads json_loads body_text = Ok (JObj d) ->
  extract_text (JObj d) = Ok text ->
  let old := current default_conv k t in
  let result := response_branch json_loads log request_id t in
  exists c,
    fst result = Ok tt /\
    assoc_get k (snd result) = Some c /\
    response_text c = Some text /\
    usage c = Some (current (JObj []) (KStr "usage") d) /\
    parse_error c = parse_error old /\
    same_request c old /\
    (request old <> JNull -> is_complete c = true).
Proof.
  intros Hk Hf Hb Hs Hfalse Hl Ht. cbv zeta.
  unfold Conversations.response_branch, Conversations.interpret_response,
    set_field, try_except, bind, lift, ret, raise, modify.
  rewrite Hk, Hf. cbv beta iota. rewrite Hb. cbv beta iota.
  rewrite Hs. cbv beta iota. rewrite Hfalse, Hl. cbv beta iota.
  rewrite Ht. cbv beta iota.
  unfold py_get, current.
  destruct (assoc_get (KStr "usage") d) as [u|]; cbv beta iota;
    simpl fst; simpl snd;
    rewrite !upsert_upsert, assoc_get_upsert_same;
    (eexists; split; [reflexivity|]; split; [reflexivity|]);
    repeat split;
    (intros Hreq; unfold is_complete; simpl;
     destruct (request _); [contradiction | reflexivity ..]).
Qed.

(** X14: a response body that decodes to a list or to a string in which
    ['content'] does not occur is half accepted: the empty text is attached,
    then reading the usage raises, so the entry is marked with the error and
    keeps the usage it had. *)
Theorem non_dict_response_half_attached
    (log request_id fields body_text streaming resp_json : json) (k : pykey)
    (t : table) :
  to_key request_id = Ok k ->
  py_getitem log "fields" = Ok fields ->
  py_getitem fields "body" = Ok body_text ->
  py_get fields "streaming" (JBool false) = Ok streaming ->
  truthy streaming = false ->
  py_loads json_loads body_text = Ok resp_json ->
  is_obj resp_json = false ->
  py_in "content" resp_json = Ok false ->
  let old := current default_conv k t in
  let result := response_branch json_loads log request_id t in
  exists c,
    fst result = Ok tt /\
    assoc_get k (snd result) = Some c /\
    response_text c = Some "" /\
    usage c = usage old /\
    parse_error c = Some AttributeError.
Proof.
  intros Hk Hf Hb Hs Hfalse Hl Hobj Hin. cbv zeta.
  unfold Conversations.response_branch, Conversations.interpret_response,
    set_field, try_except, bind, lift, ret, raise, modify.
  rewrite Hk, Hf. cbv beta iota. rewrite Hb. cbv beta iota.
  rewrite Hs. cbv beta iota. rewrite Hfalse, Hl. cbv beta iota.
  unfold extract_text, rbind. rewrite Hin. cbv beta iota.
  assert (Hu : py_get resp_json "usage" (JObj []) = Raise AttributeError)
    by (destruct resp_json; simpl in *; try reflexivity; discriminate).
  rewrite Hu. cbv beta iota. simpl fst. simpl snd.
  rewrite !upsert_upsert, assoc_get_upsert_same.
  eexists. split; [reflexivity|]. split; [reflexivity|]. repeat split.
Qed.

End ResponseMore.

Section SumsMore.

Import Conversations.

Lemma sum_from_typed (name : string) (l : table) (acc : Z) :
  forallb (fun kv => field_typed name (snd kv)) l = true ->
  sum_from name acc l = Ok (acc + sum_values name l).
Proof.
  revert acc. induction l as [|[k c] l IH]; intros acc H.
  - simpl. f_equal. unfold sum_values. simpl. lia.
  - simpl in H. apply andb_true_iff in H as [Hc Hl].
    change (sum_values name ((k, c) :: l))
      with (usage_value name c + sum_values name l).
    simpl sum_from. unfold rbind, usage_field.
    unfold field_typed in Hc. unfold usage_value.
    destruct (usage c) as [[| | | | |d]|]; try discriminate.
    + unfold py_get.
      destruct (assoc_get (KStr name) d) as [[|[|]|z| | |]|];
        try discriminate; unfold int_add; rewrite (IH _ Hl); f_equal; lia.
    + unfold py_get. simpl assoc_get. unfold int_add.
      rewrite (IH _ Hl). f_equal. lia.
Qed.

(** X15: on a table whose complete conversations have well-typed usages (a
    dictionary, or none, with integers or booleans at the four counters) the
    summary succeeds, counts the complete conversations, and each total is the
    sum of the field over them, where a missing usage or field counts zero. *)
Theorem summary_totals (t : table) :
  forallb (fun kv => usage_typed (snd kv)) (complete_conversations t) = true ->
  exists s,
    summarize t = Ok s /\
    total_conversations s = List.length (complete_conversations t) /\
    total_input s = sum_values "input_tokens" (complete_conversations t) /\
    total_output s = sum_values "output_tokens" (complete_conversations t) /\
    total_cache_read s
      = sum_values "cache_read_input_tokens" (complete_conversations t) /\
    total_cache_create s
      = sum_values "cache_creation_input_tokens" (complete_conversations t).
Proof.
  intros H. unfold summarize, sum_usage.
  set (l := complete_conversations t) in *.
  assert (Hall : forall name,
            (forall c, usage_typed c = true -> field_typed name c = true) ->
            forallb (fun kv => field_typed name (snd kv)) l = true).
  { intros name Hn. rewrite forallb_forall in *. intros kv Hin.
    apply Hn. now apply H. }
  rewrite (sum_from_typed "input_tokens" l 0),
    (sum_from_typed "output_tokens" l 0),
    (sum_from_typed "cache_read_input_tokens" l 0),
    (sum_from_typed "cache_creation_input_tokens" l 0).
  - cbv beta iota delta [rbind]. rewrite cache_ratio_value.
    eexists. split; [reflexivity|]. simpl. repeat split.
  - apply Hall. intros c Hc. unfold usage_typed in Hc.
    now apply andb_true_iff in Hc as [_ Hc].
  - apply Hall. intros c Hc. unfold usage_typed in Hc.
    apply andb_true_iff in Hc as [Hc _].
    now apply andb_true_iff in Hc as [_ Hc].
  - apply Hall. intros c Hc. unfold usage_typed in Hc.
    apply andb_true_iff in Hc as [Hc _].
    apply andb_true_iff in Hc as [Hc _].
    now apply andb_true_iff in Hc as [_ Hc].
  - apply Hall. intros c Hc. unfold usage_typed in Hc.
    apply andb_true_iff in Hc as [Hc _].
    apply andb_true_iff in Hc as [Hc _].
    now apply andb_true_iff in Hc as [Hc _].
Qed.

(** X16: a usage value that is no number is fatal for the summary: when the
    first complete conversation that is not well typed at [input_tokens]
    holds a string, a list, a dictionary or [null] there, the sum raises
    [TypeError]; when its usage is no dictionary the lookup raises
    [AttributeError]. *)
Theorem summary_raises_on_bad_usage
    (t : table) (good bad : table) (k : pykey) (c : conv) :
  complete_conversations t = good ++ (k, c) :: bad ->
  forallb (fun kv => field_typed "input_tokens" (snd kv)) good = true ->
  field_typed "input_tokens" c = false ->
  summarize t = Raise (match usage c with
                       | Some (JObj _) => TypeError
                       | _ => AttributeError
                       end).
Proof.
  intros Hl Hgood Hbad. unfold summarize, sum_usage. rewrite Hl.
  assert (E : forall acc,
            sum_from "input_tokens" acc (good ++ (k, c) :: bad)
            = Raise (match usage c with
                     | Some (JObj _) => TypeError
                     | _ => AttributeError
                     end)).
  { clear Hl. induction good as [|[k0 c0] good IH]; intros acc.
    - simpl. unfold rbind, usage_field, field_typed in *.
      destruct (usage c) as [[| | | | |d]|]; simpl in *; try discriminate;
        try reflexivity.
      destruct (assoc_get (KStr "input_tokens") d) as [[| | | | |]|];
        simpl in *; try discriminate; reflexivity.
    - simpl in Hgood. apply andb_true_iff in Hgood as [H0 Hg].
      simpl. unfold rbind.
      pose proof (sum_from_typed "input_tokens" [(k0, c0)] acc) as Hs.
      simpl in Hs. rewrite H0 in Hs. specialize (Hs eq_refl).
      unfold rbind in Hs.
      destruct (usage_field "input_tokens" c0) as [v|]; [|discriminate].
      destruct (int_add acc v) as [acc'|]; [|discriminate].
      now apply IH. }
  now rewrite E.
Qed.

End SumsMore.

(** ** The first pass of [analyze_detailed_logs] (lines 25-69) *)

Section ReportMore.

Import Report.

Variable json_loads : string -> option json.

#[local] Abbreviation rprocess_line := (Report.process_line json_loads).
#[local] Abbreviation rrun := (Report.run json_loads).

Lemma counter_total_incr (k : pykey) (c : counter) :
  counter_total (counter_incr k c) = counter_total c + 1.
Proof.
  unfold counter_incr, counter_total.
  induction c as [|[k0 n] c IH]; simpl; [reflexivity|].
  destruct (key_eqb k k0); simpl; lia.
Qed.

Lemma upsert_length {V : Type} (dflt : V) (k : pykey) (f : V -> V)
    (d : list (pykey * V)) :
  (List.length d <= List.length (upsert dflt k f d) <= S (List.length d))%nat.
Proof.
  induction d as [|[k0 v] d IH]; simpl; [lia|].
  destruct (key_eqb k k0); simpl; lia.
Qed.

(** What the error bookkeeping of one record does when it runs through. *)
Lemma note_error_counts (log : json) (st : state) :
  let b := match py_get log "level" JNull with
           | Ok level => eq_str level "ERROR"
           | Raise _ => false
           end in
  let (r, st') := note_error log st in
  total_requests st' = total_requests st /\
  request_bodies st' = request_bodies st /\
  (r = Ok tt ->
   Z.of_nat (List.length (errors st'))
   = Z.of_nat (List.length (errors st)) + (if b then 1 else 0) /\
   counter_total (error_counts st')
   = counter_total (error_counts st) + (if b then 1 else 0)).
Proof.
  cbv zeta. unfold note_error, bind, lift, modify, ret.
  destruct (py_get log "level" JNull) as [level|e];
    [|repeat split; discriminate].
  destruct (eq_str level "ERROR"); [|repeat split; lia].
  destruct (py_get log "fields" (JObj [])) as [fields|e];
    [|repeat split; discriminate].
  destruct (py_get fields "message" (JStr "")) as [msg|e];
    [|repeat split; discriminate].
  destruct (py_get log "timestamp" JNull) as [time|e];
    [|repeat split; discriminate].
  destruct (py_get log "target" JNull) as [target|e];
    [|repeat split; discriminate].
  destruct (to_key msg) as [k|e]; [|repeat split; discriminate].
  simpl. repeat split.
  - rewrite length_app. simpl. lia.
  - apply counter_total_incr.
Qed.

(** What a line that runs through adds to the counts of requests and of
    errors, and how much the request statistics can grow. *)
Lemma process_line_counts (line : string) (st st' : state) :
  rprocess_line line st = (Ok tt, st') ->
  total_requests st'
  = total_requests st + (if is_request_line json_loads line then 1 else 0) /\
  Z.of_nat (List.length (errors st'))
  = Z.of_nat (List.length (errors st))
    + (if is_error_line json_loads line then 1 else 0) /\
  counter_total (error_counts st')
  = counter_total (error_counts st)
    + (if is_error_line json_loads line then 1 else 0) /\
  exists m a s,
    counter_total (models st') = counter_total (models st) + m /\
    counter_total (api_keys st') = counter_total (api_keys st) + a /\
    Z.of_nat (List.length (request_bodies st'))
    = Z.of_nat (List.length (request_bodies st)) + s /\
    0 <= s <= a /\ a <= m /\
    m <= (if is_request_line json_loads line then 1 else 0) /\
    (List.length (conversations st')
     <= List.length (conversations st) + Z.to_nat s)%nat.
Proof.
  unfold Report.process_line, is_request_line, is_error_line,
    Report.request_log, try_except.
  destruct (json_loads (Str.strip line)) as [log|].
  2:{ simpl. intros [= <-]. repeat split; try lia.
      exists 0, 0, 0. repeat split; simpl; lia. }
  unfold Report.process_record, bind.
  pose proof (note_error_frame log st) as Hfr.
  pose proof (note_error_counts log st) as Hct. cbv zeta in Hct.
  destruct (note_error log st) as [[[]|e0] st1].
  2:{ destruct Hfr as (_ & _ & _ & Hne).
      destruct e0; try discriminate. congruence. }
  destruct Hfr as (Hm & Ha & Hc & _).
  destruct Hct as (Htr & Hrb & Herr). specialize (Herr eq_refl).
  destruct Herr as [Hel Hec].
  unfold lift.
  destruct (is_request log) as [[|]|e1] eqn:E1.
  3:{ apply is_request_raises in E1. subst. discriminate. }
  2:{ simpl. intros [= <-]. repeat split; try lia.
      exists 0, 0, 0. rewrite Hm, Ha, Hc, Hrb. repeat split; simpl; lia. }
  unfold modify.
  destruct (request_id_of log) as [rid|e2] eqn:E2.
  2:{ apply request_id_of_raises in E2. subst. discriminate. }
  unfold Report.take_request, try_pass, try_except, bind, lift, modify, ret.
  destruct (request_model json_loads log) as [[[body model] km]|e3].
  2:{ simpl. intros [= <-]. simpl. repeat split; try lia.
      exists 0, 0, 0. rewrite Hm, Ha, Hc, Hrb. repeat split; simpl; lia. }
  destruct (request_api_key log) as [[api_key ka]|e4].
  2:{ simpl. intros [= <-]. simpl. repeat split; try lia.
      exists 1, 0, 0. rewrite Hm, Ha, Hc, Hrb, counter_total_incr.
      repeat split; simpl; lia. }
  destruct (request_entry log rid body model api_key) as [[kr en]|e5].
  2:{ simpl. intros [= <-]. simpl. repeat split; try lia.
      exists 1, 1, 0. rewrite Hm, Ha, Hc, Hrb, !counter_total_incr.
      repeat split; simpl; lia. }
  simpl. intros [= <-]. simpl. repeat split; try lia.
  exists 1, 1, 1. rewrite Hm, Ha, Hc, Hrb, !counter_total_incr, length_app.
  pose proof (upsert_length en kr (fun _ => en) (conversations st)).
  repeat split; simpl; lia.
Qed.

(** X17: [total_requests] counts every [request_body] record, whether its
    body is decoded or not, and the error list and the error counter both
    count every record of level [ERROR]; so the number of errors the report
    prints is the length of the error list. *)
Theorem requests_and_errors_counted (lines : list string) (st : state) :
  Report.first_pass json_loads lines = Ok st ->
  total_requests st = count_lines (is_request_line json_loads) lines /\
  Z.of_nat (List.length (errors st))
  = count_lines (is_error_line json_loads) lines /\
  counter_total (error_counts st) = Z.of_nat (List.length (errors st)).
Proof.
  unfold Report.first_pass.
  assert (H : forall st0,
    rrun lines st0 = Ok st ->
    total_requests st
    = total_requests st0 + count_lines (is_request_line json_loads) lines /\
    Z.of_nat (List.length (errors st))
    = Z.of_nat (List.length (errors st0))
      + count_lines (is_error_line json_loads) lines /\
    counter_total (error_counts st)
    = counter_total (error_counts st0)
      + count_lines (is_error_line json_loads) lines).
  { induction lines as [|l lines IH]; intros st0.
    - rewrite report_run_nil. intros [= <-]. unfold count_lines. simpl. lia.
    - rewrite report_run_cons.
      destruct (rprocess_line l st0) as [[[]|e] st1] eqn:E; [|discriminate].
      intros Hrun. destruct (IH _ Hrun) as (I1 & I2 & I3).
      destruct (process_line_counts _ _ _ E) as (P1 & P2 & P3 & _).
      unfold count_lines in *. simpl filter.
      destruct (is_request_line json_loads l),
        (is_error_line json_loads l); simpl List.length; lia. }
  intros Hrun. destruct (H _ Hrun) as (H1 & H2 & H3).
  simpl in H1, H2, H3. lia.
Qed.

(** X18: the request statistics are nested: there are at most as many
    conversations as stored request bodies, at most as many of those as counts
    in the API-key histogram, at most as many of those as counts in the model
    histogram, and at most as many of those as requests. *)
Theorem statistics_nested (lines : list string) (st : state) :
  Report.first_pass json_loads lines = Ok st ->
  Z.of_nat (List.length (conversations st))
  <= Z.of_nat (List.length (request_bodies st)) /\
  Z.of_nat (List.length (request_bodies st)) <= counter_total (api_keys st) /\
  counter_total (api_keys st) <= counter_total (models st) /\
  counter_total (models st) <= total_requests st.
Proof.
  unfold Report.first_pass.
  assert (H : forall st0,
    rrun lines st0 = Ok st ->
    Z.of_nat (List.length (conversations st))
    - Z.of_nat (List.length (conversations st0))
    <= Z.of_nat (List.length (request_bodies st))
       - Z.of_nat (List.length (request_bodies st0)) /\
    Z.of_nat (List.length (request_bodies st))
    - Z.of_nat (List.length (request_bodies st0))
    <= counter_total (api_keys st) - counter_total (api_keys st0) /\
    counter_total (api_keys st) - counter_total (api_keys st0)
    <= counter_total (models st) - counter_total (models st0) /\
    counter_total (models st) - counter_total (models st0)
    <= total_requests st - total_requests st0).
  { induction lines as [|l lines IH]; intros st0.
    - rewrite report_run_nil. intros [= <-]. lia.
    - rewrite report_run_cons.
      destruct (rprocess_line l st0) as [[[]|e] st1] eqn:E; [|discriminate].
      intros Hrun. destruct (IH _ Hrun) as (I1 & I2 & I3 & I4).
      destruct (process_line_counts _ _ _ E)
        as (P1 & _ & _ & m & a & s & Pm & Pa & Ps & Hs & Ha & Hm & Hc).
      destruct (is_request_line json_loads l); lia. }
  intros Hrun. destruct (H _ Hrun) as (H1 & H2 & H3 & H4).
  simpl in H1, H2, H3, H4. lia.
Qed.

End ReportMore.

(** ** The interaction statistics of [analyze_detailed_logs] (lines 177-214) *)

Section StatsMore.

Import Report.

(** One conversation adds at most one to every counter, and it adds to the
    cache counter only when it adds to the counter of system prompts. *)
Lemma classify_step (conv : entry) (t0 : tally) :
  let t1 := snd (classify conv t0) in
  streaming_count t0 <= streaming_count t1 <= streaming_count t0 + 1 /\
  has_tools t0 <= has_tools t1 <= has_tools t0 + 1 /\
  has_system_prompt t0 <= has_system_prompt t1 <= has_system_prompt t0 + 1 /\
  has_cache t0 <= has_cache t1 /\
  has_cache t1 - has_cache t0 <= has_system_prompt t1 - has_system_prompt t0 /\
  structured_output t0 <= structured_output t1 <= structured_output t0 + 1.
Proof.
  cbv zeta. unfold classify, bind, lift, modify, ret, incr_when.
  destruct (py_get (request conv) "stream" JNull) as [stream|];
    [|simpl; lia].
  destruct (py_get (request conv) "tools" JNull) as [tools|];
    [|destruct (truthy stream); simpl; lia].
  destruct (py_get (request conv) "system" JNull) as [system|];
    [|destruct (truthy stream), (truthy tools); simpl; lia].
  destruct (truthy system).
  - destruct (py_getitem (request conv) "system") as [s|];
      [|destruct (truthy stream), (truthy tools); simpl; lia].
    destruct (py_iter s) as [items|];
      [|destruct (truthy stream), (truthy tools); simpl; lia].
    destruct (py_in "output_config" (request conv)) as [[|]|];
      [| destruct (truthy stream), (truthy tools),
           (existsb cache_marked items); simpl; lia
       | destruct (truthy stream), (truthy tools),
           (existsb cache_marked items); simpl; lia].
    destruct (py_getitem (request conv) "output_config") as [oc|];
      [|destruct (truthy stream), (truthy tools),
          (existsb cache_marked items); simpl; lia].
    destruct (py_get oc "format" (JObj [])) as [format|];
      [|destruct (truthy stream), (truthy tools),
          (existsb cache_marked items); simpl; lia].
    destruct (py_get format "type" JNull) as [fmt|];
      destruct (truthy stream), (truthy tools),
        (existsb cache_marked items); simpl;
      try destruct (eq_str fmt "json_schema"); simpl; lia.
  - destruct (py_in "output_config" (request conv)) as [[|]|];
      [| destruct (truthy stream), (truthy tools); simpl; lia
       | destruct (truthy stream), (truthy tools); simpl; lia].
    destruct (py_getitem (request conv) "output_config") as [oc|];
      [|destruct (truthy stream), (truthy tools); simpl; lia].
    destruct (py_get oc "format" (JObj [])) as [format|];
      [|destruct (truthy stream), (truthy tools); simpl; lia].
    destruct (py_get format "type" JNull) as [fmt|];
      destruct (truthy stream), (truthy tools); simpl;
      try destruct (eq_str fmt "json_schema"); simpl; lia.
Qed.

Lemma classify_all (convs : list entry) (t0 : tally) :
  let t1 := snd (for_each classify convs t0) in
  let n := Z.of_nat (List.length convs) in
  streaming_count t0 <= streaming_count t1 <= streaming_count t0 + n /\
  has_tools t0 <= has_tools t1 <= has_tools t0 + n /\
  has_system_prompt t0 <= has_system_prompt t1 <= has_system_prompt t0 + n /\
  has_cache t0 <= has_cache t1 /\
  has_cache t1 - has_cache t0 <= has_system_prompt t1 - has_system_prompt t0 /\
  structured_output t0 <= structured_output t1 <= structured_output t0 + n.
Proof.
  cbv zeta. revert t0.
  induction convs as [|c convs IH]; intros t0.
  - simpl. lia.
  - simpl for_each. unfold bind.
    pose proof (classify_step c t0) as Hs. cbv zeta in Hs.
    destruct (classify c t0) as [[[]|e] t1]; simpl snd in *.
    + specialize (IH t1). rewrite length_cons, Nat2Z.inj_succ. lia.
    + rewrite length_cons, Nat2Z.inj_succ. lia.
Qed.

Lemma percent_bounds (a : Z) (convs : list (pykey * entry)) (q : Q) :
  0 <= a <= Z.of_nat (List.length convs) ->
  percent a convs = Ok q ->
  (0 <= q /\ q <= inject_Z 100)%Q.
Proof.
  unfold percent, truediv, rbind. intros Ha.
  destruct (Z.of_nat (List.length convs)) as [|p|p] eqn:En;
    [discriminate| |lia].
  simpl. intros [= <-].
  unfold Qle, Qdiv, Qmult, Qinv, inject_Z. simpl. split; nia.
Qed.

(** X19: when the interaction statistics are computed, the table is not
    empty, no counter is negative or exceeds the number of conversations, the
    conversations counted for cache use are among those counted for a system
    prompt, and the four ratios lie between 0 and 100 percent. *)
Theorem interaction_counts_bounded
    (convs : list (pykey * entry)) (f : features) :
  interaction_stats convs = Ok f ->
  let n := Z.of_nat (List.length convs) in
  let t := counts f in
  0 < n /\
  0 <= streaming_count t <= n /\
  0 <= has_tools t <= n /\
  0 <= has_cache t <= has_system_prompt t /\
  has_system_prompt t <= n /\
  0 <= structured_output t <= n /\
  (0 <= streaming_percent f /\ streaming_percent f <= inject_Z 100)%Q /\
  (0 <= tools_percent f /\ tools_percent f <= inject_Z 100)%Q /\
  (0 <= system_percent f /\ system_percent f <= inject_Z 100)%Q /\
  (0 <= cache_percent f /\ cache_percent f <= inject_Z 100)%Q.
Proof.
  unfold interaction_stats.
  pose proof (classify_all (map snd convs) tally0) as Hb. cbv zeta in Hb.
  rewrite length_map in Hb. simpl in Hb.
  destruct (for_each classify (map snd convs) tally0) as [[[]|e] t];
    [|discriminate].
  simpl snd in Hb. unfold rbind.
  destruct (percent (streaming_count t) convs) as [p1|] eqn:E1; [|discriminate].
  destruct (percent (has_tools t) convs) as [p2|] eqn:E2; [|discriminate].
  destruct (percent (has_system_prompt t) convs) as [p3|] eqn:E3;
    [|discriminate].
  destruct (percent (has_cache t) convs) as [p4|] eqn:E4; [|discriminate].
  intros [= <-]. cbv zeta. simpl.
  assert (Hn : 0 < Z.of_nat (List.length convs)).
  { unfold percent, truediv, rbind in E1.
    destruct (Z.of_nat (List.length convs) =? 0) eqn:Ez; [discriminate|].
    apply Z.eqb_neq in Ez. lia. }
  split; [exact Hn|].
  repeat split; try lia;
    try (eapply percent_bounds; [|eassumption]; lia).
Qed.

Lemma classify_shaped (conv : entry) (t0 : tally) :
  request_shaped (request conv) = true ->
  fst (classify conv t0) = Ok tt.
Proof.
  unfold request_shaped, classify, bind, lift, modify, ret,
    py_get, py_getitem, py_in.
  destruct (request conv) as [| | | | |d]; try discriminate.
  destruct (assoc_get (KStr "system") d) as [v|];
    destruct (assoc_get (KStr "output_config") d) as [[| | | | |oc]|];
    destruct (assoc_get (KStr "stream") d);
    destruct (assoc_get (KStr "tools") d);
    cbv beta iota; intros H; apply andb_true_iff in H as [Hs Ho];
    try discriminate;
    try (destruct (truthy v) eqn:Tv; cbv beta iota;
         [destruct v; simpl in Hs, Tv; try discriminate;
          simpl py_iter; cbv beta iota|]);
    try reflexivity;
    try (destruct (assoc_get (KStr "format") oc) as [[| | | | |fd]|];
         try discriminate; cbv beta iota;
         try (destruct (assoc_get (KStr "type") fd)); reflexivity).
Qed.

(** X20: on a table that is not empty and whose requests are well shaped (a
    [system] that can be iterated when truthy, an [output_config] that is a
    dictionary with a dictionary under [format] when present) the interaction
    statistics are computed without an exception. *)
Theorem interaction_stats_succeed (convs : list (pykey * entry)) :
  convs <> [] ->
  forallb (fun kv => request_shaped (request (snd kv))) convs = true ->
  exists f, interaction_stats convs = Ok f.
Proof.
  intros Hne Hall. unfold interaction_stats.
  assert (Hrun : forall (l : list (pykey * entry)) t0,
            forallb (fun kv => request_shaped (request (snd kv))) l = true ->
            fst (for_each classify (map snd l) t0) = Ok tt).
  { induction l as [|[k c] l IH]; intros t0 Hl; [reflexivity|].
    simpl in Hl. apply andb_true_iff in Hl as [Hc Hl].
    simpl map. simpl for_each. unfold bind.
    pose proof (classify_shaped c t0 Hc) as E.
    destruct (classify c t0) as [[[]|e] t1]; simpl in E; [|discriminate].
    now apply IH. }
  specialize (Hrun convs tally0 Hall).
  destruct (for_each classify (map snd convs) tally0) as [[[]|e] t];
    simpl in Hrun; [|discriminate].
  unfold percent, truediv, rbind.
  destruct (Z.of_nat (List.length convs) =? 0) eqn:Ez.
  - apply Z.eqb_eq in Ez. destruct convs; [contradiction|]. simpl in Ez. lia.
  - eexists. reflexivity.
Qed.

End StatsMore.

(** ** The first pass of [analyze_logs] (analyze_logs.py, lines 11-39) *)

Section LogsMore.

Variable json_loads : string -> option json.

#[local] Abbreviation lprocess_line := (Logs.process_line json_loads).
#[local] Abbreviation lrun := (Logs.run json_loads).
#[local] Abbreviation lbody_of := (Logs.body_of json_loads).
#[local] Abbreviation lline_record := (Logs.line_record json_loads).

Lemma logs_header_shape (log event_type request_id : json) :
  Logs.record_header log = Ok (Some (event_type, request_id)) ->
  exists d sd,
    log = JObj d /\
    assoc_get (KStr "span") d = Some (JObj sd) /\
    assoc_get (KStr "request_id") sd = Some request_id.
Proof.
  unfold Logs.record_header, rbind.
  destruct log as [| | |s|l|d]; simpl; try discriminate.
  destruct (assoc_get (KStr "fields") d) as [fields|]; [|discriminate].
  destruct (py_in "event_type" fields) as [[|]|]; simpl; try discriminate.
  destruct (py_getitem fields "event_type") as [et|]; [|discriminate].
  destruct (Logs.known_event et); simpl; [|discriminate].
  destruct (assoc_get (KStr "span") d) as [[| | | | |sd]|] eqn:Es;
    simpl; try discriminate.
  destruct (assoc_get (KStr "request_id") sd) as [rid|] eqn:Er;
    simpl; [|discriminate].
  destruct (truthy rid); simpl; [|discriminate].
  intros [= <- <-]. exists d, sd. auto.
Qed.

Lemma logs_line_record_loads (line : string) (log event_type request_id : json) :
  lline_record line = Some (log, event_type, request_id) ->
  json_loads (Str.strip line) = Some log /\
  Logs.record_header log = Ok (Some (event_type, request_id)).
Proof.
  unfold Logs.line_record.
  destruct (json_loads (Str.strip line)) as [log'|]; [|discriminate].
  destruct (Logs.record_header log') as [[[et rid]|]|] eqn:Eh;
    try discriminate.
  intros H. injection H as <- <- <-. auto.
Qed.

(** The request branch writes its three fields at once, or raises before
    it has written anything. *)
Lemma logs_request_branch_eq (log event_type request_id : json)
    (t : Logs.table) :
  Logs.record_header log = Ok (Some (event_type, request_id)) ->
  Logs.request_branch json_loads log request_id t =
  match lbody_of log, to_key request_id with
  | Ok body, Ok k =>
      (Ok tt, upsert Logs.default_conv k (Logs.request_update log body) t)
  | Ok _, Raise e => (Raise e, t)
  | Raise e, _ => (Raise e, t)
  end.
Proof.
  intros H. apply logs_header_shape in H.
  destruct H as (d & sd & -> & Hs & _).
  unfold Logs.request_branch, Logs.set_field, bind, lift, ret, modify.
  unfold Logs.request_update, Conversations.span_field.
  destruct (lbody_of (JObj d)) as [body|]; [|reflexivity].
  destruct (to_key request_id) as [k|]; [|reflexivity].
  simpl. rewrite Hs. simpl.
  destruct (assoc_get (KStr "model") sd), (assoc_get (KStr "api_key_name") sd);
    simpl; rewrite !upsert_upsert; reflexivity.
Qed.

Lemma logs_response_branch_eq (log request_id : json) (t : Logs.table) :
  Logs.response_branch json_loads log request_id t =
  match lbody_of log, to_key request_id with
  | Ok body, Ok k =>
      (Ok tt, upsert Logs.default_conv k (Logs.set_response body) t)
  | Ok _, Raise e => (Raise e, t)
  | Raise e, _ => (Raise e, t)
  end.
Proof.
  unfold Logs.response_branch, Logs.set_field, bind, lift, ret, modify.
  destruct (lbody_of log) as [body|]; [|reflexivity].
  destruct (to_key request_id) as [k|]; reflexivity.
Qed.

(** What a line that is a request or a response record does. *)
Lemma logs_process_record_line (line : string) (log event_type request_id : json)
    (t : Logs.table) :
  lline_record line = Some (log, event_type, request_id) ->
  lprocess_line line t =
  match lbody_of log, to_key request_id with
  | Ok body, Ok k =>
      (Ok tt,
       if eq_str event_type "request_body"
       then upsert Logs.default_conv k (Logs.request_update log body) t
       else upsert Logs.default_conv k (Logs.set_response body) t)
  | Ok _, Raise _ => (Raise TypeError, t)
  | Raise JSONDecodeError, _ | Raise KeyError, _ => (Ok tt, t)
  | Raise e, _ => (Raise e, t)
  end.
Proof.
  intros H. apply logs_line_record_loads in H as [Hl Hh].
  assert (Hk : Logs.known_event event_type = true).
  { revert Hh. unfold Logs.record_header, rbind.
    destruct (py_get log "fields" (JObj [])) as [f|]; [|discriminate].
    destruct (py_in "event_type" f) as [[|]|]; simpl; try discriminate.
    destruct (py_getitem log "fields") as [f'|]; [|discriminate].
    destruct (py_getitem f' "event_type") as [et|]; [|discriminate].
    destruct (Logs.known_event et) eqn:Ek; simpl; [|discriminate].
    destruct (py_get log "span" (JObj [])) as [sp|]; [|discriminate].
    destruct (py_get sp "request_id" JNull) as [r|]; [|discriminate].
    destruct (truthy r); simpl; [|discriminate].
    now intros [= <- _]. }
  unfold Logs.process_line, try_except.
  rewrite Hl. unfold Logs.process_record, bind, lift. rewrite Hh.
  unfold Logs.known_event in Hk.
  destruct (eq_str event_type "request_body") eqn:Eq.
  - rewrite (logs_request_branch_eq _ _ _ t Hh).
    destruct (lbody_of log) as [body|[]];
      try reflexivity.
    destruct (to_key request_id) as [k|e] eqn:Ek; [reflexivity|].
    apply to_key_raises in Ek. now subst.
  - simpl in Hk. rewrite Hk. rewrite logs_response_branch_eq.
    destruct (lbody_of log) as [body|[]];
      try reflexivity.
    destruct (to_key request_id) as [k|e] eqn:Ek; [reflexivity|].
    apply to_key_raises in Ek. now subst.
Qed.

Lemma logs_run_nil (t : Logs.table) : lrun [] t = Ok t.
Proof. reflexivity. Qed.

Lemma logs_run_cons (line : string) (lines : list string) (t : Logs.table) :
  lrun (line :: lines) t =
  match lprocess_line line t with
  | (Ok _, t') => lrun lines t'
  | (Raise e, _) => Raise e
  end.
Proof.
  unfold Logs.run. simpl. unfold bind.
  destruct (lprocess_line line t) as [[[]|e] t']; reflexivity.
Qed.



(** X22: in [analyze_logs] a request record and a response record of one
    request id, both with decoded bodies, end in one entry that holds the
    request with its model and API key and the response, whichever of the two
    comes first. *)
Theorem logs_records_merge
    (lq ls : string) (log_q log_s request_id body_q body_s : json)
    (k : pykey) (t : Logs.table) :
  lline_record lq = Some (log_q, JStr "request_body", request_id) ->
  lline_record ls = Some (log_s, JStr "response_body", request_id) ->
  lbody_of log_q = Ok body_q ->
  lbody_of log_s = Ok body_s ->
  to_key request_id = Ok k ->
  lrun [ls; lq] t = lrun [lq; ls] t /\
  exists t' c,
    lrun [lq; ls] t = Ok t' /\
    assoc_get k t' = Some c /\
    Logs.request c = body_q /\
    Logs.response c = body_s /\
    Logs.model c = Some (Conversations.span_field log_q "model") /\
    Logs.api_key c = Some (Conversations.span_field log_q "api_key_name").
Proof.
  intros Hq Hs Bq Bs Hk.
  assert (E1 : lrun [lq; ls] t
               = Ok (upsert Logs.default_conv k
                       (fun c => Logs.set_response body_s
                                   (Logs.request_update log_q body_q c)) t)).
  { rewrite logs_run_cons, (logs_process_record_line _ _ _ _ t Hq), Bq, Hk.
    rewrite logs_run_cons, (logs_process_record_line _ _ _ _ _ Hs), Bs, Hk.
    simpl eq_str. cbv iota. now rewrite logs_run_nil, upsert_upsert. }
  assert (E2 : lrun [ls; lq] t = lrun [lq; ls] t).
  { rewrite E1.
    rewrite logs_run_cons, (logs_process_record_line _ _ _ _ t Hs), Bs, Hk.
    rewrite logs_run_cons, (logs_process_record_line _ _ _ _ _ Hq), Bq, Hk.
    simpl eq_str. cbv iota. rewrite logs_run_nil, upsert_upsert.
    reflexivity. }
  split; [exact E2|].
  do 2 eexists. split; [exact E1|].
  split; [apply assoc_get_upsert_same|]. repeat split.
Qed.

(** X23: the table of [analyze_logs] never holds two entries for one
    request id, and it holds no entry that a line did not put there: every
    key is the request id of a request or response record of the log whose
    body was decoded. *)
Theorem logs_entries_from_records (lines : list string) (t : Logs.table) :
  Logs.analyze_logs json_loads lines = Ok t ->
  keys_distinct t /\
  forall k, In k (map fst t) ->
    exists line log event_type request_id body,
      In line lines /\
      lline_record line = Some (log, event_type, request_id) /\
      to_key request_id = Ok k /\
      lbody_of log = Ok body.
Proof.
  unfold Logs.analyze_logs.
  assert (H : forall t0, keys_distinct t0 -> lrun lines t0 = Ok t ->
            keys_distinct t /\
            forall k, In k (map fst t) ->
              In k (map fst t0) \/
              exists line log event_type request_id body,
                In line lines /\
                lline_record line = Some (log, event_type, request_id) /\
                to_key request_id = Ok k /\
                lbody_of log = Ok body).
  { induction lines as [|l lines IH]; intros t0 H0.
    - rewrite logs_run_nil. intros [= <-]. split; [exact H0 | auto].
    - rewrite logs_run_cons.
      assert (Hlift : forall t1,
                keys_distinct t1 ->
                (forall k, In k (map fst t1) ->
                   In k (map fst t0) \/
                   exists log event_type request_id body,
                     lline_record l = Some (log, event_type, request_id) /\
                     to_key request_id = Ok k /\
                     lbody_of log = Ok body) ->
                lrun lines t1 = Ok t ->
                keys_distinct t /\
                forall k, In k (map fst t) ->
                  In k (map fst t0) \/
                  exists line log event_type request_id body,
                    In line (l :: lines) /\
                    lline_record line = Some (log, event_type, request_id) /\
                    to_key request_id = Ok k /\
                    lbody_of log = Ok body).
      { intros t1 H1 Hk Hrun. destruct (IH t1 H1 Hrun) as [Hd Hin].
        split; [exact Hd|]. intros k Hk'.
        destruct (Hin k Hk') as [Hold | (line & log & et & rid & body & Hl & Hr)].
        - destruct (Hk k Hold) as [Ht0 | (log & et & rid & body & Hr)];
            [now left|].
          right. exists l, log, et, rid, body. split; [now left | exact Hr].
        - right. exists line, log, et, rid, body.
          split; [now right | exact Hr]. }
      destruct (lline_record l) as [[[log et] rid]|] eqn:Er.
      + rewrite (logs_process_record_line _ _ _ _ t0 Er).
        destruct (lbody_of log) as [body|[]] eqn:Eb; try discriminate;
          try (apply Hlift; [exact H0 | now left]).
        destruct (to_key rid) as [k0|] eqn:Ek; [|discriminate].
        assert (Hnew : forall f k,
                  In k (map fst (upsert Logs.default_conv k0 f t0)) ->
                  In k (map fst t0) \/
                  exists log' et' rid' body',
                    Some (log, et, rid) = Some (log', et', rid') /\
                    to_key rid' = Ok k /\ lbody_of log' = Ok body').
        { intros f k. rewrite upsert_keys, in_app_iff.
          intros [Hk | Hk]; [now left|].
          destruct (assoc_get k0 t0); [contradiction|].
          destruct Hk as [<- | []].
          right. exists log, et, rid, body. now repeat split. }
        destruct (eq_str et "request_body");
          (apply Hlift; [now apply upsert_keys_distinct | apply Hnew]).
      + assert (E : exists r, lprocess_line l t0 = (r, t0)).
        { unfold Logs.process_line, Logs.line_record, try_except in *.
          destruct (json_loads (Str.strip l)) as [log|];
            [|eexists; reflexivity].
          unfold Logs.process_record, bind, lift.
          destruct (Logs.record_header log) as [[[et rid]|]|[]];
            try discriminate; eexists; reflexivity. }
        destruct E as [r E]. rewrite E.
        destruct r as [[]|e]; [|discriminate].
        apply Hlift; [exact H0 | now left]. }
  intros Hrun. destruct (H [] I Hrun) as [Hd Hin].
  split; [exact Hd|]. intros k Hk.
  destruct (Hin k Hk) as [[] | Hex]. exact Hex.
Qed.

End LogsMore.

(** ** Runs of the further properties on concrete inputs *)


Lemma malformed_record_aborts_witness :
  Conversations.run JsonRef.loads
    ([Sample.request_r1] ++ MoreSamples.number_line :: [Sample.response_r1]) []
  = Raise TypeError.
Proof.
  eapply (malformed_record_aborts JsonRef.loads MoreSamples.number_line
            (JInt 5) TypeError).
  - vm_compute. reflexivity.
  - apply scalar_document. exact I.
  - vm_compute. reflexivity.
Defined.

Lemma unhashable_request_id_witness :
  Conversations.run JsonRef.loads
    ([Sample.request_r1] ++ MoreSamples.request_list_id :: [Sample.response_r1])
    []
  = Conversations.run JsonRef.loads
      ([Sample.request_r1] ++ [Sample.response_r1]) [] /\
  Conversations.run JsonRef.loads
    ([Sample.request_r1] ++ MoreSamples.response_list_id :: [Sample.response_r1])
    []
  = Raise TypeError.
Proof.
  split.
  - edestruct (unhashable_request_id JsonRef.loads MoreSamples.request_list_id)
      with (before := [Sample.request_r1]) (after := [Sample.response_r1])
           (t := @nil (pykey * Conversations.conv)) as [H _];
      [vm_compute; reflexivity | vm_compute; reflexivity |].
    apply H. reflexivity.
  - edestruct (unhashable_request_id JsonRef.loads MoreSamples.response_list_id)
      with (before := [Sample.request_r1]) (after := [Sample.response_r1])
           (t := @nil (pykey * Conversations.conv)) as [_ H];
      [vm_compute; reflexivity | vm_compute; reflexivity |].
    eapply H; [reflexivity | vm_compute; reflexivity].
Defined.

Lemma entry_creation_witness :
  Conversations.run JsonRef.loads [MoreSamples.request_broken_body] [] = Ok [] /\
  exists t' c,
    Conversations.run JsonRef.loads [Sample.response_r1_broken] [] = Ok t' /\
    assoc_get (KStr "r1") t' = Some c.
Proof.
  split.
  - edestruct (entry_creation JsonRef.loads MoreSamples.request_broken_body)
      with (t := @nil (pykey * Conversations.conv)) as [H _].
    eapply H; vm_compute; reflexivity.
  - edestruct (entry_creation JsonRef.loads Sample.response_r1_broken)
      with (t := @nil (pykey * Conversations.conv)) as [_ H].
    eapply H; vm_compute; reflexivity.
Defined.

Lemma table_grows_at_end_witness :
  exists t' added,
    Conversations.run JsonRef.loads
      [Sample.response_r1; MoreSamples.request_broken_body; Sample.request_r1]
      [(KStr "r0", Conversations.default_conv)] = Ok t' /\
    map fst t' = [KStr "r0"] ++ added.
Proof.
  destruct (Conversations.run JsonRef.loads
              [Sample.response_r1; MoreSamples.request_broken_body;
               Sample.request_r1]
              [(KStr "r0", Conversations.default_conv)]) as [t'|e] eqn:E;
    [|vm_compute in E; discriminate].
  destruct (table_grows_at_end JsonRef.loads _ _ _ E) as [added Ha].
  exists t', added. split; [reflexivity | exact Ha].
Defined.

Lemma extract_text_concatenates_witness :
  Conversations.extract_text (JObj [(KStr "usage", JObj [])]) = Ok "" /\
  Conversations.extract_text
    (JObj [(KStr "content",
            JArr [JObj [(KStr "text", JStr "A")]; JStr "skipped";
                  JObj [(KStr "text", JStr "B")]])]) = Ok "AB".
Proof.
  split.
  - apply (proj1 (extract_text_concatenates [(KStr "usage", JObj [])])).
    reflexivity.
  - apply (proj2 (extract_text_concatenates
                    [(KStr "content",
                      JArr [JObj [(KStr "text", JStr "A")]; JStr "skipped";
                            JObj [(KStr "text", JStr "B")]])])
             [JObj [(KStr "text", JStr "A")]; JStr "skipped";
              JObj [(KStr "text", JStr "B")]]).
    reflexivity.
Defined.

Lemma decoded_response_attached_witness :
  exists c,
    assoc_get (KStr "r1")
      (snd (Conversations.response_branch JsonRef.loads
              (Sample.record_r1 MoreSamples.document_fields) (JStr "r1") []))
    = Some c /\
    Conversations.response_text c = Some "AB" /\
    Conversations.usage c = Some (JObj [(KStr "input_tokens", JInt 5)]) /\
    Conversations.parse_error c = None.
Proof.
  edestruct (decoded_response_attached JsonRef.loads
               (Sample.record_r1 MoreSamples.document_fields) (JStr "r1")
               MoreSamples.document_fields)
    with (t := @nil (pykey * Conversations.conv))
    as (c & _ & Hc & Ht & Hu & He & _);
    [ vm_compute; reflexivity | vm_compute; reflexivity
    | vm_compute; reflexivity | vm_compute; reflexivity
    | vm_compute; reflexivity | vm_compute; reflexivity
    | vm_compute; reflexivity | ].
  exists c. split; [exact Hc|]. split; [exact Ht|].
  split; [exact Hu | exact He].
Defined.

Lemma non_dict_response_half_attached_witness :
  exists c,
    assoc_get (KStr "r1")
      (snd (Conversations.response_branch JsonRef.loads
              (Sample.record_r1 MoreSamples.list_fields) (JStr "r1") []))
    = Some c /\
    Conversations.response_text c = Some "" /\
    Conversations.usage c = None /\
    Conversations.parse_error c = Some AttributeError.
Proof.
  edestruct (non_dict_response_half_attached JsonRef.loads
               (Sample.record_r1 MoreSamples.list_fields) (JStr "r1")
               MoreSamples.list_fields)
    with (t := @nil (pykey * Conversations.conv))
    as (c & _ & Hc & Ht & Hu & He);
    [ vm_compute; reflexivity | vm_compute; reflexivity
    | vm_compute; reflexivity | vm_compute; reflexivity
    | vm_compute; reflexivity | vm_compute; reflexivity
    | vm_compute; reflexivity | vm_compute; reflexivity | ].
  exists c. split; [exact Hc|]. split; [exact Ht|].
  split; [exact Hu | exact He].
Defined.

Lemma summary_totals_witness :
  exists s,
    Conversations.summarize Sample.cached_table = Ok s /\
    Conversations.total_input s = 0 /\
    Conversations.total_output s = 2 /\
    Conversations.total_cache_read s = 5 /\
    Conversations.total_cache_create s = 0.
Proof.
  destruct (summary_totals Sample.cached_table)
    as (s & Hs & _ & H1 & H2 & H3 & H4); [vm_compute; reflexivity|].
  exists s. split; [exact Hs|].
  split; [exact H1|]. split; [exact H2|]. split; [exact H3 | exact H4].
Defined.

Lemma summary_raises_on_bad_usage_witness :
  Conversations.summarize MoreSamples.bad_usage_table = Raise TypeError.
Proof.
  apply (summary_raises_on_bad_usage MoreSamples.bad_usage_table [] []
           (KStr "r1")
           (Conversations.mkConv
              (JObj [(KStr "model", JStr "m1")]) JNull None None
              None None (Some "hi")
              (Some (JObj [(KStr "input_tokens", JStr "5")])) None));
    vm_compute; reflexivity.
Defined.

Lemma requests_and_errors_counted_witness :
  exists st,
    Report.first_pass JsonRef.loads
      [Sample.request_r1; MoreSamples.error_line;
       MoreSamples.request_broken_body; Sample.response_r1] = Ok st /\
    Report.total_requests st = 2 /\
    Z.of_nat (List.length (Report.errors st)) = 1 /\
    counter_total (Report.error_counts st) = 1.
Proof.
  destruct (Report.first_pass JsonRef.loads
              [Sample.request_r1; MoreSamples.error_line;
               MoreSamples.request_broken_body; Sample.response_r1])
    as [st|e] eqn:E; [|vm_compute in E; discriminate].
  destruct (requests_and_errors_counted JsonRef.loads _ st E) as (H1 & H2 & H3).
  exists st. split; [reflexivity|].
  split; [exact H1|]. split; [exact H2|]. rewrite H3. exact H2.
Defined.

Lemma statistics_nested_witness :
  exists st,
    Report.first_pass JsonRef.loads
      [Sample.request_r1; Sample.request_r1; MoreSamples.request_broken_body]
      = Ok st /\
    Z.of_nat (List.length (Report.conversations st))
    <= counter_total (Report.models st) <= Report.total_requests st.
Proof.
  destruct (Report.first_pass JsonRef.loads
              [Sample.request_r1; Sample.request_r1;
               MoreSamples.request_broken_body])
    as [st|e] eqn:E; [|vm_compute in E; discriminate].
  destruct (statistics_nested JsonRef.loads _ st E) as (H1 & H2 & H3 & H4).
  exists st. split; [reflexivity|]. lia.
Defined.

Lemma interaction_counts_bounded_witness :
  exists f,
    Report.interaction_stats MoreSamples.report_table = Ok f /\
    Report.has_cache (Report.counts f)
    <= Report.has_system_prompt (Report.counts f) <= 1.
Proof.
  destruct (Report.interaction_stats MoreSamples.report_table) as [f|e] eqn:E;
    [|vm_compute in E; discriminate].
  destruct (interaction_counts_bounded _ f E) as (_ & _ & _ & H1 & H2 & _).
  exists f. split; [reflexivity|]. simpl in H2. lia.
Defined.

Lemma interaction_stats_succeed_witness :
  exists f, Report.interaction_stats MoreSamples.report_table = Ok f.
Proof.
  apply interaction_stats_succeed; [discriminate | vm_compute; reflexivity].
Defined.


Lemma logs_records_merge_witness :
  Logs.run JsonRef.loads [MoreSamples.logs_response; MoreSamples.logs_request] []
  = Logs.run JsonRef.loads [MoreSamples.logs_request; MoreSamples.logs_response] []
  /\
  exists t' c,
    Logs.run JsonRef.loads
      [MoreSamples.logs_request; MoreSamples.logs_response] [] = Ok t' /\
    assoc_get (KStr "r1") t' = Some c /\
    Logs.request c = JObj [(KStr "model", JStr "m1")] /\
    Logs.response c = JObj [(KStr "content", JArr [])].
Proof.
  edestruct (logs_records_merge JsonRef.loads MoreSamples.logs_request
               MoreSamples.logs_response)
    with (t := @nil (pykey * Logs.conv))
    as (H1 & t' & c & H2 & H3 & H4 & H5 & _);
    [ vm_compute; reflexivity | vm_compute; reflexivity
    | vm_compute; reflexivity | vm_compute; reflexivity
    | vm_compute; reflexivity | ].
  split; [exact H1|]. exists t', c.
  split; [exact H2|]. split; [exact H3|]. split; [exact H4 | exact H5].
Defined.

Lemma logs_entries_from_records_witness :
  exists t,
    Logs.analyze_logs JsonRef.loads
      [MoreSamples.logs_response; MoreSamples.logs_request;
       MoreSamples.logs_stream_response] = Ok t /\
    keys_distinct t /\
    map fst t = [KStr "r1"].
Proof.
  destruct (Logs.analyze_logs JsonRef.loads
              [MoreSamples.logs_response; MoreSamples.logs_request;
               MoreSamples.logs_stream_response]) as [t|e] eqn:E;
    [|vm_compute in E; discriminate].
  exists t. split; [reflexivity|].
  split; [exact (proj1 (logs_entries_from_records JsonRef.loads _ t E))|].
  vm_compute in E. now injection E as <-.
Defined.
